(** * Disaster-Analyzer: the hazard-signal aggregation engine of [app.py]

    A shallow embedding of the hazard checks and of the aggregator
    [collect_signals_for_location] of [src/app.py], and the properties of
    the specification proved (or refuted) on it.

    Modelling conventions.

    - Python values are the terms of [value]: [None], booleans, numbers,
      strings, lists and dictionaries with string keys (the decoded JSON of
      the feeds, and the dictionaries the checks return).  A dictionary is an
      association list in insertion order; its first binding of a key is the
      one [dict.get] sees.
    - A number is an exact rational or one of the IEEE specials ([num]).
      Comparisons are the exact ones of Python; the rounding and overflow of
      float arithmetic and the int/float distinction are not modelled, with
      one exception: [float] of the magnitude estimate raises on a number
      beyond the range of binary64, which only an int of the feed can be
      ([float_of_estimate]).
    - An exception is a term of [exn].  [str(e)] of an exception raised by
      the network layer is the message the world supplies; for a built-in
      error it is rendered as the class name.
    - [haversine_km] is read over the real numbers: the formula of the
      source with exact arithmetic in place of binary64 rounding.
    - The Overpass client is the library overpy, whose [Way] and [Relation]
      have no method [get_center]: the call raises AttributeError
      ([get_center], [ward_way]).
    - Everything outside the process (HTTP feeds, geocoder, Overpass
      look-ups, the clock) is the [world]: an oracle that answers each
      request, knowing the requests issued before it.  Code that performs
      requests lives in the monad [M], which threads the request log and
      an exception outcome. *)

From Stdlib Require Import List String Ascii ZArith QArith Bool Lia.
From Stdlib Require Import Reals Lra Psatz.
From Stdlib Require Import Sorted Permutation.
Import ListNotations.
Close Scope Q_scope.
Close Scope R_scope.
Open Scope string_scope.
Open Scope list_scope.

(* ------------------------------------------------------------------ *)
(** ** Numbers *)

Inductive num : Type :=
| Fin (q : Q)
| PInf
| NInf
| NaN.

(** Three-way comparison; [None] when an operand is NaN (every ordered
    comparison with NaN is false). *)
Definition num_compare (x y : num) : option comparison :=
  match x, y with
  | NaN, _ | _, NaN => None
  | Fin p, Fin q => Some (p ?= q)%Q
  | PInf, PInf | NInf, NInf => Some Eq
  | PInf, _ | _, NInf => Some Gt
  | NInf, _ | _, PInf => Some Lt
  end.

Inductive cmpop : Type := OpLt | OpLe | OpGt | OpGe.

Definition cmp_holds (op : cmpop) (c : option comparison) : bool :=
  match op, c with
  | OpLt, Some Lt => true
  | OpLe, Some (Lt | Eq) => true
  | OpGt, Some Gt => true
  | OpGe, Some (Gt | Eq) => true
  | _, _ => false
  end.

Definition num_cmp (op : cmpop) (x y : num) : bool :=
  cmp_holds op (num_compare x y).

Definition num_eqb (x y : num) : bool :=
  match num_compare x y with Some Eq => true | _ => false end.

Definition num_add (x y : num) : num :=
  match x, y with
  | NaN, _ | _, NaN => NaN
  | Fin p, Fin q => Fin (p + q)
  | PInf, NInf | NInf, PInf => NaN
  | PInf, _ | _, PInf => PInf
  | NInf, _ | _, NInf => NInf
  end.

Definition num_nonzero (x : num) : bool :=
  match x with
  | Fin q => negb (Qeq_bool q 0)
  | _ => true
  end.

Definition nat_num (n : nat) : num := Fin (inject_Z (Z.of_nat n)).

(* ------------------------------------------------------------------ *)
(** ** Python values *)

#[warnings="-register-all"]
Inductive value : Type :=
| VNone
| VBool (b : bool)
| VNum (x : num)
| VStr (s : string)
| VList (l : list value)
| VDict (d : list (string * value)).

Definition vnum (q : Q) : value := VNum (Fin q).

Inductive exn : Type :=
| ExternalError (msg : string)   (* raised by requests, geopy or overpy *)
| AttributeError
| TypeError
| ValueError
| KeyError.

Definition str_exn (e : exn) : string :=
  match e with
  | ExternalError msg => msg
  | AttributeError => "AttributeError"
  | TypeError => "TypeError"
  | ValueError => "ValueError"
  | KeyError => "KeyError"
  end.

Inductive outcome (A : Type) : Type :=
| Ok (a : A)
| Raise (e : exn).
Arguments Ok {A} a.
Arguments Raise {A} e.

Definition obind {A B} (o : outcome A) (k : A -> outcome B) : outcome B :=
  match o with
  | Ok a => k a
  | Raise e => Raise e
  end.

Declare Scope outcome_scope.
Delimit Scope outcome_scope with outcome.
Notation "x <- e ;; k" := (obind e (fun x => k))
  (at level 61, e at next level, right associativity) : outcome_scope.
Notation "' p <- e ;; k" := (obind e (fun x => match x with p => k end))
  (at level 61, p pattern, e at next level, right associativity) : outcome_scope.

(** Association-list lookup: the binding [d[k]] of a dictionary. *)
Fixpoint assoc (k : string) (d : list (string * value)) : option value :=
  match d with
  | [] => None
  | (k', v) :: d' => if String.eqb k k' then Some v else assoc k d'
  end.

Definition keys (d : list (string * value)) : list string := map fst d.

(** [v.get(k, default)]: only dictionaries have the method. *)
Definition py_get (v : value) (k : string) (default : value) : outcome value :=
  match v with
  | VDict d => Ok (match assoc k d with Some x => x | None => default end)
  | _ => Raise AttributeError
  end.

(** [k in v] for a value the code knows to be a dictionary. *)
Definition py_in (k : string) (v : value) : bool :=
  match v with
  | VDict d => match assoc k d with Some _ => true | None => false end
  | _ => false
  end.

Definition is_dict (v : value) : bool :=
  match v with VDict _ => true | _ => false end.

Definition as_num (v : value) : option num :=
  match v with
  | VBool b => Some (Fin (if b then 1 else 0))
  | VNum x => Some x
  | _ => None
  end.

Definition py_truthy (v : value) : bool :=
  match v with
  | VNone => false
  | VBool b => b
  | VNum x => num_nonzero x
  | VStr s => negb (String.eqb s "")
  | VList l => match l with [] => false | _ => true end
  | VDict d => match d with [] => false | _ => true end
  end.

(** [a or b] *)
Definition py_or (a b : value) : value := if py_truthy a then a else b.

Fixpoint chars (s : string) : list value :=
  match s with
  | EmptyString => []
  | String c s' => VStr (String c EmptyString) :: chars s'
  end.

(** The items a [for] loop or a comprehension draws from [v]. *)
Definition py_iter (v : value) : outcome (list value) :=
  match v with
  | VList l => Ok l
  | VDict d => Ok (map (fun kv => VStr (fst kv)) d)
  | VStr s => Ok (chars s)
  | _ => Raise TypeError
  end.

(** [a == b] (never raises on these values). *)
Fixpoint py_eq (a b : value) {struct a} : bool :=
  match a, b with
  | VNone, VNone => true
  | VStr s, VStr t => String.eqb s t
  | VList la, VList lb =>
      (fix eq_list (la lb : list value) {struct la} : bool :=
         match la, lb with
         | [], [] => true
         | x :: la', y :: lb' => py_eq x y && eq_list la' lb'
         | _, _ => false
         end) la lb
  | VDict da, VDict db =>
      Nat.eqb (List.length da) (List.length db) &&
      (fix sub (da : list (string * value)) : bool :=
         match da with
         | [] => true
         | (k, v) :: da' =>
             match assoc k db with
             | Some v' => py_eq v v'
             | None => false
             end && sub da'
         end) da
  | (VBool _ | VNum _), (VBool _ | VNum _) =>
      match as_num a, as_num b with
      | Some x, Some y => num_eqb x y
      | _, _ => false
      end
  | _, _ => false
  end.

(** Rich comparison of two values: numbers (and booleans) numerically,
    strings and lists lexicographically, anything else is a TypeError. *)
Fixpoint py_compare (a b : value) {struct a} : outcome (option comparison) :=
  match a, b with
  | (VBool _ | VNum _), (VBool _ | VNum _) =>
      match as_num a, as_num b with
      | Some x, Some y => Ok (num_compare x y)
      | _, _ => Raise TypeError
      end
  | VStr s, VStr t => Ok (Some (String.compare s t))
  | VList la, VList lb =>
      (fix cmp_list (la lb : list value) {struct la}
         : outcome (option comparison) :=
         match la, lb with
         | [], [] => Ok (Some Eq)
         | [], _ :: _ => Ok (Some Lt)
         | _ :: _, [] => Ok (Some Gt)
         | x :: la', y :: lb' =>
             if py_eq x y then cmp_list la' lb' else py_compare x y
         end) la lb
  | _, _ => Raise TypeError
  end.

Definition py_cmp (op : cmpop) (a b : value) : outcome bool :=
  obind (py_compare a b) (fun c => Ok (cmp_holds op c)).

(** [max(l)]: the first item, replaced by each later item that compares
    greater; ValueError on an empty sequence. *)
Fixpoint max_from (cur : value) (l : list value) : outcome value :=
  match l with
  | [] => Ok cur
  | x :: l' =>
      obind (py_cmp OpGt x cur) (fun gt => max_from (if gt then x else cur) l')
  end.

Definition py_max (l : list value) : outcome value :=
  match l with
  | [] => Raise ValueError
  | x :: l' => max_from x l'
  end.

(** [sum(l)]: starts from the integer 0; adding a non-number to a number
    is a TypeError. *)
Fixpoint sum_from (acc : num) (l : list value) : outcome num :=
  match l with
  | [] => Ok acc
  | x :: l' =>
      match as_num x with
      | Some n => sum_from (num_add acc n) l'
      | None => Raise TypeError
      end
  end.

Definition py_sum (l : list value) : outcome value :=
  obind (sum_from (Fin 0) l) (fun s => Ok (VNum s)).

(** [for x in l: items.append(f(x))], stopped by the first exception. *)
Fixpoint for_each {A B : Type} (f : A -> outcome B) (l : list A)
  : outcome (list B) :=
  match l with
  | [] => Ok []
  | x :: l' =>
      (y <- f x ;;
       ys <- for_each f l' ;;
       Ok (y :: ys))%outcome
  end.

(** [min(l)] on numbers, from the first one [d]: a later one takes its
    place when it compares smaller. *)
Fixpoint min_from (d : num) (l : list num) : num :=
  match l with
  | [] => d
  | x :: l' => min_from (if num_cmp OpLt x d then x else d) l'
  end.

(* ------------------------------------------------------------------ *)
(** ** The world and the request monad *)

(** One nearby point of interest as [find_hospitals] / [find_schools]
    build it ([directions_url] is present on hospitals only). *)
Record place : Type := {
  place_name : string;
  place_lat : num;
  place_lon : num;
  place_distance_km : num;
  place_type : string;
  place_directions_url : option string
}.

(** One way or relation of the answer to the coastline query, with the
    centre Overpass attaches to it ([out center]). *)
Record coast_element : Type := {
  center_lat : value;
  center_lon : value
}.

Record coast_answer : Type := {
  coast_ways : list coast_element;
  coast_relations : list coast_element
}.

Inductive request : Type :=
| ReqGeocode (place_text : string)
| ReqQuakeFeed (lat lon : num) (radius_km : Z)
| ReqCurrentWeather (lat lon : num)
| ReqSchools (lat lon : num)
| ReqHospitals (lat lon : num)
| ReqSnowForecast (lat lon : num)
| ReqWindForecast (lat lon : num)
| ReqCoastline (lat lon : num)
| ReqArchiveWeek (lat lon : num)
| ReqPrecipForecast (lat lon : num)
| ReqArchivePrecip (lat lon : num).

(** What the process cannot decide by itself.  Every oracle sees the log of
    the requests already issued, so that the same request may be answered
    differently at different moments.

    - [w_geocode]: [geolocator.geocode(place, timeout=10)]: an exception,
      no match, or a location;
    - [w_json]: [requests.get(url, ...).json()]: an exception (network,
      timeout, undecodable body) or the decoded document;
    - [w_places]: the Overpass look-up of [find_schools] / [find_hospitals]
      with the ranking by [haversine_km] and the truncation: an exception or
      the items;
    - [w_coast]: [api.query(q)] of the coastline sub-query of
      [check_tsunami]: an exception, or the ways and relations listed;
    - [w_haversine]: [haversine_km(lat, lon, a, b)] as the interpreter
      computes it, in binary64, for the queried point and the two
      coordinates of a coastline point; it raises on a coordinate that is
      not a number;
    - [w_float]: the built-in [float] applied to a string;
    - [w_repr]: the text an f-string gives a value that is not a string. *)
Record world : Type := {
  w_geocode : list request -> string -> outcome (option (num * num));
  w_json : list request -> request -> outcome value;
  w_places : list request -> request -> outcome (list place);
  w_coast : list request -> request -> outcome coast_answer;
  w_haversine : num -> num -> value -> value -> outcome num;
  w_float : string -> outcome num;
  w_repr : value -> string
}.

Definition M (A : Type) : Type := list request -> outcome A * list request.

Definition ret {A} (a : A) : M A := fun log => (Ok a, log).

Definition bind {A B} (m : M A) (k : A -> M B) : M B :=
  fun log =>
    match m log with
    | (Ok a, log') => k a log'
    | (Raise e, log') => (Raise e, log')
    end.

Definition lift {A} (o : outcome A) : M A := fun log => (o, log).

(** [try: m except Exception as e: h e] *)
Definition try_except {A} (m : M A) (h : exn -> M A) : M A :=
  fun log =>
    match m log with
    | (Ok a, log') => (Ok a, log')
    | (Raise e, log') => h e log'
    end.

Declare Scope M_scope.
Delimit Scope M_scope with M.
Notation "x <- e ;; k" := (bind e (fun x => k))
  (at level 61, e at next level, right associativity) : M_scope.

Definition get_json (w : world) (r : request) : M value :=
  fun log => (w_json w log r, log ++ [r]).

Definition get_places (w : world) (r : request) : M (list place) :=
  fun log => (w_places w log r, log ++ [r]).

(** [way.get_center()], [rel.get_center()] (lines 250 and 253).  The
    [Way] and [Relation] of overpy carry the centre as the attributes
    [center_lat] and [center_lon] and have no method [get_center]: the call
    raises AttributeError on every element. *)
Definition get_center (element : coast_element) : outcome (value * value) :=
  Raise AttributeError.

(** Lines 236-260: [min_coast_dist], from the answer to the coastline
    query.  Whatever is raised inside the inner [try] leaves it [None]. *)
Definition min_coast_distance (w : world) (lat lon : num)
    (answer : outcome coast_answer) : option num :=
  match (res <- answer ;;
         from_ways <- for_each get_center (coast_ways res) ;;
         from_relations <- for_each get_center (coast_relations res) ;;
         let coast_points := from_ways ++ from_relations in
         match coast_points with
         | [] => Ok None
         | _ :: _ =>
             dists <- for_each
                        (fun p => w_haversine w lat lon (fst p) (snd p))
                        coast_points ;;
             match dists with
             | [] => Raise ValueError
             | d :: rest => Ok (Some (min_from d rest))
             end
         end)%outcome with
  | Ok min_coast_dist => min_coast_dist
  | Raise _ => None
  end.

Definition coast_distance (w : world) (lat lon : num) (log : list request)
  : option num :=
  min_coast_distance w lat lon (w_coast w log (ReqCoastline lat lon)).

Definition get_coast (w : world) (lat lon : num) : M (option num) :=
  fun log => (Ok (coast_distance w lat lon log),
              log ++ [ReqCoastline lat lon]).

Definition get_geocode (w : world) (place_text : string)
  : M (option (num * num)) :=
  fun log => (w_geocode w log place_text, log ++ [ReqGeocode place_text]).

(** [{"error": str(e)}] *)
Definition error_dict (e : exn) : value :=
  VDict [("error", VStr (str_exn e))].

(* ------------------------------------------------------------------ *)
(** ** [haversine_km] (app.py, lines 69-75) *)

(** [math.radians] *)
Definition radians (x : R) : R := (x * (PI / 180))%R.

Definition haversine_km (lat1 lon1 lat2 lon2 : R) : R :=
  (let lon1 := radians lon1 in
   let lat1 := radians lat1 in
   let lon2 := radians lon2 in
   let lat2 := radians lat2 in
   let dlon := lon2 - lon1 in
   let dlat := lat2 - lat1 in
   let a := sin (dlat / 2) ^ 2 + cos lat1 * cos lat2 * sin (dlon / 2) ^ 2 in
   let c := 2 * asin (sqrt a) in
   6371 * c)%R.

(** The quantity [a] of [haversine_km], whose square root goes to
    [asin]. *)
Definition haversine_a (lat1 lon1 lat2 lon2 : R) : R :=
  (sin ((radians lat2 - radians lat1) / 2) ^ 2
   + cos (radians lat1) * cos (radians lat2)
     * sin ((radians lon2 - radians lon1) / 2) ^ 2)%R.

(* ------------------------------------------------------------------ *)
(** ** [check_earthquake] (app.py, lines 92-119) *)

(** The loop over the events, threading [max_mag] and [recent]. *)
Fixpoint quake_loop (evs : list value) (max_mag : value) (recent : list value)
  : outcome (value * list value) :=
  match evs with
  | [] => Ok (max_mag, recent)
  | ev :: rest =>
      (props <- py_get ev "properties" (VDict []) ;;
       m <- py_get props "mag" VNone ;;
       let mag := py_or m (vnum 0) in
       time_ms <- py_get props "time" VNone ;;
       place <- py_get props "place" VNone ;;
       let recent' :=
         recent ++ [VDict [("mag", mag); ("place", place); ("time", time_ms)]] in
       gt <- py_cmp OpGt mag max_mag ;;
       quake_loop rest (if gt then mag else max_mag) recent')%outcome
  end.

Definition check_earthquake_body (data : value) : outcome value :=
  (events <- py_get data "features" (VList []) ;;
   evs <- py_iter events ;;
   '(max_mag, recent) <- quake_loop evs (vnum 0) [] ;;
   possible <- py_cmp OpGe max_mag (vnum 4.5) ;;
   Ok (VDict [("possible", VBool possible);
              ("magnitude_estimate", max_mag);
              ("count", VNum (nat_num (List.length evs)));
              ("recent", VList recent);
              ("raw", data)]))%outcome.

Definition check_earthquake (w : world) (lat lon : num) (radius_km : Z)
  : M value :=
  try_except
    (data <- get_json w (ReqQuakeFeed lat lon radius_km) ;;
     lift (check_earthquake_body data))%M
    (fun e => ret (error_dict e)).

(* ------------------------------------------------------------------ *)
(** ** [get_weather] (lines 121-129) *)

Definition get_weather_body (d : value) : outcome value :=
  (cur <- py_get d "current_weather" (VDict []) ;;
   temperature <- py_get cur "temperature" VNone ;;
   windspeed <- py_get cur "windspeed" VNone ;;
   Ok (VDict [("temperature_c", temperature);
              ("wind_kph", windspeed);
              ("raw", d)]))%outcome.

Definition get_weather (w : world) (lat lon : num) : M value :=
  try_except
    (d <- get_json w (ReqCurrentWeather lat lon) ;;
     lift (get_weather_body d))%M
    (fun e => ret (error_dict e)).

(* ------------------------------------------------------------------ *)
(** ** [find_schools], [find_hospitals] (lines 131-182)

    The Overpass query, the distances and the ranking are the world's
    ([w_places]); what is modelled is the dictionary each function returns. *)

Definition school_item (p : place) : value :=
  VDict [("name", VStr (place_name p));
         ("lat", VNum (place_lat p));
         ("lon", VNum (place_lon p));
         ("distance_km", VNum (place_distance_km p));
         ("type", VStr (place_type p))].

Definition hospital_item (p : place) : value :=
  VDict [("name", VStr (place_name p));
         ("lat", VNum (place_lat p));
         ("lon", VNum (place_lon p));
         ("distance_km", VNum (place_distance_km p));
         ("type", VStr (place_type p));
         ("directions_url",
          match place_directions_url p with
          | Some u => VStr u
          | None => VNone
          end)].

Definition find_schools (w : world) (lat lon : num) : M value :=
  try_except
    (items <- get_places w (ReqSchools lat lon) ;;
     ret (VDict [("shelters", VList (map school_item items))]))%M
    (fun e => ret (error_dict e)).

Definition find_hospitals (w : world) (lat lon : num) : M value :=
  try_except
    (items <- get_places w (ReqHospitals lat lon) ;;
     ret (VDict [("hospitals", VList (map hospital_item items))]))%M
    (fun e => ret (error_dict e)).

(* ------------------------------------------------------------------ *)
(** ** [check_snowfall] (lines 184-210) *)

Definition check_snowfall_body (d : value) : outcome value :=
  (daily <- py_get d "daily" (VDict []) ;;
   snowfall <- py_get daily "snowfall_sum" VNone ;;
   if py_truthy snowfall then
     items <- py_iter snowfall ;;
     max_snow <- py_max (map (fun v => py_or v (vnum 0)) items) ;;
     ge10 <- py_cmp OpGe max_snow (vnum 10) ;;
     sev <- (if ge10 then Ok "high"
             else ge2 <- py_cmp OpGe max_snow (vnum 2) ;;
                  Ok (if ge2 then "moderate" else "low")) ;;
     possible <- py_cmp OpGt max_snow (vnum 0) ;;
     Ok (VDict [("possible", VBool possible);
                ("max_snowfall", max_snow);
                ("severity", VStr sev);
                ("raw", d)])
   else
     cur <- py_get d "current_weather" (VDict []) ;;
     temp <- py_get cur "temperature" VNone ;;
     match temp with
     | VNone =>
         Ok (VDict [("error", VStr "no snowfall or current_weather data");
                    ("raw", d)])
     | _ =>
         le5 <- py_cmp OpLe temp (vnum (-5)) ;;
         sev <- (if le5 then Ok "moderate"
                 else le0 <- py_cmp OpLe temp (vnum 0) ;;
                      Ok (if le0 then "low" else "low")) ;;
         possible <- py_cmp OpLe temp (vnum 0) ;;
         Ok (VDict [("possible", VBool possible);
                    ("max_snowfall", vnum 0);
                    ("severity", VStr sev);
                    ("raw", d)])
     end)%outcome.

Definition check_snowfall (w : world) (lat lon : num) : M value :=
  try_except
    (d <- get_json w (ReqSnowForecast lat lon) ;;
     lift (check_snowfall_body d))%M
    (fun e => ret (error_dict e)).

(* ------------------------------------------------------------------ *)
(** ** [check_hurricane] (lines 212-226) *)

Definition check_hurricane_body (d : value) : outcome value :=
  (hourly <- py_get d "hourly" (VDict []) ;;
   w0 <- py_get hourly "windspeed_10m" (VList []) ;;
   let winds := py_or w0 (VList []) in
   max_wind <- (if py_truthy winds
                then items <- py_iter winds ;; py_max items
                else Ok (vnum 0)) ;;
   ge100 <- py_cmp OpGe max_wind (vnum 100) ;;
   sev <- (if ge100 then Ok "high"
           else ge75 <- py_cmp OpGe max_wind (vnum 75) ;;
                Ok (if ge75 then "moderate" else "low")) ;;
   possible <- py_cmp OpGe max_wind (vnum 50) ;;
   Ok (VDict [("possible", VBool possible);
              ("max_wind_kph", max_wind);
              ("severity", VStr sev);
              ("raw", d)]))%outcome.

Definition check_hurricane (w : world) (lat lon : num) : M value :=
  try_except
    (d <- get_json w (ReqWindForecast lat lon) ;;
     lift (check_hurricane_body d))%M
    (fun e => ret (error_dict e)).

(* ------------------------------------------------------------------ *)
(** ** [check_tsunami] (lines 228-274) *)

(** The text an f-string substitutes for a value. *)
Definition py_str (w : world) (v : value) : string :=
  match v with
  | VStr s => s
  | _ => w_repr w v
  end.

(** [min_coast_dist is None or (min_coast_dist is not None and
    min_coast_dist <= 100)] *)
Definition coast_near (min_coast_dist : option num) : bool :=
  match min_coast_dist with
  | None => true
  | Some dist => num_cmp OpLe dist (Fin 100)
  end.

(** Lines 261-271: the decision, from the magnitude, the threshold and the
    coastline distance: the pair (tsunami_possible, severity). *)
Definition tsunami_decision (max_mag : value) (quake_mag_threshold : num)
    (min_coast_dist : option num) : outcome (bool * string) :=
  (over <- py_cmp OpGe max_mag (VNum quake_mag_threshold) ;;
   if over && coast_near min_coast_dist then
     big <- py_cmp OpGe max_mag (vnum 7.0) ;;
     Ok (true, if big then "high" else "moderate")
   else
     over' <- py_cmp OpGe max_mag (VNum quake_mag_threshold) ;;
     if over' then Ok (true, "moderate") else Ok (false, "low"))%outcome.

Definition opt_num_value (o : option num) : value :=
  match o with
  | Some x => VNum x
  | None => VNone
  end.

Definition check_tsunami (w : world) (lat lon : num) (quake_radius_km : Z)
    (quake_mag_threshold : num) : M value :=
  try_except
    (quake_info <- check_earthquake w lat lon quake_radius_km ;;
     if py_in "error" quake_info then
       e <- lift (py_get quake_info "error" VNone) ;;
       ret (VDict [("error", VStr ("quake feed error: " ++ py_str w e))])
     else
       max_mag <- lift (py_get quake_info "magnitude_estimate" (vnum 0)) ;;
       quake_count <- lift (py_get quake_info "count" (vnum 0)) ;;
       recent <- lift (py_get quake_info "recent" (VList [])) ;;
       min_coast_dist <- get_coast w lat lon ;;
       decision <- lift (tsunami_decision max_mag quake_mag_threshold
                           min_coast_dist) ;;
       ret (VDict [("possible", VBool (fst decision));
                   ("max_quake_magnitude", max_mag);
                   ("quake_count", quake_count);
                   ("min_coast_distance_km", opt_num_value min_coast_dist);
                   ("severity", VStr (snd decision));
                   ("recent_quakes", recent);
                   ("quake_raw", quake_info)]))%M
    (fun e => ret (error_dict e)).

(* ------------------------------------------------------------------ *)
(** ** [check_wildfire] (lines 276-300) *)

(** Lines 284-288: the two figures drawn from the historical feed. *)
Definition wildfire_history (d : value) : outcome (value * value) :=
  (daily <- py_get d "daily" (VDict []) ;;
   p0 <- py_get daily "precipitation_sum" (VList []) ;;
   let precip := py_or p0 (VList []) in
   t0 <- py_get daily "temperature_2m_max" (VList []) ;;
   let temp_max := py_or t0 (VList []) in
   pitems <- py_iter precip ;;
   precip_last7 <- py_sum (map (fun p => py_or p (vnum 0)) pitems) ;;
   max_temp_last7 <- (if py_truthy temp_max
                      then titems <- py_iter temp_max ;;
                           py_max (map (fun t => py_or t (vnum (-999))) titems)
                      else Ok VNone) ;;
   Ok (precip_last7, max_temp_last7))%outcome.

(** Lines 290-298: the classification, from the figures and from whatever
    [get_weather] returned. *)
Definition wildfire_classify (d precip_last7 max_temp_last7 curw : value)
  : outcome value :=
  (wk <- py_get curw "wind_kph" VNone ;;
   let wind_kph := py_or wk (vnum 0) in
   temp_now <- py_get curw "temperature_c" VNone ;;
   dry <- py_cmp OpLt precip_last7 (vnum 5) ;;
   is_high <- (if dry then
                 match max_temp_last7 with
                 | VNone => Ok false
                 | _ => hot <- py_cmp OpGe max_temp_last7 (vnum 30) ;;
                        if hot then py_cmp OpGe wind_kph (vnum 30)
                        else Ok false
                 end
               else Ok false) ;;
   sev <- (if is_high then Ok "high"
           else dryish <- py_cmp OpLt precip_last7 (vnum 10) ;;
                windy <- (if dryish then py_cmp OpGe wind_kph (vnum 20)
                          else Ok false) ;;
                Ok (if windy then "moderate" else "low")) ;;
   Ok (VDict [("precip_last7_mm", precip_last7);
              ("max_temp_last7_c", max_temp_last7);
              ("wind_kph_now", wind_kph);
              ("temp_now_c", temp_now);
              ("severity", VStr sev);
              ("raw", VDict [("historical", d); ("current_weather", curw)])])
  )%outcome.

Definition check_wildfire (w : world) (lat lon : num) : M value :=
  try_except
    (d <- get_json w (ReqArchiveWeek lat lon) ;;
     figures <- lift (wildfire_history d) ;;
     curw <- get_weather w lat lon ;;
     lift (wildfire_classify d (fst figures) (snd figures) curw))%M
    (fun e => ret (error_dict e)).

(* ------------------------------------------------------------------ *)
(** ** [check_flood] (lines 347-383) *)

(** [v[:n]] and [v[-n:]], as the items of the slice. *)
Definition py_slice_first (n : nat) (v : value) : outcome (list value) :=
  match v with
  | VList l => Ok (firstn n l)
  | VStr s => Ok (firstn n (chars s))
  | _ => Raise TypeError
  end.

Definition py_slice_last (n : nat) (v : value) : outcome (list value) :=
  match v with
  | VList l => Ok (skipn (List.length l - n) l)
  | VStr s => Ok (skipn (List.length (chars s) - n) (chars s))
  | _ => Raise TypeError
  end.

(** Lines 351-353: the hourly series and its first 24 hours. *)
Definition flood_forecast (rfore : value) : outcome (value * num) :=
  (hourly <- py_get rfore "hourly" (VDict []) ;;
   p0 <- py_get hourly "precipitation" (VList []) ;;
   let precip_hours := py_or p0 (VList []) in
   forecast_24h <- (if py_truthy precip_hours
                    then items <- py_slice_first 24 precip_hours ;;
                         sum_from (Fin 0) items
                    else Ok (Fin 0)) ;;
   Ok (precip_hours, forecast_24h))%outcome.

(** Lines 356-361: the last 24 entries of the same series, 0.0 when the
    inner [try] fails. *)
Definition flood_recent (precip_hours : value) : num :=
  if py_truthy precip_hours then
    match (items <- py_slice_last 24 precip_hours ;;
           sum_from (Fin 0) items)%outcome with
    | Ok total => total
    | Raise _ => Fin 0
    end
  else Fin 0.

(** Lines 362-372: the 7-day archive, [None] when anything in the inner
    [try] fails. *)
Definition flood_history_body (rh : value) : outcome num :=
  (daily <- py_get rh "daily" (VDict []) ;;
   l0 <- py_get daily "precipitation_sum" (VList []) ;;
   let precip7_list := py_or l0 (VList []) in
   items <- py_iter precip7_list ;;
   sum_from (Fin 0) (map (fun v => py_or v (vnum 0)) items))%outcome.

Definition flood_history (w : world) (lat lon : num) : M (option num) :=
  try_except
    (rh <- get_json w (ReqArchivePrecip lat lon) ;;
     sum7 <- lift (flood_history_body rh) ;;
     ret (Some sum7))%M
    (fun _ => ret None).

(** Lines 373-379. *)
Definition flood_severity (forecast_24h recent_24h : num) (sum7 : option num)
  : string :=
  if num_cmp OpGe forecast_24h (Fin 50) || num_cmp OpGe recent_24h (Fin 50)
  then "high"
  else if (num_cmp OpGe forecast_24h (Fin 20)
           || num_cmp OpGe recent_24h (Fin 20))
          || match sum7 with
             | Some s7 => num_cmp OpGe s7 (Fin 100)
             | None => false
             end
  then "moderate"
  else "low".

Definition check_flood (w : world) (lat lon : num) : M value :=
  try_except
    (rfore <- get_json w (ReqPrecipForecast lat lon) ;;
     fc <- lift (flood_forecast rfore) ;;
     let forecast_24h := snd fc in
     let recent_24h := flood_recent (fst fc) in
     sum7 <- flood_history w lat lon ;;
     let severity := flood_severity forecast_24h recent_24h sum7 in
     ret (VDict [("possible", VBool (negb (String.eqb severity "low")));
                 ("severity", VStr severity);
                 ("evidence",
                  VDict [("forecast_24h_mm", VNum forecast_24h);
                         ("recent_24h_mm_approx", VNum recent_24h);
                         ("precip_last7_mm", opt_num_value sum7)])]))%M
    (fun e => ret (error_dict e)).

(* ------------------------------------------------------------------ *)
(** ** String helpers of the aggregator *)

Definition is_space (c : ascii) : bool :=
  let n := nat_of_ascii c in
  ((9 <=? n)%nat && (n <=? 13)%nat) || ((28 <=? n)%nat && (n <=? 32)%nat).

Fixpoint lstrip (s : string) : string :=
  match s with
  | EmptyString => EmptyString
  | String c s' => if is_space c then lstrip s' else s
  end.

Fixpoint rstrip (s : string) : string :=
  match s with
  | EmptyString => EmptyString
  | String c s' =>
      match rstrip s' with
      | EmptyString => if is_space c then EmptyString else String c EmptyString
      | r => String c r
      end
  end.

(** [s.strip()] on ASCII white space ([float] ignores the white space,
    ASCII or not, that is left around its argument). *)
Definition strip (s : string) : string := rstrip (lstrip s).

(** [s.split(sep)] for a one-character separator. *)
Fixpoint split_on (sep : ascii) (s : string) : list string :=
  match s with
  | EmptyString => [EmptyString]
  | String c s' =>
      if Ascii.eqb c sep then EmptyString :: split_on sep s'
      else match split_on sep s' with
           | [] => [String c EmptyString]
           | h :: t => String c h :: t
           end
  end.

(** [sep in s] for a one-character [sep]. *)
Fixpoint contains_char (sep : ascii) (s : string) : bool :=
  match s with
  | EmptyString => false
  | String c s' => Ascii.eqb c sep || contains_char sep s'
  end.

Definition upper_ascii (c : ascii) : ascii :=
  let n := nat_of_ascii c in
  if (97 <=? n)%nat && (n <=? 122)%nat then ascii_of_nat (n - 32) else c.

(** [s.upper()] on ASCII text. *)
Fixpoint upper (s : string) : string :=
  match s with
  | EmptyString => EmptyString
  | String c s' => String (upper_ascii c) (upper s')
  end.

Definition py_upper (v : value) : outcome string :=
  match v with
  | VStr s => Ok (upper s)
  | _ => Raise AttributeError
  end.

(** [float(v)] of [None], a string, a boolean or a float, which is what
    every call but the one of [quake_severity_label] passes: a float is
    converted to itself. *)
Definition py_float (w : world) (v : value) : outcome num :=
  match v with
  | VStr s => w_float w s
  | VBool _ | VNum _ =>
      match as_num v with
      | Some x => Ok x
      | None => Raise TypeError
      end
  | _ => Raise TypeError
  end.

(** [v[k]] *)
Definition py_item (v : value) (k : string) : outcome value :=
  match v with
  | VDict d => match assoc k d with Some x => Ok x | None => Raise KeyError end
  | _ => Raise TypeError
  end.

(* ------------------------------------------------------------------ *)
(** ** [geocode_place] (lines 60-67) *)

Definition geocode_place (w : world) (place_text : string) : M value :=
  try_except
    (loc <- get_geocode w place_text ;;
     match loc with
     | None => ret (VDict [("error", VStr "could not geocode")])
     | Some (latitude, longitude) =>
         ret (VDict [("lat", VNum latitude); ("lon", VNum longitude)])
     end)%M
    (fun e => ret (error_dict e)).

(* ------------------------------------------------------------------ *)
(** ** [collect_signals_for_location] (lines 386-475) *)

(** Lines 387-393: the literal-coordinate path; [None] stands for
    [lat is None] after the block. *)
Definition parse_latlon (w : world) (place_or_latlon : string)
  : option (num * num) :=
  if contains_char "," place_or_latlon then
    match firstn 2 (split_on "," place_or_latlon) with
    | [p0; p1] =>
        match (lat <- w_float w (strip p0) ;;
               lon <- w_float w (strip p1) ;;
               Ok (lat, lon))%outcome with
        | Ok c => Some c
        | Raise _ => None
        end
    | _ => None
    end
  else None.

(** [x.get(k) if isinstance(x, dict) else None] *)
Definition get_if_dict (x : value) (k : string) : value :=
  match x with
  | VDict d => match assoc k d with Some v => v | None => VNone end
  | _ => VNone
  end.

(** An int of this magnitude or more has no binary64 value (it would round
    to 2^1024): [float] raises OverflowError on it.  Every finite float is
    below it. *)
Definition float_overflow_bound : Z := (2 ^ 1024 - 2 ^ 970)%Z.

Definition beyond_float (x : num) : bool :=
  match x with
  | Fin q =>
      Qle_bool (inject_Z float_overflow_bound) q
      || Qle_bool q (inject_Z (- float_overflow_bound))
  | _ => false
  end.

(** [float(mag)] on the magnitude estimate: a number of the decoded feed,
    which may be an int of any size. *)
Definition float_of_estimate (w : world) (mag : value) : outcome num :=
  match mag with
  | VNum x =>
      if beyond_float x
      then Raise (ExternalError "int too large to convert to float")
      else Ok x
  | _ => py_float w mag
  end.

(** Lines 414-422. *)
Definition quake_severity_label (w : world) (mag : value) : string :=
  match mag with
  | VNone => "low"
  | _ =>
      match float_of_estimate w mag with
      | Ok m =>
          if num_cmp OpGe m (Fin 6.5) then "high"
          else if num_cmp OpGe m (Fin 4.5) then "moderate"
          else "low"
      | Raise _ => "low"
      end
  end.

(** Lines 407-430: the dictionary [final_severities]. *)
Definition final_severities_of (w : world)
    (earthquake snowfall hurricane tsunami wildfire : value)
  : list (string * value) :=
  let severities :=
    [("earthquake", get_if_dict earthquake "magnitude_estimate");
     ("snowfall", get_if_dict snowfall "severity");
     ("hurricane", get_if_dict hurricane "severity");
     ("tsunami", get_if_dict tsunami "severity");
     ("wildfire", get_if_dict wildfire "severity")] in
  let sev k := match assoc k severities with Some v => v | None => VNone end in
  let quake_sev := quake_severity_label w (sev "earthquake") in
  [("earthquake", VStr quake_sev);
   ("snowfall", py_or (sev "snowfall") (VStr "low"));
   ("hurricane", py_or (sev "hurricane") (VStr "low"));
   ("tsunami", py_or (sev "tsunami") (VStr "low"));
   ("wildfire", py_or (sev "wildfire") (VStr "low"))].

(** The loop bodies of [add_common_resources] (lines 435-436, 439-440). *)
Fixpoint resource_refs (w : world) (items : list value)
  : outcome (list string) :=
  match items with
  | [] => Ok []
  | h :: rest =>
      (name <- py_get h "name" (VStr "Unknown") ;;
       dist <- py_get h "distance_km" (VStr "?") ;;
       refs <- resource_refs w rest ;;
       Ok ((py_str w name ++ " (" ++ py_str w dist ++ " km)")%string :: refs)
      )%outcome
  end.

(** One of the two lists of [add_common_resources]: at most the first three
    items under [key], when the look-up returned any. *)
Definition common_list (w : world) (found : value) (key : string)
  : outcome (list string) :=
  if is_dict found && py_truthy (get_if_dict found key) then
    (all <- py_item found key ;;
     items <- py_slice_first 3 all ;;
     resource_refs w items)%outcome
  else Ok [].

Definition add_common_resources (w : world) (hospitals shelters : value)
  : outcome (list string * list string) :=
  (hosp_list <- common_list w hospitals "hospitals" ;;
   shelter_list <- common_list w shelters "shelters" ;;
   Ok (hosp_list, shelter_list))%outcome.

(** [if refs: action_plan.append(f"{label}{', '.join(refs)}.")] *)
Definition resources_line (label : string) (refs : list string) : list string :=
  match refs with
  | [] => []
  | _ => [(label ++ String.concat ", " refs ++ ".")%string]
  end.

Definition tsunami_warning : string :=
  "- Earthquake may generate tsunami risk — move inland to higher ground immediately if instructed.".

Definition header_line (d_type sev_upper : string) : string :=
  ("**" ++ upper d_type ++ " — severity: " ++ sev_upper ++ "**")%string.

(** The lines appended after the header (lines 446-471). *)
Definition directives (final_severities : list (string * value))
    (d_type : string) (hosp_list shelter_list : list string) : list string :=
  if String.eqb d_type "earthquake" then
    ["- Drop, cover, and hold on. Stay away from windows and heavy furniture.";
     "- After shaking stops, move to open areas; avoid damaged structures."]
    ++ resources_line "- Nearby hospitals (top): " hosp_list
    ++ resources_line "- Nearby relief shelters (top): " shelter_list
    ++ (let t := match assoc "tsunami" final_severities with
                 | Some v => v
                 | None => VNone
                 end in
        if py_eq t (VStr "high") || py_eq t (VStr "moderate")
        then [tsunami_warning] else [])
  else if String.eqb d_type "tsunami" then
    ["- If near the coast, move to higher ground immediately; follow local evacuation routes."]
    ++ resources_line "- Hospitals to consider: " hosp_list
    ++ resources_line "- Shelters: " shelter_list
  else if String.eqb d_type "hurricane" then
    ["- Secure loose outdoor items, close shutters, move to a central interior room on lowest safe floor.";
     "- Have emergency kit (water, meds, flashlight, radio)."]
    ++ resources_line "- Hospitals: " hosp_list
    ++ resources_line "- Shelters: " shelter_list
  else if String.eqb d_type "snowfall" then
    ["- Avoid travel during heavy snowfall; if must travel, carry warm clothing and emergency supplies.";
     "- Check roof loads and clear snow safely if necessary."]
    ++ resources_line "- Hospitals (in case of emergencies): " hosp_list
    ++ resources_line "- Shelters: " shelter_list
  else if String.eqb d_type "wildfire" then
    ["- If smoke or fire is nearby, evacuate immediately following local authorities' instructions.";
     "- Close windows/vents; prepare to evacuate early with important documents and medications."]
    ++ resources_line "- Hospitals (for smoke/trauma): " hosp_list
    ++ resources_line "- Shelters: " shelter_list
  else [].

(** Lines 442-471: [action_plan] is the list the closure appends to; the
    function returns it extended. *)
Definition plan_for_disaster (w : world) (hospitals shelters : value)
    (final_severities : list (string * value))
    (d_type : string) (sev : value) (action_plan : list string)
  : outcome (list string) :=
  if py_eq sev (VStr "low") then Ok action_plan
  else
    (resources <- add_common_resources w hospitals shelters ;;
     sev_upper <- py_upper sev ;;
     Ok (action_plan
         ++ [header_line d_type sev_upper]
         ++ directives final_severities d_type (fst resources) (snd resources))
    )%outcome.

(** Lines 472-473: the loop over [final_severities.items()]. *)
Fixpoint plan_loop (w : world) (hospitals shelters : value)
    (final_severities : list (string * value))
    (items : list (string * value)) (action_plan : list string)
  : outcome (list string) :=
  match items with
  | [] => Ok action_plan
  | (d, sev) :: rest =>
      (plan' <- plan_for_disaster w hospitals shelters final_severities
                  d sev action_plan ;;
       plan_loop w hospitals shelters final_severities rest plan')%outcome
  end.

(** Lines 399-475: everything after the coordinate is known. *)
Definition assess (w : world) (lat lon : num) : M value :=
  (earthquake <- check_earthquake w lat lon 100 ;;
   weather <- get_weather w lat lon ;;
   shelters <- find_schools w lat lon ;;
   hospitals <- find_hospitals w lat lon ;;
   snowfall <- check_snowfall w lat lon ;;
   hurricane <- check_hurricane w lat lon ;;
   tsunami <- check_tsunami w lat lon 300 (Fin 6.5) ;;
   wildfire <- check_wildfire w lat lon ;;
   let final_severities :=
     final_severities_of w earthquake snowfall hurricane tsunami wildfire in
   action_plan <- lift (plan_loop w hospitals shelters final_severities
                          final_severities []) ;;
   ret (VDict [("lat", VNum lat);
               ("lon", VNum lon);
               ("earthquake", earthquake);
               ("weather", weather);
               ("shelters", shelters);
               ("hospitals", hospitals);
               ("snowfall", snowfall);
               ("hurricane", hurricane);
               ("tsunami", tsunami);
               ("wildfire", wildfire);
               ("final_severities", VDict final_severities);
               ("action_plan", VList (map VStr action_plan))]))%M.

(** [g[k]] for the coordinate fields of a geocoding result (floats:
    [geocode_place] built them with [float(...)]). *)
Definition coordinate_item (g : value) (k : string) : outcome num :=
  (v <- py_item g k ;;
   match v with
   | VNum x => Ok x
   | _ => Raise TypeError
   end)%outcome.

Definition collect_signals_for_location (w : world) (place_or_latlon : string)
  : M value :=
  match parse_latlon w place_or_latlon with
  | Some (lat, lon) => assess w lat lon
  | None =>
      (g <- geocode_place w place_or_latlon ;;
       if py_in "error" g then
         e <- lift (py_get g "error" VNone) ;;
         ret (VDict [("error", VStr ("geocode failure: " ++ py_str w e))])
       else
         lat <- lift (coordinate_item g "lat") ;;
         lon <- lift (coordinate_item g "lon") ;;
         assess w lat lon)%M
  end.

(* ------------------------------------------------------------------ *)
(** ** Vocabulary of the statements *)

(** What a [try: ... except Exception as e: return {"error": str(e)}]
    makes of an outcome. *)
Definition catch (o : outcome value) : value :=
  match o with
  | Ok v => v
  | Raise e => error_dict e
  end.

(** The magnitude [check_earthquake] attributes to one event:
    [props.get("mag") or 0]. *)
Definition coerced_mag (ev : value) : outcome value :=
  (props <- py_get ev "properties" (VDict []) ;;
   m <- py_get props "mag" VNone ;;
   Ok (py_or m (vnum 0)))%outcome.

(** The events a decoded feed document lists. *)
Definition feed_events (data : value) : outcome (list value) :=
  (events <- py_get data "features" (VList []) ;;
   py_iter events)%outcome.

(** The sum of a series of numbers as [sum] forms it, from 0 and from
    left to right. *)
Definition total (xs : list num) : num := fold_left num_add xs (Fin 0).






(** The three severity labels. *)
Definition is_severity (v : value) : Prop :=
  v = VStr "low" \/ v = VStr "moderate" \/ v = VStr "high".

(** What a hazard check hands to the aggregator: a dictionary that either
    carries an ["error"] and no ["severity"], or no ["error"] and one of
    the three labels as ["severity"]. *)
Definition hazard_result (v : value) : Prop :=
  exists d, v = VDict d /\
    ((assoc "error" d <> None /\ assoc "severity" d = None) \/
     (assoc "error" d = None /\
      exists s, assoc "severity" d = Some (VStr s) /\
                (s = "low" \/ s = "moderate" \/ s = "high"))).

(** What [check_earthquake] hands to the aggregator: an ["error"] and no
    estimate, or a numeric ["magnitude_estimate"]. *)
Definition quake_result (v : value) : Prop :=
  exists d, v = VDict d /\
    ((assoc "error" d <> None /\ assoc "magnitude_estimate" d = None) \/
     (assoc "error" d = None /\
      exists est m, assoc "magnitude_estimate" d = Some est /\
                    as_num est = Some m)).

(** What [find_schools] / [find_hospitals] hand to the aggregator. *)
Definition places_result (key : string) (item : place -> value) (v : value)
  : Prop :=
  (exists msg, v = VDict [("error", VStr msg)]) \/
  (exists items, v = VDict [(key, VList (map item items))]).

Definition not_geocode (r : request) : Prop :=
  match r with
  | ReqGeocode _ => False
  | _ => True
  end.

(** The lines [plan_for_disaster] appends for one hazard. *)
Definition hazard_block (w : world) (hospitals shelters : value)
    (final_severities : list (string * value)) (d_type : string) (sev : value)
  : list string :=
  match plan_for_disaster w hospitals shelters final_severities d_type sev []
  with
  | Ok lines => lines
  | Raise _ => []
  end.

(** The order Low < Moderate < High on the labels. *)
Definition severity_rank (label : string) : nat :=
  if String.eqb label "high" then 2
  else if String.eqb label "moderate" then 1
  else 0.

(** The five hazards of [final_severities], in its order. *)
Definition plan_hazards : list string :=
  ["earthquake"; "snowfall"; "hurricane"; "tsunami"; "wildfire"].


(** The coordinate the assessment works with, when there is one: the
    literal pair of the input, else the location the geocoder finds. *)
Definition resolved_coordinate (w : world) (place_or_latlon : string)
    (log : list request) : option (num * num) :=
  match parse_latlon w place_or_latlon with
  | Some c => Some c
  | None =>
      match w_geocode w log place_or_latlon with
      | Ok (Some c) => Some c
      | _ => None
      end
  end.

(** The requests issued by the time the coordinate is settled: the
    geocoding request, unless the input was a literal pair. *)
Definition log_after_resolution (w : world) (place_or_latlon : string)
    (log : list request) : list request :=
  match parse_latlon w place_or_latlon with
  | Some _ => log
  | None => log ++ [ReqGeocode place_or_latlon]
  end.

(** The error [geocode_place] reports for an answer of the geocoder that
    is not a location. *)
Definition geocode_error_text (answer : outcome (option (num * num)))
  : string :=
  match answer with
  | Raise e => str_exn e
  | Ok _ => "could not geocode"
  end.

(* ------------------------------------------------------------------ *)
(** ** Example worlds *)

(** One event of the seismic feed with the given [mag]. *)
Definition quake_event (mag : value) : value :=
  VDict [("properties",
          VDict [("mag", mag); ("place", VStr "offshore"); ("time", vnum 1)])].

Definition quake_feed (mags : list value) : value :=
  VDict [("features", VList (map quake_event mags))].

(** A [float] for the example worlds: plain decimal literals (optional
    sign, digits, optional fraction) read as the exact decimal value, and
    the three special values. *)
Definition digit_of (c : ascii) : option Z :=
  let n := nat_of_ascii c in
  if (48 <=? n)%nat && (n <=? 57)%nat then Some (Z.of_nat (n - 48)) else None.

Fixpoint read_digits (s : string) (acc : Z) (count : nat)
  : Z * nat * string :=
  match s with
  | String c s' =>
      match digit_of c with
      | Some d => read_digits s' (10 * acc + d)%Z (S count)
      | None => (acc, count, s)
      end
  | EmptyString => (acc, count, s)
  end.

Definition decimal_float (text : string) : outcome num :=
  let s := strip text in
  if String.eqb s "nan" then Ok NaN
  else if String.eqb s "inf" then Ok PInf
  else if String.eqb s "-inf" then Ok NInf
  else
    let '(negative, body) :=
      match s with
      | String "-" r => (true, r)
      | String "+" r => (false, r)
      | _ => (false, s)
      end in
    let signed (z : Z) := if negative then Z.opp z else z in
    let '(int_part, n1, rest) := read_digits body 0 0 in
    match rest with
    | EmptyString =>
        if (n1 =? 0)%nat then Raise ValueError
        else Ok (Fin (Qmake (signed int_part) 1))
    | String "." frac =>
        let '(frac_part, n2, rest') := read_digits frac 0 0 in
        match rest' with
        | EmptyString =>
            if (n1 + n2 =? 0)%nat then Raise ValueError
            else
              let scale := (10 ^ Z.of_nat n2)%Z in
              Ok (Fin (Qmake (signed (int_part * scale + frac_part)%Z)
                         (Z.to_pos scale)))
        | _ => Raise ValueError
        end
    | _ => Raise ValueError
    end.

(** Every feed is down. *)
Definition offline_world : world :=
  {| w_geocode := fun _ _ => Raise (ExternalError "offline");
     w_json := fun _ _ => Raise (ExternalError "timeout");
     w_places := fun _ _ => Raise (ExternalError "offline");
     w_coast := fun _ _ => Raise (ExternalError "offline");
     w_haversine := fun _ _ _ _ => Raise TypeError;
     w_float := decimal_float;
     w_repr := fun _ => "?" |}.

(** A stretch of coastline, as Overpass lists it. *)
Definition shore : coast_element :=
  {| center_lat := vnum 1; center_lon := vnum 2.5 |}.

(** The seismic feed reports the given magnitudes, the coastline query
    lists the given ways; every other feed is down. *)
Definition quake_world (mags : list value) (ways : list coast_element)
  : world :=
  {| w_geocode := fun _ _ => Raise (ExternalError "offline");
     w_json := fun _ r =>
       match r with
       | ReqQuakeFeed _ _ _ => Ok (quake_feed mags)
       | _ => Raise (ExternalError "timeout")
       end;
     w_places := fun _ _ => Raise (ExternalError "offline");
     w_coast := fun _ _ =>
       Ok {| coast_ways := ways; coast_relations := [] |};
     w_haversine := fun _ _ _ _ => Ok (Fin 50);
     w_float := decimal_float;
     w_repr := fun _ => "?" |}.

(** The feed of three events (7.2, null, -1) and what [check_earthquake]
    returns on it. *)
Definition three_quakes_world : world :=
  quake_world [vnum 7.2; VNone; vnum (-1)] [].

Definition three_quakes_result : value :=
  catch (check_earthquake_body (quake_feed [vnum 7.2; VNone; vnum (-1)])).



(** A magnitude 7.2 event, and a stretch of coastline in the answer to
    the coastline query. *)
Definition near_coast_world : world :=
  quake_world [vnum 7.2] [shore].

(** A dry, hot week in the archive (1 mm of rain, 36 C), while the live
    weather request times out. *)
Definition dry_week : value :=
  VDict [("daily",
          VDict [("precipitation_sum", VList [vnum 0; vnum 1]);
                 ("temperature_2m_max", VList [vnum 35; vnum 36])])].

Definition weather_down_world : world :=
  {| w_geocode := fun _ _ => Raise (ExternalError "offline");
     w_json := fun _ r =>
       match r with
       | ReqArchiveWeek _ _ => Ok dry_week
       | _ => Raise (ExternalError "timeout")
       end;
     w_places := fun _ _ => Raise (ExternalError "offline");
     w_coast := fun _ _ => Raise (ExternalError "offline");
     w_haversine := fun _ _ _ _ => Raise TypeError;
     w_float := decimal_float;
     w_repr := fun _ => "?" |}.

(** A magnitude 7.2 event near the coast, four hospitals and two schools
    around. *)
Definition place_at (name kind : string) (distance_km : Q) : place :=
  {| place_name := name;
     place_lat := Fin 1;
     place_lon := Fin 2;
     place_distance_km := Fin distance_km;
     place_type := kind;
     place_directions_url := None |}.

Definition resourced_quake_world : world :=
  {| w_geocode := fun _ _ => Raise (ExternalError "offline");
     w_json := fun _ r =>
       match r with
       | ReqQuakeFeed _ _ _ => Ok (quake_feed [vnum 7.2])
       | _ => Raise (ExternalError "timeout")
       end;
     w_places := fun _ r =>
       match r with
       | ReqHospitals _ _ =>
           Ok [place_at "General" "hospital" 1; place_at "Mercy" "clinic" 2;
               place_at "Central" "hospital" 3; place_at "North" "doctors" 4]
       | _ =>
           Ok [place_at "High School" "school" 1;
               place_at "College" "college" 2]
       end;
     w_coast := fun _ _ =>
       Ok {| coast_ways := [shore]; coast_relations := [] |};
     w_haversine := fun _ _ _ _ => Ok (Fin 50);
     w_float := decimal_float;
     w_repr := fun _ => "?" |}.

(** 25 mm of rain forecast over the coming hours, 50 mm measured over the
    last week (one day missing). *)
Definition rain_forecast : value :=
  VDict [("hourly", VDict [("precipitation", VList [vnum 10; vnum 15])])].

Definition rain_archive : value :=
  VDict [("daily",
          VDict [("precipitation_sum", VList [vnum 20; VNone; vnum 30])])].

(** 60 mm of rain forecast, over the same wet week. *)
Definition storm_forecast : value :=
  VDict [("hourly", VDict [("precipitation", VList [vnum 30; vnum 30])])].

Definition storm_world : world :=
  {| w_geocode := fun _ _ => Raise (ExternalError "offline");
     w_json := fun _ r =>
       match r with
       | ReqPrecipForecast _ _ => Ok storm_forecast
       | ReqArchivePrecip _ _ => Ok rain_archive
       | _ => Raise (ExternalError "timeout")
       end;
     w_places := fun _ _ => Raise (ExternalError "offline");
     w_coast := fun _ _ => Raise (ExternalError "offline");
     w_haversine := fun _ _ _ _ => Raise TypeError;
     w_float := decimal_float;
     w_repr := fun _ => "?" |}.

Definition rainy_world : world :=
  {| w_geocode := fun _ _ => Raise (ExternalError "offline");
     w_json := fun _ r =>
       match r with
       | ReqPrecipForecast _ _ => Ok rain_forecast
       | ReqArchivePrecip _ _ => Ok rain_archive
       | _ => Raise (ExternalError "timeout")
       end;
     w_places := fun _ _ => Raise (ExternalError "offline");
     w_coast := fun _ _ => Raise (ExternalError "offline");
     w_haversine := fun _ _ _ _ => Raise TypeError;
     w_float := decimal_float;
     w_repr := fun _ => "?" |}.

(* ------------------------------------------------------------------ *)
(** ** Vocabulary of the further properties *)

(** The entry [check_earthquake] appends to [recent] for one event
    (lines 104-108). *)
Definition quake_entry (ev : value) : outcome value :=
  (props <- py_get ev "properties" (VDict []) ;;
   m <- py_get props "mag" VNone ;;
   time_ms <- py_get props "time" VNone ;;
   place <- py_get props "place" VNone ;;
   Ok (VDict [("mag", py_or m (vnum 0)); ("place", place); ("time", time_ms)])
  )%outcome.

(** An event whose magnitude, once coerced, is a number. *)
Definition numeric_event (ev : value) : Prop :=
  exists c x, coerced_mag ev = Ok c /\ as_num c = Some x.

(** [daily.get("snowfall_sum")] of a forecast document (lines 190-191). *)
Definition snowfall_series (d : value) : outcome value :=
  (daily <- py_get d "daily" (VDict []) ;;
   py_get daily "snowfall_sum" VNone)%outcome.

(** [cur.get("temperature")] of a forecast document (lines 202-203). *)
Definition current_temperature (d : value) : outcome value :=
  (cur <- py_get d "current_weather" (VDict []) ;;
   py_get cur "temperature" VNone)%outcome.

(** [hourly.get("windspeed_10m", []) or []] of a forecast document
    (lines 218-219). *)
Definition wind_series (d : value) : outcome value :=
  (hourly <- py_get d "hourly" (VDict []) ;;
   w0 <- py_get hourly "windspeed_10m" (VList []) ;;
   Ok (py_or w0 (VList [])))%outcome.

(** A forecast document without snowfall series, at -6 C. *)
Definition freezing_forecast : value :=
  VDict [("current_weather", VDict [("temperature", vnum (-6))])].

(** A comparison of the code that was made and came out true. *)
Definition holds (test : outcome bool) : Prop := test = Ok true.

(** Lines 284 and 286 of [check_wildfire]: the temperature series. *)
Definition temperature_series (d : value) : outcome value :=
  (daily <- py_get d "daily" (VDict []) ;;
   t0 <- py_get daily "temperature_2m_max" (VList []) ;;
   Ok (py_or t0 (VList [])))%outcome.

(** A hot, dry week and a windy day. *)
Definition hot_dry_week : value :=
  VDict [("daily", VDict [("precipitation_sum", VList [vnum 0; VNone; vnum 2]);
                          ("temperature_2m_max", VList [vnum 31; vnum 35])])].

Definition windy_day : value :=
  VDict [("temperature_c", vnum 33); ("wind_kph", vnum 40)].

Definition hot_dry_windy_result : value :=
  catch (wildfire_classify hot_dry_week (vnum 2) (vnum 35) windy_day).

(** A value [sum] can add to a number. *)
Definition numeric (v : value) : Prop := exists y, as_num v = Some y.

(* ------------------------------------------------------------------ *)
(** ** [make_directions_url] (lines 77-90) *)

(** The bytes [urllib.parse.quote] never escapes: letters, digits and
    [_.-~]. *)
Definition always_safe (c : ascii) : bool :=
  let n := nat_of_ascii c in
  ((65 <=? n)%nat && (n <=? 90)%nat)
  || ((97 <=? n)%nat && (n <=? 122)%nat)
  || ((48 <=? n)%nat && (n <=? 57)%nat)
  || Ascii.eqb c "_" || Ascii.eqb c "." || Ascii.eqb c "-" || Ascii.eqb c "~".

Definition hex_digit (n : nat) : ascii :=
  if (n <? 10)%nat then ascii_of_nat (48 + n) else ascii_of_nat (55 + n).

(** ['%{:02X}'.format(byte)] *)
Definition percent_escape (c : ascii) : string :=
  let n := nat_of_ascii c in
  String "%" (String (hex_digit (n / 16)) (String (hex_digit (n mod 16)) "")).

(** [quote_plus(s)] on the UTF-8 bytes of [s]: a safe byte stands for
    itself, a space becomes [+], any other byte is escaped. *)
Fixpoint quote_plus (s : string) : string :=
  match s with
  | EmptyString => EmptyString
  | String c s' =>
      ((if always_safe c then String c ""
        else if Ascii.eqb c " " then "+"
        else percent_escape c) ++ quote_plus s')%string
  end.

Definition is_none (v : value) : bool :=
  match v with VNone => true | _ => false end.

(** [f"{float(a)},{float(b)}"] *)
Definition coordinate_text (w : world) (a b : value) : outcome string :=
  (x <- py_float w a ;;
   y <- py_float w b ;;
   Ok (py_str w (VNum x) ++ "," ++ py_str w (VNum y))%string)%outcome.

Definition make_directions_url (w : world)
    (orig_lat orig_lon dest_lat dest_lon : value) (travelmode : string)
  : value :=
  if is_none orig_lat || is_none orig_lon || is_none dest_lat
     || is_none dest_lon
  then VNone
  else
    match (origin <- coordinate_text w orig_lat orig_lon ;;
           dest <- coordinate_text w dest_lat dest_lon ;;
           Ok (VStr ("https://www.google.com/maps/dir/?api=1"
                     ++ "&origin=" ++ quote_plus origin
                     ++ "&destination=" ++ quote_plus dest
                     ++ "&travelmode=" ++ quote_plus travelmode)%string)
          )%outcome with
    | Ok url => url
    | Raise _ => VNone
    end.

(** The characters a quoted text is made of. *)
Definition quoted_char (c : ascii) : bool :=
  always_safe c || Ascii.eqb c "+" || Ascii.eqb c "%".

Fixpoint count_char (c : ascii) (s : string) : nat :=
  match s with
  | EmptyString => 0
  | String c' s' => (if Ascii.eqb c' c then 1 else 0) + count_char c s'
  end.

Fixpoint all_chars (p : ascii -> bool) (s : string) : bool :=
  match s with
  | EmptyString => true
  | String c s' => p c && all_chars p s'
  end.

(* ------------------------------------------------------------------ *)
(** ** [severity_badge] (lines 492-497) *)

Definition lower_ascii (c : ascii) : ascii :=
  let n := nat_of_ascii c in
  if (65 <=? n)%nat && (n <=? 90)%nat then ascii_of_nat (n + 32) else c.

(** [s.lower()] on the ASCII letters.  No letter of ["low"] or
    ["moderate"] is the lower case of a character outside ASCII, so the two
    tests of [severity_badge] come out as on the full method. *)
Fixpoint lower (s : string) : string :=
  match s with
  | EmptyString => EmptyString
  | String c s' => String (lower_ascii c) (lower s')
  end.

Definition severity_badge (w : world) (level : value) : string :=
  let lvl := lower (py_str w level) in
  let cls_label :=
    if String.eqb lvl "low" then ("sev-low", "LOW")
    else if String.eqb lvl "moderate" then ("sev-moderate", "MODERATE")
    else ("sev-high", "HIGH") in
  ("<span class='severity-badge " ++ fst cls_label ++ "'>"
   ++ snd cls_label ++ "</span>")%string.

(** Line 551: [v = final_sev.get(k, "low")], then [severity_badge(v)]. *)
Definition overview_badge (w : world) (final_sev : list (string * value))
    (k : string) : string :=
  severity_badge w (match assoc k final_sev with
                    | Some v => v
                    | None => VStr "low"
                    end).

(* ------------------------------------------------------------------ *)
(** ** [find_schools], [find_hospitals]: the items and their ranking
       (lines 143-153 and 170-180)

    What [w_places] stands for, spelled out.  The Overpass library is not
    part of the program: the answer to [api.query(q)] is given, as the
    nodes and ways it lists (relations are never read), each way with what
    [way.get_center()] does (with the library as it is, it raises
    [AttributeError]: see [ward_way]); so is
    [round(haversine_km(lat, lon, nlat, nlon), 2)], the [distance_km] of an
    item, which may raise. *)

Record osm_node : Type := {
  node_lat : value;
  node_lon : value;
  node_tags : list (string * string)
}.

Record osm_way : Type := {
  way_center : outcome (option num * option num);
  way_tags : list (string * string)
}.

Record overpass_result : Type := {
  res_nodes : list osm_node;
  res_ways : list osm_way
}.

(** [tags.get(k)] and [tags.get(k, default)] *)
Fixpoint tag (k : string) (tags : list (string * string)) : option string :=
  match tags with
  | [] => None
  | (k', v) :: tags' => if String.eqb k k' then Some v else tag k tags'
  end.

Definition tag_or (k : string) (tags : list (string * string))
    (default : string) : string :=
  match tag k tags with Some v => v | None => default end.

(** [tags.get("amenity") or tags.get("healthcare", "healthcare")] *)
Definition hospital_type (tags : list (string * string)) : string :=
  match tag "amenity" tags with
  | Some a => if String.eqb a "" then tag_or "healthcare" tags "healthcare"
              else a
  | None => tag_or "healthcare" tags "healthcare"
  end.

(** A coordinate of a way's centre, as [radians] takes it. *)
Definition center_coordinate (c : option num) : outcome num :=
  match c with
  | Some x => Ok x
  | None => Raise TypeError
  end.

Definition url_option (v : value) : option string :=
  match v with VStr u => Some u | _ => None end.

(** [items.sort(key=lambda x: x["distance_km"])]: a stable sort by [<] on
    the keys.  On keys that [<] orders totally (no NaN) its result is the
    one list that is sorted and keeps equal keys in their order, which
    insertion after the equal keys computes. *)
Fixpoint insert_by_distance (p : place) (l : list place) : list place :=
  match l with
  | [] => [p]
  | q :: l' =>
      if num_cmp OpLt (place_distance_km p) (place_distance_km q)
      then p :: q :: l'
      else q :: insert_by_distance p l'
  end.

Definition sort_by_distance (items : list place) : list place :=
  fold_left (fun sorted p => insert_by_distance p sorted) items [].

(** [items.sort(...); items[:max_results]] *)
Definition nearest (max_results : nat) (items : list place) : list place :=
  firstn max_results (sort_by_distance items).

Section Lookup.

Variable w : world.

(** [round(haversine_km(lat, lon, nlat, nlon), 2)] *)
Variable rounded_distance : num -> num -> num -> num -> outcome num.

Definition school_at (lat lon nlat nlon : num) (tags : list (string * string))
  : outcome place :=
  (dist <- rounded_distance lat lon nlat nlon ;;
   Ok {| place_name := tag_or "name" tags "Unknown";
         place_lat := nlat;
         place_lon := nlon;
         place_distance_km := dist;
         place_type := tag_or "amenity" tags "school";
         place_directions_url := None |})%outcome.

Definition hospital_at (lat lon nlat nlon : num)
    (tags : list (string * string)) : outcome place :=
  (dist <- rounded_distance lat lon nlat nlon ;;
   Ok {| place_name := tag_or "name" tags "Unknown";
         place_lat := nlat;
         place_lon := nlon;
         place_distance_km := dist;
         place_type := hospital_type tags;
         place_directions_url :=
           url_option (make_directions_url w (VNum lat) (VNum lon)
                         (VNum nlat) (VNum nlon) "driving") |})%outcome.

(** The two loops, for either function: [item_at] is [school_at] or
    [hospital_at]. *)
Definition node_item
    (item_at : num -> num -> num -> num -> list (string * string)
               -> outcome place)
    (lat lon : num) (node : osm_node) : outcome place :=
  (nlat <- py_float w (node_lat node) ;;
   nlon <- py_float w (node_lon node) ;;
   item_at lat lon nlat nlon (node_tags node))%outcome.

Definition way_item
    (item_at : num -> num -> num -> num -> list (string * string)
               -> outcome place)
    (lat lon : num) (way : osm_way) : outcome place :=
  (center <- way_center way ;;
   nlat <- center_coordinate (fst center) ;;
   nlon <- center_coordinate (snd center) ;;
   item_at lat lon nlat nlon (way_tags way))%outcome.

Definition lookup_items
    (item_at : num -> num -> num -> num -> list (string * string)
               -> outcome place)
    (lat lon : num) (max_results : nat) (answer : outcome overpass_result)
  : outcome (list place) :=
  (res <- answer ;;
   from_nodes <- for_each (node_item item_at lat lon) (res_nodes res) ;;
   from_ways <- for_each (way_item item_at lat lon) (res_ways res) ;;
   Ok (nearest max_results (from_nodes ++ from_ways)))%outcome.

(** The look-ups of the aggregator, with the defaults [max_results=5] and
    [max_results=8]. *)
Definition schools_lookup (lat lon : num) (answer : outcome overpass_result)
  : outcome (list place) :=
  lookup_items school_at lat lon 5 answer.

Definition hospitals_lookup (lat lon : num)
    (answer : outcome overpass_result) : outcome (list place) :=
  lookup_items hospital_at lat lon 8 answer.

End Lookup.

(** No distance is NaN. *)
Definition ordered_distances (items : list place) : Prop :=
  Forall (fun p => place_distance_km p <> NaN) items.

Definition not_farther (p q : place) : Prop :=
  num_cmp OpLe (place_distance_km p) (place_distance_km q) = true.

(** Three candidate places, the nearest last, two of them equally far. *)
Definition three_places : list place :=
  [place_at "Far" "school" 3; place_at "Near" "school" 1;
   place_at "Also far" "college" 3].

(** An answer of Overpass: two nodes.  A way in the answer is [ward_way]:
    the library's [Way] has no [get_center], the call raises
    [AttributeError]. *)
Definition clinic_node : osm_node :=
  {| node_lat := vnum 1; node_lon := vnum 2;
     node_tags := [("name", "Mercy"); ("amenity", "clinic")] |}.

Definition ward_node : osm_node :=
  {| node_lat := vnum 3; node_lon := vnum 4;
     node_tags := [("healthcare", "hospital")] |}.

Definition ward_way : osm_way :=
  {| way_center := Raise AttributeError;
     way_tags := [("healthcare", "hospital")] |}.

Definition clinic_answer : outcome overpass_result :=
  Ok {| res_nodes := [clinic_node; ward_node]; res_ways := [] |}.

(** A stand-in for the distance: how far north the candidate is. *)
Definition latitude_gap (lat lon nlat nlon : num) : outcome num :=
  match lat, nlat with
  | Fin a, Fin b => Ok (Fin (b - a)%Q)
  | _, _ => Raise ValueError
  end.

(** Every feed is down but Overpass, which answers [clinic_answer]. *)
Definition clinic_world : world :=
  {| w_geocode := fun _ _ => Raise (ExternalError "offline");
     w_json := fun _ _ => Raise (ExternalError "timeout");
     w_places := fun _ r =>
       match r with
       | ReqHospitals lat lon =>
           hospitals_lookup offline_world latitude_gap lat lon clinic_answer
       | ReqSchools lat lon =>
           schools_lookup offline_world latitude_gap lat lon clinic_answer
       | _ => Raise (ExternalError "offline")
       end;
     w_coast := fun _ _ => Raise (ExternalError "offline");
     w_haversine := fun _ _ _ _ => Raise TypeError;
     w_float := decimal_float;
     w_repr := fun _ => "?" |}.

(* ------------------------------------------------------------------ *)
(** ** [get_recent_earthquakes] (lines 302-345)

    The feed answers outside the requests of the aggregator, so its answer
    is an argument here; the two library computations are given:
    [datetime.utcfromtimestamp(time_ms/1000.0).isoformat()] and the folium
    map of lines 326-335, either of which may raise. *)

(** [html.escape(s)] *)
Definition escape_char (c : ascii) : string :=
  if Ascii.eqb c "&" then "&amp;"
  else if Ascii.eqb c "<" then "&lt;"
  else if Ascii.eqb c ">" then "&gt;"
  else if Ascii.eqb c (ascii_of_nat 34) then "&quot;"
  else if Ascii.eqb c "'" then "&#x27;"
  else String c "".

Fixpoint escape (s : string) : string :=
  match s with
  | EmptyString => EmptyString
  | String c s' => (escape_char c ++ escape s')%string
  end.

(** [escape(v)] calls [v.replace]: only a string has it. *)
Definition py_escape (v : value) : outcome string :=
  match v with
  | VStr s => Ok (escape s)
  | _ => Raise AttributeError
  end.

(** [v[i]] for a position [i] *)
Definition py_index (v : value) (i : nat) : outcome value :=
  match v with
  | VList l =>
      match nth_error l i with
      | Some x => Ok x
      | None => Raise (ExternalError "list index out of range")
      end
  | VStr s =>
      match nth_error (chars s) i with
      | Some x => Ok x
      | None => Raise (ExternalError "string index out of range")
      end
  | VDict _ => Raise KeyError
  | _ => Raise TypeError
  end.

(** The key of [events.sort]: [x["mag"] or 0]. *)
Definition magnitude_key (e : value) : outcome value :=
  (m <- py_item e "mag" ;;
   Ok (py_or m (vnum 0)))%outcome.

(** [events.sort(key=..., reverse=True)]: a stable sort by [<] on the keys,
    in descending order, equal keys staying in their order.  The new event
    goes in front of the first one of a smaller key. *)
Fixpoint insert_by_magnitude (k e : value) (l : list (value * value))
  : outcome (list (value * value)) :=
  match l with
  | [] => Ok [(k, e)]
  | (k', e') :: l' =>
      (smaller <- py_cmp OpLt k' k ;;
       if smaller then Ok ((k, e) :: (k', e') :: l')
       else
         rest <- insert_by_magnitude k e l' ;;
         Ok ((k', e') :: rest))%outcome
  end.

Fixpoint sort_keyed (items sorted : list (value * value))
  : outcome (list (value * value)) :=
  match items with
  | [] => Ok sorted
  | (k, e) :: rest =>
      (sorted' <- insert_by_magnitude k e sorted ;;
       sort_keyed rest sorted')%outcome
  end.

Definition sort_by_magnitude (events : list value) : outcome (list value) :=
  (keyed <- for_each (fun e => k <- magnitude_key e ;; Ok (k, e)) events ;;
   sorted <- sort_keyed keyed [] ;;
   Ok (map snd sorted))%outcome.

Section RecentEarthquakes.

Variable w : world.
Variable iso_time : value -> outcome string.
Variable render_map : num -> num -> Z -> list value -> outcome string.

(** Lines 312-324: the entry of one feature. *)
Definition recent_event (f : value) : outcome value :=
  (p <- py_get f "properties" (VDict []) ;;
   geom <- py_get f "geometry" (VDict []) ;;
   coords <- py_get geom "coordinates" (VList [VNone; VNone]) ;;
   ev_lon <- py_index coords 0 ;;
   ev_lat <- py_index coords 1 ;;
   mag <- py_get p "mag" VNone ;;
   place <- py_get p "place" (VStr "Unknown location") ;;
   time_ms <- py_get p "time" VNone ;;
   t_iso <- (if py_truthy time_ms
             then t <- iso_time time_ms ;; Ok (VStr (t ++ "Z"))
             else Ok VNone) ;;
   url_evt <- py_get p "url" VNone ;;
   Ok (VDict [("place", place); ("mag", mag); ("time", t_iso);
              ("lat", ev_lat); ("lon", ev_lon); ("url", url_evt)]))%outcome.

(** Line 339: one item of the list. *)
Definition html_item (e : value) : outcome string :=
  (place <- py_item e "place" ;;
   place_text <- py_escape place ;;
   mag <- py_item e "mag" ;;
   time <- py_item e "time" ;;
   time_text <- py_escape (py_or time (VStr "")) ;;
   url <- py_get e "url" (VStr "") ;;
   url_text <- py_escape url ;;
   Ok ("<li><b>" ++ place_text ++ "</b> — M" ++ py_str w mag ++ " — "
       ++ time_text ++ "<br/><a href='" ++ url_text
       ++ "' target='_blank'>Details</a></li>")%string)%outcome.

Definition recent_earthquakes_body (lat lon : num) (radius_km : Z)
    (resp : value) : outcome value :=
  (features <- py_get resp "features" (VList []) ;;
   fs <- py_iter features ;;
   built <- for_each recent_event fs ;;
   events <- sort_by_magnitude built ;;
   map_html <- render_map lat lon radius_km events ;;
   items <- for_each html_item (firstn 30 events) ;;
   let html_items :=
     ("<div class='card'><h3>Recent Earthquakes</h3><ol>"
      ++ String.concat "" items
      ++ match events with
         | [] => "<li class='muted'>No earthquakes in the selected window.</li>"
         | _ => ""
         end
      ++ "</ol></div>")%string in
   Ok (VDict [("events", VList events);
              ("html_list", VStr html_items);
              ("folium_map_html", VStr map_html)]))%outcome.

Definition get_recent_earthquakes (lat lon : num) (radius_km : Z)
    (answer : outcome value) : value :=
  catch (obind answer (recent_earthquakes_body lat lon radius_km)).

End RecentEarthquakes.

(** The magnitude an event is ranked by, when it is a number. *)
Definition ranked_magnitude (e : value) : option num :=
  match magnitude_key e with
  | Ok k => as_num k
  | Raise _ => None
  end.

Definition rankable (e : value) : Prop :=
  exists x, ranked_magnitude e = Some x /\ x <> NaN.

Definition not_weaker (a b : value) : Prop :=
  exists x y,
    ranked_magnitude a = Some x /\ ranked_magnitude b = Some y /\
    num_cmp OpGe x y = true.

(** A pair of [sort]'s working list: an event under its key. *)
Definition decorated (ke : value * value) : Prop :=
  magnitude_key (snd ke) = Ok (fst ke).

(** A feed of two events, the weaker first, and two stand-ins for the
    libraries. *)
Definition two_features : value :=
  VDict [("features",
          VList [VDict [("properties",
                         VDict [("mag", vnum 3); ("place", VStr "A <north>");
                                ("url", VStr "https://example.org/a")]);
                        ("geometry",
                         VDict [("coordinates", VList [vnum 10; vnum 20])])];
                 VDict [("properties",
                         VDict [("mag", vnum 5); ("place", VStr "B");
                                ("time", vnum 1000);
                                ("url", VStr "https://example.org/b")])]])].

Definition fixed_time (time_ms : value) : outcome string := Ok "1970-01-01T00:00:01".

Definition no_map (lat lon : num) (radius_km : Z) (events : list value)
  : outcome string := Ok "<map/>".

(* ------------------------------------------------------------------ *)
(** ** Tactics *)

(** Destructs, one after the other, the outcomes and tests a chain of
    binds examines, dropping the branches that raise. *)
Ltac head_scrutinee t k :=
  lazymatch t with
  | obind ?o _ => head_scrutinee o k
  | (if ?b then _ else _) => head_scrutinee b k
  | match ?x with _ => _ end => head_scrutinee x k
  | _ => k t
  end.

Ltac outcome_step H :=
  lazymatch type of H with
  | Ok _ = Ok _ => fail
  | ?lhs = Ok _ =>
      head_scrutinee lhs
        ltac:(fun x => destruct x eqn:?; cbn [obind] in H; try discriminate H)
  end.

Ltac outcome_cases H := repeat outcome_step H.

(** Closes [hazard_result] on an explicit dictionary. *)
Ltac hazard_result_dict :=
  eexists; split; [reflexivity|]; cbn;
  first
    [ left; split; [discriminate | reflexivity]
    | right; split; [reflexivity|]; eexists; split; [reflexivity|];
      repeat match goal with
             | |- context [if ?b then _ else _] => destruct b
             end; auto ].

(* ------------------------------------------------------------------ *)
(** * Properties *)

(** ** Numbers *)

Lemma num_gt_fin (p q : Q) :
  num_cmp OpGt (Fin p) (Fin q) = true <-> (q < p)%Q.
Proof.
  unfold num_cmp; simpl.
  destruct (Qcompare_spec p q) as [E | L | G]; simpl; split; intro H;
    try discriminate; try reflexivity; try assumption.
  - rewrite E in H. exfalso. exact (Qlt_irrefl _ H).
  - exfalso. exact (Qlt_irrefl _ (Qlt_trans _ _ _ L H)).
Qed.

Lemma num_gt_trans (a b c : num) :
  num_cmp OpGt a b = true -> num_cmp OpGt b c = true ->
  num_cmp OpGt a c = true.
Proof.
  destruct a as [p| | |], b as [q| | |], c as [r| | |];
    try (cbn; congruence); try reflexivity.
  rewrite !num_gt_fin. intros H1 H2. exact (Qlt_trans _ _ _ H2 H1).
Qed.

Lemma num_gt_irrefl (a : num) : num_cmp OpGt a a = false.
Proof.
  destruct a as [p| | |]; try reflexivity.
  unfold num_cmp; simpl.
  destruct (Qcompare_spec p p) as [E | L | G]; try reflexivity.
  exfalso. exact (Qlt_irrefl _ G).
Qed.

Lemma num_ge_gt_trans (a b c : num) :
  num_cmp OpGt a b = true -> num_cmp OpGe b c = true ->
  num_cmp OpGe a c = true.
Proof.
  destruct a as [p| | |], b as [q| | |], c as [r| | |];
    try (cbn; congruence); try reflexivity.
  unfold num_cmp; simpl.
  destruct (Qcompare_spec p q) as [E1 | L1 | G1]; simpl; try congruence.
  intros _.
  destruct (Qcompare_spec q r) as [E2 | L2 | G2]; simpl; try congruence;
    intros _.
  - destruct (Qcompare_spec p r) as [E3 | L3 | G3]; simpl; try reflexivity.
    rewrite E2 in G1. exfalso. exact (Qlt_irrefl _ (Qlt_trans _ _ _ G1 L3)).
  - destruct (Qcompare_spec p r) as [E3 | L3 | G3]; simpl; try reflexivity.
    exfalso.
    exact (Qlt_irrefl _ (Qlt_trans _ _ _ (Qlt_trans _ _ _ G2 G1) L3)).
Qed.

Lemma num_gt_not_nan (a b : num) : num_cmp OpGt a b = true -> a <> NaN.
Proof. intros H ->. discriminate. Qed.

(** Below a bound that is not above the maximum, below the maximum. *)
Lemma num_not_gt_trans (x m0 m : num) :
  m0 <> NaN ->
  num_cmp OpGt x m0 = false -> num_cmp OpGt m0 m = false ->
  num_cmp OpGt x m = false.
Proof.
  intros Hn H1 H2.
  destruct (num_cmp OpGt x m) eqn:E; [exfalso | reflexivity].
  destruct x as [p| | |], m0 as [r| | |], m as [q| | |];
    try (cbn in *; congruence).
  apply num_gt_fin in E.
  assert (A : ~ (r < p)%Q) by (intro A; apply num_gt_fin in A; congruence).
  assert (B : ~ (q < r)%Q) by (intro B; apply num_gt_fin in B; congruence).
  apply Qnot_lt_le in A. apply Qnot_lt_le in B.
  exact (Qlt_irrefl _ (Qle_lt_trans _ _ _ (Qle_trans _ _ _ A B) E)).
Qed.

(** ** Python primitives *)

(** A comparison against a number succeeds on numbers only. *)
Lemma py_cmp_num_r (op : cmpop) (a b : value) (y : num) (r : bool) :
  as_num b = Some y -> py_cmp op a b = Ok r ->
  exists x, as_num a = Some x /\ r = num_cmp op x y.
Proof.
  intros Hb H. unfold py_cmp in H.
  destruct a, b; simpl in *; try discriminate;
    injection Hb as <-; injection H as <-; eexists; split; reflexivity.
Qed.

Lemma py_cmp_num (op : cmpop) (a b : value) (x y : num) :
  as_num a = Some x -> as_num b = Some y ->
  py_cmp op a b = Ok (num_cmp op x y).
Proof.
  intros Ha Hb.
  destruct a, b; simpl in *; try discriminate;
    injection Ha as <-; injection Hb as <-; reflexivity.
Qed.

(** ** The request monad *)

(** A check made of one JSON request and a pure body. *)
Lemma json_check_run (w : world) (r : request) (body : value -> outcome value)
    (log : list request) :
  try_except (d <- get_json w r ;; lift (body d))%M
    (fun e => ret (error_dict e)) log
  = (Ok (catch (obind (w_json w log r) body)), log ++ [r]).
Proof.
  unfold try_except, bind, get_json, lift, ret.
  destruct (w_json w log r) as [d|e]; simpl; [|reflexivity].
  destruct (body d); reflexivity.
Qed.

Lemma check_earthquake_run (w : world) (lat lon : num) (radius_km : Z)
    (log : list request) :
  check_earthquake w lat lon radius_km log
  = (Ok (catch (obind (w_json w log (ReqQuakeFeed lat lon radius_km))
                  check_earthquake_body)),
     log ++ [ReqQuakeFeed lat lon radius_km]).
Proof. apply json_check_run. Qed.

(** ** [check_earthquake] *)

Lemma quake_loop_spec (evs : list value) :
  forall (max_mag : value) (recent : list value) (m0 : num)
         (est : value) (recent' : list value),
    as_num max_mag = Some m0 -> m0 <> NaN ->
    quake_loop evs max_mag recent = Ok (est, recent') ->
    exists (mags : list num) (m : num),
      Forall2 (fun ev x => exists c, coerced_mag ev = Ok c /\ as_num c = Some x)
        evs mags /\
      as_num est = Some m /\
      num_cmp OpGt m0 m = false /\
      (forall x, In x mags -> num_cmp OpGt x m = false) /\
      (est = max_mag \/ exists ev, In ev evs /\ coerced_mag ev = Ok est) /\
      (num_cmp OpGe m0 (Fin 0) = true -> num_cmp OpGe m (Fin 0) = true) /\
      ((forall x, In x mags -> num_cmp OpGt x m0 = false) -> est = max_mag).
Proof.
  induction evs as [|ev rest IH];
    intros max_mag recent m0 est recent' Hm0 Hnan H.
  - simpl in H. injection H as <- <-.
    exists [], m0. repeat split; auto using num_gt_irrefl.
    intros x [].
  - simpl in H.
    destruct (py_get ev "properties" (VDict [])) as [props|] eqn:Hp;
      simpl in H; [|discriminate].
    destruct (py_get props "mag" VNone) as [mg|] eqn:Hmg;
      simpl in H; [|discriminate].
    destruct (py_get props "time" VNone) as [tm|]; simpl in H; [|discriminate].
    destruct (py_get props "place" VNone) as [pl|]; simpl in H; [|discriminate].
    destruct (py_cmp OpGt (py_or mg (vnum 0)) max_mag) as [gt|] eqn:Hgt;
      simpl in H; [|discriminate].
    destruct (py_cmp_num_r _ _ _ _ _ Hm0 Hgt) as (x & Hx & ->).
    assert (Hc : coerced_mag ev = Ok (py_or mg (vnum 0))).
    { unfold coerced_mag. rewrite Hp. simpl. rewrite Hmg. reflexivity. }
    destruct (num_cmp OpGt x m0) eqn:Hcmp.
    + destruct (IH _ _ x _ _ Hx (num_gt_not_nan _ _ Hcmp) H)
        as (mags & m & HF & Hest & Hxm & Hub & Hmem & Hpos & Hsame).
      exists (x :: mags), m. repeat split.
      * constructor; [exists (py_or mg (vnum 0)); auto | exact HF].
      * exact Hest.
      * destruct (num_cmp OpGt m0 m) eqn:E; [|reflexivity].
        rewrite (num_gt_trans _ _ _ Hcmp E) in Hxm. discriminate.
      * intros y [<- | Hy]; auto.
      * right. destruct Hmem as [-> | (ev' & Hin & Hev')].
        -- exists ev. split; [left; reflexivity | exact Hc].
        -- exists ev'. split; [right; exact Hin | exact Hev'].
      * intros H0. apply Hpos. exact (num_ge_gt_trans _ _ _ Hcmp H0).
      * intros Hall. rewrite (Hall x (or_introl eq_refl)) in Hcmp. discriminate.
    + destruct (IH _ _ m0 _ _ Hm0 Hnan H)
        as (mags & m & HF & Hest & Hxm & Hub & Hmem & Hpos & Hsame).
      exists (x :: mags), m. repeat split.
      * constructor; [exists (py_or mg (vnum 0)); auto | exact HF].
      * exact Hest.
      * exact Hxm.
      * intros y [<- | Hy]; auto.
        exact (num_not_gt_trans _ _ _ Hnan Hcmp Hxm).
      * destruct Hmem as [-> | (ev' & Hin & Hev')]; [left; reflexivity|].
        right. exists ev'. split; [right; exact Hin | exact Hev'].
      * exact Hpos.
      * intros Hall. apply Hsame. intros y Hy. apply Hall. right. exact Hy.
Qed.

Lemma coerced_mag_null (ev props : value) :
  py_get ev "properties" (VDict []) = Ok props ->
  py_get props "mag" VNone = Ok VNone ->
  coerced_mag ev = Ok (vnum 0).
Proof.
  intros Hp Hm. unfold coerced_mag. rewrite Hp. simpl. rewrite Hm. reflexivity.
Qed.

(** C10.  Whenever [check_earthquake] succeeds: the feed was decoded, every
    event contributes [props.get("mag") or 0] (a number; 0 for a missing or
    null magnitude); [magnitude_estimate] is 0 or one of these magnitudes,
    none of them exceeds it, and it is at least 0; it is exactly 0 when no
    magnitude is positive; and [possible] is the truth value of
    [magnitude_estimate >= 4.5]. *)
Theorem check_earthquake_magnitude_estimate
    (w : world) (lat lon : num) (radius_km : Z) (log log' : list request)
    (res : value) :
  check_earthquake w lat lon radius_km log = (Ok res, log') ->
  py_in "error" res = false ->
  exists (data : value) (evs : list value) (mags : list num)
         (est : value) (m : num),
    w_json w log (ReqQuakeFeed lat lon radius_km) = Ok data /\
    feed_events data = Ok evs /\
    Forall2 (fun ev x => exists c, coerced_mag ev = Ok c /\ as_num c = Some x)
      evs mags /\
    (forall ev props,
        py_get ev "properties" (VDict []) = Ok props ->
        py_get props "mag" VNone = Ok VNone ->
        coerced_mag ev = Ok (vnum 0)) /\
    py_item res "magnitude_estimate" = Ok est /\
    as_num est = Some m /\
    num_cmp OpGe m (Fin 0) = true /\
    (forall x, In x mags -> num_cmp OpGt x m = false) /\
    (est = vnum 0 \/ exists ev, In ev evs /\ coerced_mag ev = Ok est) /\
    ((forall x, In x mags -> num_cmp OpGt x (Fin 0) = false) -> est = vnum 0) /\
    py_item res "possible" = Ok (VBool (num_cmp OpGe m (Fin 4.5))).
Proof.
  intros Hrun Herr. rewrite check_earthquake_run in Hrun.
  injection Hrun as Hres _.
  destruct (w_json w log (ReqQuakeFeed lat lon radius_km)) as [data|e];
    [|subst res; discriminate].
  simpl in Hres. unfold check_earthquake_body in Hres.
  destruct (py_get data "features" (VList [])) as [events|] eqn:Hf;
    [|subst res; discriminate].
  simpl in Hres.
  destruct (py_iter events) as [evs|] eqn:Hit; [|subst res; discriminate].
  simpl in Hres.
  destruct (quake_loop evs (vnum 0) []) as [[est recent]|] eqn:Hloop;
    [|subst res; discriminate].
  simpl in Hres.
  assert (H0 : Fin 0 <> NaN) by discriminate.
  destruct (quake_loop_spec evs (vnum 0) [] (Fin 0) est recent eq_refl H0 Hloop)
    as (mags & m & HF & Hest & _ & Hub & Hmem & Hpos & Hsame).
  rewrite (py_cmp_num OpGe est (vnum 4.5) m (Fin 4.5) Hest eq_refl) in Hres.
  simpl in Hres. subst res.
  exists data, evs, mags, est, m.
  split; [reflexivity|]. split.
  { unfold feed_events. rewrite Hf. exact Hit. }
  split; [exact HF|]. split; [exact coerced_mag_null|].
  split; [reflexivity|]. split; [exact Hest|].
  split; [apply Hpos; reflexivity|]. split; [exact Hub|].
  split; [exact Hmem|]. split; [exact Hsame|]. reflexivity.
Qed.

(** The theorem at a feed of three events of magnitudes 7.2, null and -1. *)
Lemma check_earthquake_magnitude_estimate_witness :
  check_earthquake three_quakes_world (Fin 1) (Fin 2) 100 []
    = (Ok three_quakes_result, [ReqQuakeFeed (Fin 1) (Fin 2) 100]) /\
  py_in "error" three_quakes_result = false /\
  exists (data : value) (evs : list value) (mags : list num)
         (est : value) (m : num),
    w_json three_quakes_world [] (ReqQuakeFeed (Fin 1) (Fin 2) 100) = Ok data /\
    feed_events data = Ok evs /\
    Forall2 (fun ev x => exists c, coerced_mag ev = Ok c /\ as_num c = Some x)
      evs mags /\
    (forall ev props,
        py_get ev "properties" (VDict []) = Ok props ->
        py_get props "mag" VNone = Ok VNone ->
        coerced_mag ev = Ok (vnum 0)) /\
    py_item three_quakes_result "magnitude_estimate" = Ok est /\
    as_num est = Some m /\
    num_cmp OpGe m (Fin 0) = true /\
    (forall x, In x mags -> num_cmp OpGt x m = false) /\
    (est = vnum 0 \/ exists ev, In ev evs /\ coerced_mag ev = Ok est) /\
    ((forall x, In x mags -> num_cmp OpGt x (Fin 0) = false) -> est = vnum 0) /\
    py_item three_quakes_result "possible"
      = Ok (VBool (num_cmp OpGe m (Fin 4.5))).
Proof.
  split; [reflexivity|]. split; [reflexivity|].
  apply (check_earthquake_magnitude_estimate three_quakes_world (Fin 1) (Fin 2)
           100 [] [ReqQuakeFeed (Fin 1) (Fin 2) 100] three_quakes_result);
    reflexivity.
Defined.

Example three_quakes_estimate :
  py_item three_quakes_result "magnitude_estimate" = Ok (vnum 7.2).
Proof. reflexivity. Qed.

Example null_and_negative_quakes_estimate :
  obind (check_earthquake_body (quake_feed [VNone; vnum (-1)]))
    (fun r => py_item r "magnitude_estimate") = Ok (vnum 0).
Proof. reflexivity. Qed.

(** The dictionary a successful [check_earthquake] returns. *)
Lemma check_earthquake_body_shape (data res : value) :
  check_earthquake_body data = Ok res ->
  exists (est : value) (m : num) (count : num) (recent : list value),
    as_num est = Some m /\
    res = VDict [("possible", VBool (num_cmp OpGe m (Fin 4.5)));
                 ("magnitude_estimate", est);
                 ("count", VNum count);
                 ("recent", VList recent);
                 ("raw", data)].
Proof.
  unfold check_earthquake_body. intros H.
  destruct (py_get data "features" (VList [])) as [events|]; [|discriminate].
  simpl in H. destruct (py_iter events) as [evs|]; [|discriminate].
  simpl in H.
  destruct (quake_loop evs (vnum 0) []) as [[est recent]|] eqn:Hloop;
    [|discriminate].
  simpl in H.
  assert (H0 : Fin 0 <> NaN) by discriminate.
  destruct (quake_loop_spec evs (vnum 0) [] (Fin 0) est recent eq_refl H0 Hloop)
    as (mags & m & _ & Hest & _).
  rewrite (py_cmp_num OpGe est (vnum 4.5) m (Fin 4.5) Hest eq_refl) in H.
  simpl in H. injection H as <-.
  exists est, m, (nat_num (List.length evs)), recent. split; [exact Hest|reflexivity].
Qed.

(** ** [check_tsunami] *)

Lemma tsunami_decision_num (est : value) (m thr : num) (dist : option num) :
  as_num est = Some m ->
  tsunami_decision est thr dist
  = Ok (if num_cmp OpGe m thr
        then (true, if coast_near dist && num_cmp OpGe m (Fin 7.0)
                    then "high" else "moderate")
        else (false, "low")).
Proof.
  intros Hest. unfold tsunami_decision.
  rewrite (py_cmp_num OpGe est (VNum thr) m thr Hest eq_refl).
  rewrite (py_cmp_num OpGe est (vnum 7.0) m (Fin 7.0) Hest eq_refl).
  unfold obind.
  destruct (num_cmp OpGe m thr), (coast_near dist),
    (num_cmp OpGe m (Fin 7.0)); reflexivity.
Qed.

(** What [check_tsunami] returns, from what [check_earthquake] returned. *)
Lemma check_tsunami_run (w : world) (lat lon : num) (radius_km : Z)
    (thr : num) (log : list request) :
  let quake_req := ReqQuakeFeed lat lon radius_km in
  let quake_info := catch (obind (w_json w log quake_req) check_earthquake_body) in
  (exists msg, quake_info = VDict [("error", VStr msg)] /\
     check_tsunami w lat lon radius_km thr log
     = (Ok (VDict [("error", VStr ("quake feed error: " ++ msg))]),
        log ++ [quake_req]))
  \/
  (exists (est : value) (m : num) (count : value) (recent : value),
     as_num est = Some m /\
     py_in "error" quake_info = false /\
     py_item quake_info "magnitude_estimate" = Ok est /\
     let dist := coast_distance w lat lon (log ++ [quake_req]) in
     let decision :=
       if num_cmp OpGe m thr
       then (true, if coast_near dist && num_cmp OpGe m (Fin 7.0)
                   then "high" else "moderate")
       else (false, "low") in
     check_tsunami w lat lon radius_km thr log
     = (Ok (VDict [("possible", VBool (fst decision));
                   ("max_quake_magnitude", est);
                   ("quake_count", count);
                   ("min_coast_distance_km", opt_num_value dist);
                   ("severity", VStr (snd decision));
                   ("recent_quakes", recent);
                   ("quake_raw", quake_info)]),
        (log ++ [quake_req]) ++ [ReqCoastline lat lon])).
Proof.
  intros quake_req quake_info.
  unfold check_tsunami, try_except, bind.
  rewrite check_earthquake_run. fold quake_req. fold quake_info.
  assert (Hshape :
    (exists msg, quake_info = VDict [("error", VStr msg)]) \/
    (exists data, check_earthquake_body data = Ok quake_info)).
  { unfold quake_info.
    destruct (w_json w log quake_req) as [data|e]; simpl.
    - destruct (check_earthquake_body data) eqn:Hb; simpl.
      + right. exists data. exact Hb.
      + left. eexists. reflexivity.
    - left. eexists. reflexivity. }
  destruct Hshape as [(msg & Hq) | (data & Hb)].
  - left. exists msg. split; [exact Hq|]. rewrite Hq. reflexivity.
  - right.
    destruct (check_earthquake_body_shape _ _ Hb)
      as (est & m & count & recent & Hest & Hq).
    exists est, m, (VNum count), (VList recent).
    split; [exact Hest|]. rewrite Hq. split; [reflexivity|].
    split; [reflexivity|]. cbv zeta. simpl.
    unfold lift, get_coast, ret. simpl.
    rewrite (tsunami_decision_num est m thr _ Hest). reflexivity.
Qed.

(** The coastline sub-query never measures a distance: with no way and no
    relation in the answer there is no coastline point, and with one
    [get_center] raises inside the inner [try]. *)
Lemma min_coast_distance_unknown (w : world) (lat lon : num)
    (answer : outcome coast_answer) :
  min_coast_distance w lat lon answer = None.
Proof.
  unfold min_coast_distance.
  destruct answer as [[ways relations]|e]; [|reflexivity].
  cbn [obind coast_ways coast_relations].
  destruct ways as [|way ways]; [|reflexivity].
  destruct relations as [|relation relations]; reflexivity.
Qed.

(** C1.  [check_tsunami] always returns.  Unless the seismic feed failed,
    its answer is decided by the magnitude estimate [m] of
    [check_earthquake] at the quake radius alone: below the threshold, not
    possible and low; from the threshold on, possible, high when
    [m >= 7.0] and moderate otherwise.  The coastline distance is reported
    as unknown whatever the coastline query answers, and the severity does
    not depend on that answer. *)
Theorem check_tsunami_decision
    (w : world) (lat lon : num) (radius_km : Z) (thr : num)
    (log : list request) :
  exists (res quake_info : value) (log' : list request),
    check_tsunami w lat lon radius_km thr log = (Ok res, log') /\
    fst (check_earthquake w lat lon radius_km log) = Ok quake_info /\
    ((py_in "error" quake_info = true /\ py_in "error" res = true) \/
     exists (est : value) (m : num),
       py_in "error" quake_info = false /\
       py_in "error" res = false /\
       py_item quake_info "magnitude_estimate" = Ok est /\
       as_num est = Some m /\
       py_item res "max_quake_magnitude" = Ok est /\
       py_item res "min_coast_distance_km" = Ok VNone /\
       (num_cmp OpGe m thr = false ->
        py_item res "possible" = Ok (VBool false) /\
        py_item res "severity" = Ok (VStr "low")) /\
       (num_cmp OpGe m thr = true ->
        py_item res "possible" = Ok (VBool true) /\
        py_item res "severity"
        = Ok (VStr (if num_cmp OpGe m (Fin 7.0) then "high"
                    else "moderate")))).
Proof.
  destruct (check_tsunami_run w lat lon radius_km thr log)
    as [(msg & Hq & Hrun) | (est & m & count & recent & Hest & Herr & Hitem & Hrun)].
  - eexists. eexists. eexists. split; [exact Hrun|].
    split; [rewrite check_earthquake_run; reflexivity|].
    left. rewrite Hq. split; reflexivity.
  - cbv zeta in Hrun. unfold coast_distance in Hrun.
    rewrite min_coast_distance_unknown in Hrun.
    eexists. eexists. eexists. split; [exact Hrun|].
    split; [rewrite check_earthquake_run; reflexivity|]. right.
    exists est, m.
    split; [exact Herr|]. split; [reflexivity|].
    split; [exact Hitem|]. split; [exact Hest|].
    split; [reflexivity|]. split; [reflexivity|].
    split.
    + intros Hlow. rewrite Hlow. split; reflexivity.
    + intros Hover. rewrite Hover. split; reflexivity.
Qed.

(** Magnitude 7.2 with a stretch of coastline in the answer, and the same
    magnitude with the coastline query down: high either way, the distance
    unknown. *)
Example tsunami_at_7_2 :
  obind (fst (check_tsunami near_coast_world (Fin 1) (Fin 2) 300 (Fin 6.5) []))
    (fun r => py_item r "severity") = Ok (VStr "high") /\
  obind (fst (check_tsunami near_coast_world (Fin 1) (Fin 2) 300 (Fin 6.5) []))
    (fun r => py_item r "min_coast_distance_km") = Ok VNone /\
  obind (fst (check_tsunami three_quakes_world (Fin 1) (Fin 2) 300 (Fin 6.5) []))
    (fun r => py_item r "severity") = Ok (VStr "high").
Proof. repeat split; vm_compute; reflexivity. Qed.

Example tsunami_below_threshold (dist : option num) :
  tsunami_decision (vnum 6.4) (Fin 6.5) dist = Ok (false, "low").
Proof. destruct dist; reflexivity. Qed.

Example tsunami_unknown_coast :
  tsunami_decision (vnum 6.6) (Fin 6.5) None = Ok (true, "moderate").
Proof. reflexivity. Qed.

(** The decision of lines 261-271 taken alone, at a measured distance
    (which [check_tsunami] never passes to it). *)
Example tsunami_near_coast :
  tsunami_decision (vnum 7.2) (Fin 6.5) (Some (Fin 50)) = Ok (true, "high").
Proof. reflexivity. Qed.

(** ** [check_flood] *)

(** What the inner [try] around the archive request leaves in [sum7]. *)
Lemma flood_history_run (w : world) (lat lon : num) (log : list request) :
  flood_history w lat lon log
  = (Ok match w_json w log (ReqArchivePrecip lat lon) with
        | Ok rh => match flood_history_body rh with
                   | Ok s => Some s
                   | Raise _ => None
                   end
        | Raise _ => None
        end,
     log ++ [ReqArchivePrecip lat lon]).
Proof.
  unfold flood_history, try_except, bind, get_json, lift, ret.
  destruct (w_json w log (ReqArchivePrecip lat lon)) as [rh|e]; [|reflexivity].
  destruct (flood_history_body rh); reflexivity.
Qed.









Example storm_world_flood :
  check_flood storm_world (Fin 1) (Fin 2) []
  = (Ok (VDict [("possible", VBool true);
                ("severity", VStr "high");
                ("evidence",
                 VDict [("forecast_24h_mm", vnum 60);
                        ("recent_24h_mm_approx", vnum 60);
                        ("precip_last7_mm", vnum 50)])]),
     [ReqPrecipForecast (Fin 1) (Fin 2); ReqArchivePrecip (Fin 1) (Fin 2)]).
Proof. reflexivity. Qed.

Example rainy_world_flood :
  check_flood rainy_world (Fin 1) (Fin 2) []
  = (Ok (VDict [("possible", VBool true);
                ("severity", VStr "moderate");
                ("evidence",
                 VDict [("forecast_24h_mm", vnum 25);
                        ("recent_24h_mm_approx", vnum 25);
                        ("precip_last7_mm", vnum 50)])]),
     [ReqPrecipForecast (Fin 1) (Fin 2); ReqArchivePrecip (Fin 1) (Fin 2)]).
Proof. reflexivity. Qed.

Example offline_world_flood :
  check_flood offline_world (Fin 1) (Fin 2) []
  = (Ok (VDict [("error", VStr "timeout")]),
     [ReqPrecipForecast (Fin 1) (Fin 2)]).
Proof. reflexivity. Qed.

Example flood_high_forecast (r : num) (s7 : option num) :
  flood_severity (Fin 60) r s7 = "high".
Proof. reflexivity. Qed.

Example flood_moderate_forecast :
  flood_severity (Fin 25) (Fin 0) (Some (Fin 50)) = "moderate".
Proof. reflexivity. Qed.

Example flood_low :
  flood_severity (Fin 5) (Fin 0) (Some (Fin 10)) = "low".
Proof. reflexivity. Qed.

(** ** [check_wildfire] *)

(** C4 fails on the code.  The archive reports a dry, hot week and the live
    weather request raises: [get_weather] returns its error dictionary,
    [check_wildfire] reads a wind of 0 out of it and classifies the hazard
    as low; no error is reported. *)
Theorem check_wildfire_weather_failure_is_not_an_error :
  w_json weather_down_world [ReqArchiveWeek (Fin 1) (Fin 2)]
    (ReqCurrentWeather (Fin 1) (Fin 2)) = Raise (ExternalError "timeout") /\
  check_wildfire weather_down_world (Fin 1) (Fin 2) []
  = (Ok (VDict [("precip_last7_mm", vnum 1);
                ("max_temp_last7_c", vnum 36);
                ("wind_kph_now", vnum 0);
                ("temp_now_c", VNone);
                ("severity", VStr "low");
                ("raw",
                 VDict [("historical", dry_week);
                        ("current_weather",
                         VDict [("error", VStr "timeout")])])]),
     [ReqArchiveWeek (Fin 1) (Fin 2); ReqCurrentWeather (Fin 1) (Fin 2)]) /\
  py_in "error" (catch (fst (check_wildfire weather_down_world (Fin 1) (Fin 2) [])))
  = false.
Proof. repeat split; vm_compute; reflexivity. Qed.

Lemma get_weather_run (w : world) (lat lon : num) (log : list request) :
  get_weather w lat lon log
  = (Ok (catch (obind (w_json w log (ReqCurrentWeather lat lon))
                  get_weather_body)),
     log ++ [ReqCurrentWeather lat lon]).
Proof. apply json_check_run. Qed.

Lemma check_wildfire_run (w : world) (lat lon : num) (log : list request) :
  check_wildfire w lat lon log
  = match obind (w_json w log (ReqArchiveWeek lat lon))
            (fun d => obind (wildfire_history d) (fun f => Ok (d, f))) with
    | Raise e => (Ok (error_dict e), log ++ [ReqArchiveWeek lat lon])
    | Ok (d, (precip_last7, max_temp_last7)) =>
        let log1 := log ++ [ReqArchiveWeek lat lon] in
        let curw := catch (obind (w_json w log1 (ReqCurrentWeather lat lon))
                             get_weather_body) in
        (Ok (catch (wildfire_classify d precip_last7 max_temp_last7 curw)),
         log1 ++ [ReqCurrentWeather lat lon])
    end.
Proof.
  unfold check_wildfire, try_except, bind. unfold get_json at 1.
  destruct (w_json w log (ReqArchiveWeek lat lon)) as [d|e]; [|reflexivity].
  unfold lift at 1. simpl obind.
  destruct (wildfire_history d) as [[p t]|e]; [|reflexivity].
  simpl obind. rewrite get_weather_run. cbv zeta. unfold lift. simpl fst.
  simpl snd.
  destruct (wildfire_classify d p t _); reflexivity.
Qed.

Lemma hazard_result_error (e : exn) : hazard_result (error_dict e).
Proof.
  eexists. split; [reflexivity|]. left. split; [discriminate | reflexivity].
Qed.

Lemma check_snowfall_body_result (d res : value) :
  check_snowfall_body d = Ok res -> hazard_result res.
Proof.
  unfold check_snowfall_body. intros H. outcome_cases H;
    injection H as <-; hazard_result_dict.
Qed.

Lemma check_hurricane_body_result (d res : value) :
  check_hurricane_body d = Ok res -> hazard_result res.
Proof.
  unfold check_hurricane_body. intros H. outcome_cases H;
    injection H as <-; hazard_result_dict.
Qed.

Lemma wildfire_classify_result (d p t curw res : value) :
  wildfire_classify d p t curw = Ok res -> hazard_result res.
Proof.
  unfold wildfire_classify. intros H. outcome_cases H;
    injection H as <-; hazard_result_dict.
Qed.

(** ** [check_wildfire] without the live weather *)

Lemma wildfire_history_precip (d p t : value) :
  wildfire_history d = Ok (p, t) -> exists x, p = VNum x.
Proof.
  unfold wildfire_history, py_sum. intros H. outcome_cases H;
    injection H as <- <-; eexists; reflexivity.
Qed.

(** Whenever the archive figures are in and the live weather request
    raises, [check_wildfire] reports no error: it takes the wind to be 0 and
    answers low. *)
Lemma check_wildfire_without_weather
    (w : world) (lat lon : num) (log : list request) (d p t : value)
    (e : exn) :
  w_json w log (ReqArchiveWeek lat lon) = Ok d ->
  wildfire_history d = Ok (p, t) ->
  (t = VNone \/ exists y, as_num t = Some y) ->
  w_json w (log ++ [ReqArchiveWeek lat lon]) (ReqCurrentWeather lat lon)
  = Raise e ->
  exists res,
    fst (check_wildfire w lat lon log) = Ok res /\
    py_in "error" res = false /\
    py_item res "severity" = Ok (VStr "low") /\
    py_item res "wind_kph_now" = Ok (vnum 0).
Proof.
  intros Hd Hh Ht Hw.
  destruct (wildfire_history_precip _ _ _ Hh) as (x & ->).
  rewrite check_wildfire_run, Hd. cbn [obind]. rewrite Hh. cbn [obind].
  cbv zeta. rewrite Hw. cbn [obind catch fst].
  unfold wildfire_classify, error_dict.
  cbn [py_get assoc String.eqb Ascii.eqb Bool.eqb obind py_or py_truthy].
  rewrite (py_cmp_num OpLt (VNum x) (vnum 5) x (Fin 5) eq_refl eq_refl).
  rewrite (py_cmp_num OpLt (VNum x) (vnum 10) x (Fin 10) eq_refl eq_refl).
  cbn [obind].
  assert (Hhigh :
    (if num_cmp OpLt x (Fin 5)
     then match t with
          | VNone => Ok false
          | _ => (hot <- py_cmp OpGe t (vnum 30) ;;
                  if hot then py_cmp OpGe (vnum 0) (vnum 30) else Ok false)%outcome
          end
     else Ok false) = Ok false).
  { destruct (num_cmp OpLt x (Fin 5)); [|reflexivity].
    destruct Ht as [-> | (y & Hy)]; [reflexivity|].
    rewrite (py_cmp_num OpGe t (vnum 30) y (Fin 30) Hy eq_refl).
    cbn [obind].
    destruct t; try discriminate Hy;
      destruct (num_cmp OpGe y (Fin 30)); reflexivity. }
  rewrite Hhigh. cbn [obind].
  destruct (num_cmp OpLt x (Fin 10)); cbn [obind];
    eexists; repeat split; reflexivity.
Qed.

Example snowfall_thresholds :
  obind (check_snowfall_body
           (VDict [("daily", VDict [("snowfall_sum",
                                     VList [vnum 0; VNone; vnum 12])])]))
    (fun r => py_item r "severity") = Ok (VStr "high") /\
  obind (check_snowfall_body
           (VDict [("daily", VDict [("snowfall_sum", VList [vnum 2])])]))
    (fun r => py_item r "severity") = Ok (VStr "moderate") /\
  obind (check_snowfall_body
           (VDict [("current_weather", VDict [("temperature", vnum (-6))])]))
    (fun r => py_item r "severity") = Ok (VStr "moderate") /\
  obind (check_snowfall_body (VDict []))
    (fun r => Ok (py_in "error" r)) = Ok true.
Proof. repeat split; reflexivity. Qed.

Example hurricane_thresholds :
  obind (check_hurricane_body
           (VDict [("hourly", VDict [("windspeed_10m",
                                      VList [vnum 40; vnum 80])])]))
    (fun r => py_item r "severity") = Ok (VStr "moderate") /\
  obind (check_hurricane_body
           (VDict [("hourly", VDict [("windspeed_10m", VList [vnum 100])])]))
    (fun r => py_item r "severity") = Ok (VStr "high") /\
  obind (check_hurricane_body (VDict []))
    (fun r => py_item r "max_wind_kph") = Ok (vnum 0) /\
  check_hurricane_body
    (VDict [("hourly", VDict [("windspeed_10m", VList [vnum 40; VNone])])])
  = Raise TypeError.
Proof. repeat split; reflexivity. Qed.

Example wildfire_thresholds (d : value) :
  let weather (wind : Q) :=
    VDict [("temperature_c", vnum 30); ("wind_kph", vnum wind)] in
  obind (wildfire_classify d (vnum 3) (vnum 31) (weather 35%Q))
    (fun r => py_item r "severity") = Ok (VStr "high") /\
  obind (wildfire_classify d (vnum 8) VNone (weather 25%Q))
    (fun r => py_item r "severity") = Ok (VStr "moderate") /\
  obind (wildfire_classify d (vnum 20) (vnum 31) (weather 5%Q))
    (fun r => py_item r "severity") = Ok (VStr "low").
Proof. repeat split; reflexivity. Qed.

(** ** What each check hands to the aggregator *)

Lemma catch_bind_result (P : value -> Prop) (o : outcome value)
    (body : value -> outcome value) :
  (forall e, P (error_dict e)) ->
  (forall d res, body d = Ok res -> P res) ->
  P (catch (obind o body)).
Proof.
  intros He Hb. destruct o as [d|e]; simpl; [|apply He].
  destruct (body d) as [res|e] eqn:E; simpl; [exact (Hb _ _ E) | apply He].
Qed.

Lemma quake_result_error (e : exn) : quake_result (error_dict e).
Proof.
  eexists. split; [reflexivity|]. left. split; [discriminate | reflexivity].
Qed.

Lemma check_earthquake_ok (w : world) (lat lon : num) (radius_km : Z)
    (log : list request) :
  exists v,
    check_earthquake w lat lon radius_km log
    = (Ok v, log ++ [ReqQuakeFeed lat lon radius_km]) /\ quake_result v.
Proof.
  eexists. split; [apply check_earthquake_run|].
  apply catch_bind_result; [exact quake_result_error|].
  intros d res H.
  destruct (check_earthquake_body_shape _ _ H)
    as (est & m & count & recent & Hest & ->).
  eexists. split; [reflexivity|]. right. split; [reflexivity|].
  exists est, m. split; [reflexivity | exact Hest].
Qed.

Lemma get_weather_ok (w : world) (lat lon : num) (log : list request) :
  exists v,
    get_weather w lat lon log = (Ok v, log ++ [ReqCurrentWeather lat lon]) /\
    is_dict v = true.
Proof.
  eexists. split; [apply get_weather_run|].
  apply (catch_bind_result (fun v => is_dict v = true)); [reflexivity|].
  unfold get_weather_body. intros d res H. outcome_cases H.
  injection H as <-. reflexivity.
Qed.

Lemma find_schools_ok (w : world) (lat lon : num) (log : list request) :
  exists v,
    find_schools w lat lon log = (Ok v, log ++ [ReqSchools lat lon]) /\
    places_result "shelters" school_item v.
Proof.
  unfold find_schools, try_except, bind, get_places, ret.
  destruct (w_places w log (ReqSchools lat lon)) as [items|e];
    eexists; (split; [reflexivity|]).
  - right. exists items. reflexivity.
  - left. eexists. reflexivity.
Qed.

Lemma find_hospitals_ok (w : world) (lat lon : num) (log : list request) :
  exists v,
    find_hospitals w lat lon log = (Ok v, log ++ [ReqHospitals lat lon]) /\
    places_result "hospitals" hospital_item v.
Proof.
  unfold find_hospitals, try_except, bind, get_places, ret.
  destruct (w_places w log (ReqHospitals lat lon)) as [items|e];
    eexists; (split; [reflexivity|]).
  - right. exists items. reflexivity.
  - left. eexists. reflexivity.
Qed.

Lemma check_snowfall_ok (w : world) (lat lon : num) (log : list request) :
  exists v,
    check_snowfall w lat lon log = (Ok v, log ++ [ReqSnowForecast lat lon]) /\
    hazard_result v.
Proof.
  eexists. split; [apply json_check_run|].
  apply catch_bind_result;
    [exact hazard_result_error | exact check_snowfall_body_result].
Qed.

Lemma check_hurricane_ok (w : world) (lat lon : num) (log : list request) :
  exists v,
    check_hurricane w lat lon log = (Ok v, log ++ [ReqWindForecast lat lon]) /\
    hazard_result v.
Proof.
  eexists. split; [apply json_check_run|].
  apply catch_bind_result;
    [exact hazard_result_error | exact check_hurricane_body_result].
Qed.

Lemma check_tsunami_ok (w : world) (lat lon : num) (radius_km : Z) (thr : num)
    (log : list request) :
  exists v issued,
    check_tsunami w lat lon radius_km thr log = (Ok v, log ++ issued) /\
    hazard_result v /\ Forall not_geocode issued.
Proof.
  destruct (check_tsunami_run w lat lon radius_km thr log)
    as [(msg & _ & Hrun) | (est & m & count & recent & _ & _ & _ & Hrun)].
  - eexists. eexists. split; [exact Hrun|]. split.
    + eexists. split; [reflexivity|]. left.
      split; [discriminate | reflexivity].
    + repeat constructor.
  - cbv zeta in Hrun. rewrite <- app_assoc in Hrun.
    eexists. eexists. split; [exact Hrun|]. split.
    + eexists. split; [reflexivity|]. right. split; [reflexivity|].
      eexists. split; [reflexivity|].
      destruct (num_cmp OpGe m thr); simpl; auto.
      destruct (coast_near _ && _); auto.
    + repeat constructor.
Qed.

Lemma check_wildfire_ok (w : world) (lat lon : num) (log : list request) :
  exists v issued,
    check_wildfire w lat lon log = (Ok v, log ++ issued) /\
    hazard_result v /\ Forall not_geocode issued.
Proof.
  rewrite check_wildfire_run.
  destruct (obind (w_json w log (ReqArchiveWeek lat lon)) _)
    as [[d [p t]]|e].
  - cbv zeta. rewrite <- app_assoc.
    eexists. eexists. split; [reflexivity|]. split; [|repeat constructor].
    destruct (wildfire_classify d p t _) as [res|e] eqn:E; simpl.
    + exact (wildfire_classify_result _ _ _ _ _ E).
    + apply hazard_result_error.
  - eexists. eexists. split; [reflexivity|].
    split; [apply hazard_result_error | repeat constructor].
Qed.

(** ** The final severities *)

Lemma final_severity_of_hazard (v : value) :
  hazard_result v ->
  is_severity (py_or (get_if_dict v "severity") (VStr "low")) /\
  (py_in "error" v = true ->
   py_or (get_if_dict v "severity") (VStr "low") = VStr "low").
Proof.
  intros (d & -> & [[Herr Hsev] | [Herr (s & Hsev & Hs)]]); simpl;
    rewrite Hsev.
  - split; [left; reflexivity | reflexivity].
  - rewrite Herr. split; [|discriminate].
    destruct Hs as [-> | [-> | ->]]; unfold is_severity; cbn; auto.
Qed.

Lemma quake_severity_label_cases (w : world) (mag : value) :
  quake_severity_label w mag = "low" \/
  quake_severity_label w mag = "moderate" \/
  quake_severity_label w mag = "high".
Proof.
  unfold quake_severity_label.
  destruct mag; auto; destruct (float_of_estimate w _); auto;
    destruct (num_cmp OpGe _ (Fin 6.5)); auto;
    destruct (num_cmp OpGe _ (Fin 4.5)); auto.
Qed.

Lemma final_severities_labels (w : world) (qk sn hu ts wf : value) :
  hazard_result sn -> hazard_result hu -> hazard_result ts ->
  hazard_result wf ->
  Forall (fun kv => is_severity (snd kv))
    (final_severities_of w qk sn hu ts wf).
Proof.
  intros Hsn Hhu Hts Hwf. unfold final_severities_of. cbn.
  repeat (apply Forall_cons || apply Forall_nil); cbn;
    try (apply final_severity_of_hazard; assumption).
  unfold is_severity.
  destruct (quake_severity_label_cases w (get_if_dict qk "magnitude_estimate"))
    as [-> | [-> | ->]]; auto.
Qed.

(** ** The action plan *)

Lemma resource_refs_length (w : world) (items : list value) :
  forall refs, resource_refs w items = Ok refs ->
               List.length refs = List.length items.
Proof.
  induction items as [|h rest IH]; intros refs H; simpl in H.
  - injection H as <-. reflexivity.
  - outcome_cases H. injection H as <-. simpl. f_equal. apply IH. reflexivity.
Qed.

(** Whatever the look-up returned, at most three references are kept. *)
Lemma common_list_length (w : world) (found : value) (key : string)
    (refs : list string) :
  common_list w found key = Ok refs -> (List.length refs <= 3)%nat.
Proof.
  unfold common_list. intros H.
  destruct (is_dict found && py_truthy (get_if_dict found key)).
  - destruct (py_item found key) as [all|]; simpl in H; [|discriminate].
    destruct all; cbn [obind py_slice_first] in H; try discriminate;
      rewrite (resource_refs_length _ _ _ H); apply firstn_le_length.
  - injection H as <-. simpl. lia.
Qed.

Lemma resource_refs_items (w : world) (item : place -> value)
    (items : list place) :
  (forall p, is_dict (item p) = true) ->
  exists refs, resource_refs w (map item items) = Ok refs.
Proof.
  intros Hd. induction items as [|p rest (refs & IH)]; simpl.
  - eexists. reflexivity.
  - specialize (Hd p). destruct (item p); try discriminate. simpl.
    rewrite IH. simpl. eexists. reflexivity.
Qed.

Lemma common_list_found (w : world) (key : string) (item : place -> value)
    (items : list place) :
  (forall p, is_dict (item p) = true) ->
  exists refs,
    common_list w (VDict [(key, VList (map item items))]) key = Ok refs.
Proof.
  intros Hd. unfold common_list.
  cbn [is_dict get_if_dict assoc py_item andb]. rewrite String.eqb_refl.
  cbn [py_truthy].
  destruct (map item items) eqn:E; [eexists; reflexivity | rewrite <- E].
  cbn [obind py_slice_first]. rewrite firstn_map.
  apply resource_refs_items. exact Hd.
Qed.

Lemma common_list_hospitals (w : world) (v : value) :
  places_result "hospitals" hospital_item v ->
  exists refs, common_list w v "hospitals" = Ok refs.
Proof.
  intros [(msg & ->) | (items & ->)].
  - eexists. reflexivity.
  - apply common_list_found. reflexivity.
Qed.

Lemma common_list_shelters (w : world) (v : value) :
  places_result "shelters" school_item v ->
  exists refs, common_list w v "shelters" = Ok refs.
Proof.
  intros [(msg & ->) | (items & ->)].
  - eexists. reflexivity.
  - apply common_list_found. reflexivity.
Qed.

Lemma add_common_resources_ok (w : world) (ho sh : value) :
  places_result "hospitals" hospital_item ho ->
  places_result "shelters" school_item sh ->
  exists hosp_list shelter_list,
    add_common_resources w ho sh = Ok (hosp_list, shelter_list) /\
    (List.length hosp_list <= 3)%nat /\ (List.length shelter_list <= 3)%nat.
Proof.
  intros Hho Hsh. unfold add_common_resources.
  destruct (common_list_hospitals w ho Hho) as (hl & Hhl).
  destruct (common_list_shelters w sh Hsh) as (sl & Hsl).
  exists hl, sl. rewrite Hhl, Hsl. simpl.
  split; [reflexivity|].
  split; [exact (common_list_length _ _ _ _ Hhl)
         | exact (common_list_length _ _ _ _ Hsl)].
Qed.

(** The block of one hazard: nothing at low; else the header and the
    directives, with the shared lists of at most three references. *)
Lemma hazard_block_lines (w : world) (ho sh : value)
    (fs : list (string * value)) (d : string) (sev : value) :
  is_severity sev ->
  places_result "hospitals" hospital_item ho ->
  places_result "shelters" school_item sh ->
  exists hosp_list shelter_list,
    add_common_resources w ho sh = Ok (hosp_list, shelter_list) /\
    (List.length hosp_list <= 3)%nat /\ (List.length shelter_list <= 3)%nat /\
    (sev = VStr "low" -> hazard_block w ho sh fs d sev = []) /\
    (forall s, sev = VStr s -> s <> "low" ->
       hazard_block w ho sh fs d sev
       = header_line d (upper s) :: directives fs d hosp_list shelter_list).
Proof.
  intros Hsev Hho Hsh.
  destruct (add_common_resources_ok w ho sh Hho Hsh)
    as (hl & sl & Hres & Hhl & Hsl).
  exists hl, sl. split; [exact Hres|]. split; [exact Hhl|].
  split; [exact Hsl|]. unfold hazard_block, plan_for_disaster. split.
  - intros ->. reflexivity.
  - intros s -> Hne.
    destruct Hsev as [E | [E | E]]; injection E as ->;
      [exfalso; apply Hne; reflexivity | |];
      cbn [py_eq String.eqb Ascii.eqb Bool.eqb]; rewrite Hres; reflexivity.
Qed.

Lemma plan_for_disaster_ok (w : world) (ho sh : value)
    (fs : list (string * value)) (d : string) (sev : value)
    (plan : list string) :
  is_severity sev ->
  places_result "hospitals" hospital_item ho ->
  places_result "shelters" school_item sh ->
  plan_for_disaster w ho sh fs d sev plan
  = Ok (plan ++ hazard_block w ho sh fs d sev).
Proof.
  intros Hsev Hho Hsh.
  destruct (add_common_resources_ok w ho sh Hho Hsh)
    as (hl & sl & Hres & _).
  unfold hazard_block, plan_for_disaster.
  destruct Hsev as [-> | [-> | ->]];
    cbn [py_eq String.eqb Ascii.eqb Bool.eqb]; rewrite ?Hres;
    cbn [obind py_upper]; rewrite ?app_nil_r; reflexivity.
Qed.

Lemma plan_loop_ok (w : world) (ho sh : value) (fs : list (string * value)) :
  places_result "hospitals" hospital_item ho ->
  places_result "shelters" school_item sh ->
  forall (items : list (string * value)) (plan : list string),
    Forall (fun kv => is_severity (snd kv)) items ->
    plan_loop w ho sh fs items plan
    = Ok (plan ++ flat_map (fun kv => hazard_block w ho sh fs (fst kv) (snd kv))
                    items).
Proof.
  intros Hho Hsh. induction items as [|[d sev] rest IH]; intros plan Hall.
  - simpl. rewrite app_nil_r. reflexivity.
  - inversion Hall as [|? ? Hsev Hrest]; subst. simpl in Hsev.
    cbn [plan_loop].
    rewrite (plan_for_disaster_ok w ho sh fs d sev plan Hsev Hho Hsh).
    cbn [obind]. rewrite (IH _ Hrest). cbn [flat_map fst snd].
    rewrite app_assoc. reflexivity.
Qed.

(** ** [assess]: the report, once the coordinate is known *)

Lemma assess_run (w : world) (lat lon : num) (log : list request) :
  exists (qk we sh ho sn hu ts wf : value) (issued : list request),
    let log1 := log ++ [ReqQuakeFeed lat lon 100] in
    let log4 := ((log1 ++ [ReqCurrentWeather lat lon])
                   ++ [ReqSchools lat lon]) ++ [ReqHospitals lat lon] in
    let log6 := (log4 ++ [ReqSnowForecast lat lon])
                  ++ [ReqWindForecast lat lon] in
    let fs := final_severities_of w qk sn hu ts wf in
    assess w lat lon log
    = (Ok (VDict [("lat", VNum lat);
                  ("lon", VNum lon);
                  ("earthquake", qk);
                  ("weather", we);
                  ("shelters", sh);
                  ("hospitals", ho);
                  ("snowfall", sn);
                  ("hurricane", hu);
                  ("tsunami", ts);
                  ("wildfire", wf);
                  ("final_severities", VDict fs);
                  ("action_plan",
                   VList (map VStr
                     (flat_map
                        (fun kv => hazard_block w ho sh fs (fst kv) (snd kv))
                        fs)))]),
       log ++ issued) /\
    Forall not_geocode issued /\
    fst (check_earthquake w lat lon 100 log) = Ok qk /\
    fst (check_snowfall w lat lon log4) = Ok sn /\
    fst (check_hurricane w lat lon (log4 ++ [ReqSnowForecast lat lon])) = Ok hu /\
    fst (check_tsunami w lat lon 300 (Fin 6.5) log6) = Ok ts /\
    fst (check_wildfire w lat lon
           (snd (check_tsunami w lat lon 300 (Fin 6.5) log6))) = Ok wf /\
    quake_result qk /\ is_dict we = true /\
    places_result "shelters" school_item sh /\
    places_result "hospitals" hospital_item ho /\
    hazard_result sn /\ hazard_result hu /\ hazard_result ts /\
    hazard_result wf.
Proof.
  destruct (check_earthquake_ok w lat lon 100 log) as (qk & Heq & Peq).
  set (log1 := log ++ [ReqQuakeFeed lat lon 100]) in *.
  destruct (get_weather_ok w lat lon log1) as (we & Hwe & Pwe).
  set (log2 := log1 ++ [ReqCurrentWeather lat lon]) in *.
  destruct (find_schools_ok w lat lon log2) as (sh & Hsh & Psh).
  set (log3 := log2 ++ [ReqSchools lat lon]) in *.
  destruct (find_hospitals_ok w lat lon log3) as (ho & Hho & Pho).
  set (log4 := log3 ++ [ReqHospitals lat lon]) in *.
  destruct (check_snowfall_ok w lat lon log4) as (sn & Hsn & Psn).
  set (log5 := log4 ++ [ReqSnowForecast lat lon]) in *.
  destruct (check_hurricane_ok w lat lon log5) as (hu & Hhu & Phu).
  set (log6 := log5 ++ [ReqWindForecast lat lon]) in *.
  destruct (check_tsunami_ok w lat lon 300 (Fin 6.5) log6)
    as (ts & its & Hts & Pts & Its).
  destruct (check_wildfire_ok w lat lon (log6 ++ its))
    as (wf & iwf & Hwf & Pwf & Iwf).
  exists qk, we, sh, ho, sn, hu, ts, wf.
  exists ([ReqQuakeFeed lat lon 100; ReqCurrentWeather lat lon;
           ReqSchools lat lon; ReqHospitals lat lon;
           ReqSnowForecast lat lon; ReqWindForecast lat lon] ++ its ++ iwf).
  cbv zeta. fold log1. fold log2. fold log3. fold log4. fold log5. fold log6.
  split.
  { unfold assess, bind.
    rewrite Heq. fold log1. rewrite Hwe. fold log2. rewrite Hsh. fold log3.
    rewrite Hho. fold log4. rewrite Hsn. fold log5. rewrite Hhu. fold log6.
    rewrite Hts, Hwf. unfold lift.
    rewrite (plan_loop_ok w ho sh _ Pho Psh _ []
               (final_severities_labels w qk sn hu ts wf Psn Phu Pts Pwf)).
    unfold ret. cbn [app]. f_equal.
    unfold log6, log5, log4, log3, log2, log1.
    repeat rewrite <- app_assoc. reflexivity. }
  split.
  { apply Forall_app. split; [repeat constructor|].
    apply Forall_app. split; assumption. }
  rewrite Heq, Hsn, Hhu, Hts. cbn [fst snd]. rewrite Hwf. cbn [fst].
  repeat split; assumption.
Qed.

(** ** [collect_signals_for_location] *)

Lemma collect_run (w : world) (s : string) (log : list request) :
  collect_signals_for_location w s log
  = match resolved_coordinate w s log with
    | Some (lat, lon) => assess w lat lon (log_after_resolution w s log)
    | None =>
        (Ok (VDict [("error",
                     VStr ("geocode failure: "
                           ++ geocode_error_text (w_geocode w log s)))]),
         log ++ [ReqGeocode s])
    end.
Proof.
  unfold collect_signals_for_location, resolved_coordinate,
    log_after_resolution.
  destruct (parse_latlon w s) as [[lat lon]|]; [reflexivity|].
  unfold bind at 1. unfold geocode_place, try_except, bind, get_geocode.
  destruct (w_geocode w log s) as [[[la lo]|]|e]; reflexivity.
Qed.

(** The report of a resolved assessment, entry by entry. *)
Lemma collect_resolved (w : world) (s : string) (log : list request)
    (lat lon : num) :
  resolved_coordinate w s log = Some (lat, lon) ->
  exists (qk we sh ho sn hu ts wf : value) (issued : list request),
    let log0 := log_after_resolution w s log in
    let fs := final_severities_of w qk sn hu ts wf in
    collect_signals_for_location w s log
    = (Ok (VDict [("lat", VNum lat);
                  ("lon", VNum lon);
                  ("earthquake", qk);
                  ("weather", we);
                  ("shelters", sh);
                  ("hospitals", ho);
                  ("snowfall", sn);
                  ("hurricane", hu);
                  ("tsunami", ts);
                  ("wildfire", wf);
                  ("final_severities", VDict fs);
                  ("action_plan",
                   VList (map VStr
                     (flat_map
                        (fun kv => hazard_block w ho sh fs (fst kv) (snd kv))
                        fs)))]),
       log0 ++ issued) /\
    Forall not_geocode issued /\
    fst (check_earthquake w lat lon 100 log0) = Ok qk /\
    quake_result qk /\ is_dict we = true /\
    places_result "shelters" school_item sh /\
    places_result "hospitals" hospital_item ho /\
    hazard_result sn /\ hazard_result hu /\ hazard_result ts /\
    hazard_result wf.
Proof.
  intros Hres. rewrite collect_run, Hres.
  destruct (assess_run w lat lon (log_after_resolution w s log))
    as (qk & we & sh & ho & sn & hu & ts & wf & issued & H).
  cbv zeta in H.
  destruct H as (Hrun & Hiss & Heq & _ & _ & _ & _ & Peq & Pwe & Psh & Pho
                 & Psn & Phu & Pts & Pwf).
  exists qk, we, sh, ho, sn, hu, ts, wf, issued. cbv zeta.
  repeat split; assumption.
Qed.




(** ** The final severities of the report *)



Lemma num_ge_fin (p q : Q) :
  num_cmp OpGe (Fin p) (Fin q) = true -> (q <= p)%Q.
Proof.
  unfold num_cmp; simpl.
  destruct (Qcompare_spec p q) as [E | L | G]; simpl; intros H.
  - rewrite E. apply Qle_refl.
  - discriminate H.
  - apply Qlt_le_weak. exact G.
Qed.



Lemma quake_severity_label_num (w : world) (est : value) (m : num) :
  as_num est = Some m -> beyond_float m = false ->
  quake_severity_label w est
  = if num_cmp OpGe m (Fin 6.5) then "high"
    else if num_cmp OpGe m (Fin 4.5) then "moderate"
    else "low".
Proof.
  intros H Hm. destruct est; cbn [as_num] in H; try discriminate;
    injection H as <-.
  - reflexivity.
  - unfold quake_severity_label, float_of_estimate. rewrite Hm. reflexivity.
Qed.


Lemma num_le_ge_trans (a b : num) (c : Q) :
  num_cmp OpLe a b = true -> num_cmp OpGe a (Fin c) = true ->
  num_cmp OpGe b (Fin c) = true.
Proof.
  destruct a as [p| | |], b as [q| | |];
    try (cbn; congruence); try reflexivity.
  - intros Hle Hge. apply num_ge_fin in Hge.
    assert (Hpq : (p <= q)%Q).
    { revert Hle. unfold num_cmp; simpl.
      destruct (Qcompare_spec p q) as [E | L | G]; simpl; intros H.
      - rewrite E. apply Qle_refl.
      - apply Qlt_le_weak. exact L.
      - discriminate H. }
    pose proof (Qle_trans _ _ _ Hge Hpq) as Hcq.
    unfold num_cmp; simpl.
    destruct (Qcompare_spec q c) as [E | L | G]; simpl; try reflexivity.
    exfalso. exact (Qlt_irrefl _ (Qle_lt_trans _ _ _ Hcq L)).
Qed.

(** The table is monotone on the magnitudes [float] converts: a greater
    estimate never gets a lesser label. *)
Lemma quake_severity_label_monotone (w : world) (a b : num) :
  beyond_float a = false -> beyond_float b = false ->
  num_cmp OpLe a b = true ->
  (severity_rank (quake_severity_label w (VNum a))
   <= severity_rank (quake_severity_label w (VNum b)))%nat.
Proof.
  intros Ha Hb Hle.
  rewrite (quake_severity_label_num w (VNum a) a eq_refl Ha).
  rewrite (quake_severity_label_num w (VNum b) b eq_refl Hb).
  destruct (num_cmp OpGe a (Fin 6.5)) eqn:Ha65.
  - rewrite (num_le_ge_trans a b _ Hle Ha65). apply le_n.
  - destruct (num_cmp OpGe a (Fin 4.5)) eqn:Ha45.
    + rewrite (num_le_ge_trans a b _ Hle Ha45).
      destruct (num_cmp OpGe b (Fin 6.5)); cbn; lia.
    + destruct (num_cmp OpGe b (Fin 6.5)), (num_cmp OpGe b (Fin 4.5));
        cbn; lia.
Qed.




Example quake_label_4_4 (w : world) : quake_severity_label w (vnum 4.4) = "low".
Proof. reflexivity. Qed.

Example quake_label_4_5 (w : world) :
  quake_severity_label w (vnum 4.5) = "moderate".
Proof. reflexivity. Qed.

Example quake_label_6_4 (w : world) :
  quake_severity_label w (vnum 6.4) = "moderate".
Proof. reflexivity. Qed.

Example quake_label_6_5 (w : world) : quake_severity_label w (vnum 6.5) = "high".
Proof. reflexivity. Qed.

Example three_quakes_final_severities :
  obind (fst (collect_signals_for_location three_quakes_world "1,2" []))
    (fun r => py_item r "final_severities")
  = Ok (VDict [("earthquake", VStr "high"); ("snowfall", VStr "low");
               ("hurricane", VStr "low"); ("tsunami", VStr "high");
               ("wildfire", VStr "low")]).
Proof. reflexivity. Qed.

(** ** The action plan of the report *)

Lemma final_severities_items (w : world) (qk sn hu ts wf : value) :
  final_severities_of w qk sn hu ts wf
  = [("earthquake",
      VStr (quake_severity_label w (get_if_dict qk "magnitude_estimate")));
     ("snowfall", py_or (get_if_dict sn "severity") (VStr "low"));
     ("hurricane", py_or (get_if_dict hu "severity") (VStr "low"));
     ("tsunami", py_or (get_if_dict ts "severity") (VStr "low"));
     ("wildfire", py_or (get_if_dict wf "severity") (VStr "low"))].
Proof. reflexivity. Qed.

(** C6.  In the report of a resolved assessment the action plan is the
    concatenation, in the order of [final_severities], of one block per
    hazard.  The block of a hazard whose final severity is low is empty (so
    the plan is empty when every final severity is low); any other block is
    the header of the hazard followed by its directives, whose hospital and
    shelter lines list the shared references: at most three hospitals and at
    most three shelters. *)
Theorem action_plan_blocks
    (w : world) (s : string) (log : list request) (lat lon : num) :
  resolved_coordinate w s log = Some (lat, lon) ->
  exists (d fs : list (string * value)) (log' : list request)
         (ho sh : value) (hosp_list shelter_list : list string),
    collect_signals_for_location w s log = (Ok (VDict d), log') /\
    assoc "final_severities" d = Some (VDict fs) /\
    keys fs = plan_hazards /\
    assoc "hospitals" d = Some ho /\
    assoc "shelters" d = Some sh /\
    add_common_resources w ho sh = Ok (hosp_list, shelter_list) /\
    (List.length hosp_list <= 3)%nat /\
    (List.length shelter_list <= 3)%nat /\
    assoc "action_plan" d
    = Some (VList (map VStr
              (flat_map (fun kv => hazard_block w ho sh fs (fst kv) (snd kv))
                 fs))) /\
    (forall h sev, In (h, sev) fs ->
       (sev = VStr "low" -> hazard_block w ho sh fs h sev = []) /\
       (sev <> VStr "low" ->
        exists label, sev = VStr label /\
          hazard_block w ho sh fs h sev
          = header_line h (upper label)
              :: directives fs h hosp_list shelter_list)) /\
    ((forall h sev, In (h, sev) fs -> sev = VStr "low") ->
     assoc "action_plan" d = Some (VList [])).
Proof.
  intros Hres.
  destruct (collect_resolved w s log lat lon Hres)
    as (qk & we & sh & ho & sn & hu & ts & wf & issued & H).
  cbv zeta in H.
  destruct H as (Hrun & _ & _ & _ & _ & Psh & Pho & Psn & Phu & Pts & Pwf).
  pose proof (final_severities_labels w qk sn hu ts wf Psn Phu Pts Pwf) as Hlab.
  set (fs := final_severities_of w qk sn hu ts wf) in *.
  destruct (add_common_resources_ok w ho sh Pho Psh)
    as (hl & sl & Hadd & Hhl & Hsl).
  assert (Hblock : forall h sev, In (h, sev) fs ->
    (sev = VStr "low" -> hazard_block w ho sh fs h sev = []) /\
    (sev <> VStr "low" ->
     exists label, sev = VStr label /\
       hazard_block w ho sh fs h sev
       = header_line h (upper label) :: directives fs h hl sl)).
  { intros h sev Hin.
    assert (Hsev : is_severity sev).
    { rewrite Forall_forall in Hlab. exact (Hlab _ Hin). }
    destruct (hazard_block_lines w ho sh fs h sev Hsev Pho Psh)
      as (hl' & sl' & Hadd' & _ & _ & Hlow & Hother).
    rewrite Hadd in Hadd'. injection Hadd' as <- <-.
    split; [exact Hlow|]. intros Hne.
    destruct Hsev as [-> | [-> | ->]]; [contradiction | |];
      eexists; (split; [reflexivity|]); apply Hother;
      (reflexivity || discriminate). }
  eexists. exists fs. eexists. exists ho, sh, hl, sl.
  split; [exact Hrun|]. split; [reflexivity|]. split; [reflexivity|].
  split; [reflexivity|]. split; [reflexivity|]. split; [exact Hadd|].
  split; [exact Hhl|]. split; [exact Hsl|]. split; [reflexivity|].
  split; [exact Hblock|].
  intros Hall. cbn [assoc String.eqb Ascii.eqb Bool.eqb]. do 2 f_equal.
  assert (E : forall items, incl items fs ->
    flat_map (fun kv => hazard_block w ho sh fs (fst kv) (snd kv)) items = []).
  { induction items as [|[h sev] rest IH]; intros Hincl; [reflexivity|].
    cbn [flat_map fst snd].
    assert (Hin : In (h, sev) fs) by (apply Hincl; left; reflexivity).
    rewrite (proj1 (Hblock h sev Hin) (Hall h sev Hin)).
    apply IH. intros x Hx. apply Hincl. right. exact Hx. }
  rewrite (E fs (incl_refl fs)). reflexivity.
Qed.

Lemma action_plan_blocks_witness :
  resolved_coordinate resourced_quake_world "1,2" [] = Some (Fin 1, Fin 2) /\
  exists (d fs : list (string * value)) (log' : list request)
         (ho sh : value) (hosp_list shelter_list : list string),
    collect_signals_for_location resourced_quake_world "1,2" []
    = (Ok (VDict d), log') /\
    assoc "final_severities" d = Some (VDict fs) /\
    keys fs = plan_hazards /\
    assoc "hospitals" d = Some ho /\
    assoc "shelters" d = Some sh /\
    add_common_resources resourced_quake_world ho sh
    = Ok (hosp_list, shelter_list) /\
    (List.length hosp_list <= 3)%nat /\
    (List.length shelter_list <= 3)%nat /\
    assoc "action_plan" d
    = Some (VList (map VStr
              (flat_map
                 (fun kv => hazard_block resourced_quake_world ho sh fs
                              (fst kv) (snd kv))
                 fs))) /\
    (forall h sev, In (h, sev) fs ->
       (sev = VStr "low" ->
        hazard_block resourced_quake_world ho sh fs h sev = []) /\
       (sev <> VStr "low" ->
        exists label, sev = VStr label /\
          hazard_block resourced_quake_world ho sh fs h sev
          = header_line h (upper label)
              :: directives fs h hosp_list shelter_list)) /\
    ((forall h sev, In (h, sev) fs -> sev = VStr "low") ->
     assoc "action_plan" d = Some (VList [])).
Proof.
  split; [reflexivity|].
  apply (action_plan_blocks resourced_quake_world "1,2" [] (Fin 1) (Fin 2)).
  reflexivity.
Defined.

Example resourced_quake_plan :
  obind (fst (collect_signals_for_location resourced_quake_world "1,2" []))
    (fun r => py_item r "action_plan")
  = Ok (VList (map VStr
      ["**EARTHQUAKE — severity: HIGH**";
       "- Drop, cover, and hold on. Stay away from windows and heavy furniture.";
       "- After shaking stops, move to open areas; avoid damaged structures.";
       "- Nearby hospitals (top): General (? km), Mercy (? km), Central (? km).";
       "- Nearby relief shelters (top): High School (? km), College (? km).";
       "- Earthquake may generate tsunami risk — move inland to higher ground immediately if instructed.";
       "**TSUNAMI — severity: HIGH**";
       "- If near the coast, move to higher ground immediately; follow local evacuation routes.";
       "- Hospitals to consider: General (? km), Mercy (? km), Central (? km).";
       "- Shelters: High School (? km), College (? km)."])).
Proof. reflexivity. Qed.

Example offline_plan_is_empty :
  obind (fst (collect_signals_for_location offline_world "1,2" []))
    (fun r => py_item r "action_plan") = Ok (VList []).
Proof. reflexivity. Qed.

(** ** The tsunami warning of the earthquake block *)

Lemma resources_line_not_warning (label : string) (refs : list string) :
  label = "- Nearby hospitals (top): " \/
  label = "- Nearby relief shelters (top): " ->
  ~ In tsunami_warning (resources_line label refs).
Proof.
  intros Hl Hin. destruct refs as [|r refs]; [exact Hin|].
  cbn [resources_line In] in Hin. destruct Hin as [E | []].
  unfold tsunami_warning in E.
  destruct Hl as [-> | ->]; cbn [append] in E; discriminate E.
Qed.

(** The earthquake block holds the warning exactly when the final tsunami
    severity is moderate or high. *)
Lemma earthquake_block_warning (fs : list (string * value))
    (sev_upper : string) (hosp_list shelter_list : list string)
    (ts_sev : value) :
  assoc "tsunami" fs = Some ts_sev ->
  is_severity ts_sev ->
  In tsunami_warning
    (header_line "earthquake" sev_upper
       :: directives fs "earthquake" hosp_list shelter_list)
  <-> (ts_sev = VStr "moderate" \/ ts_sev = VStr "high").
Proof.
  intros Hts Hsev. unfold directives.
  cbn [String.eqb Ascii.eqb Bool.eqb]. rewrite Hts.
  cbn [In]. rewrite !in_app_iff. split.
  - intros [E | [[E | [E | []]] | [Hin | [Hin | Hin]]]].
    + unfold header_line, tsunami_warning in E. cbn [append] in E.
      discriminate E.
    + discriminate E.
    + discriminate E.
    + exfalso. revert Hin. apply resources_line_not_warning. auto.
    + exfalso. revert Hin. apply resources_line_not_warning. auto.
    + destruct Hsev as [-> | [-> | ->]]; cbn in Hin; auto. destruct Hin.
  - intros Hcase. right. right. right. right.
    destruct Hcase as [-> | ->]; cbn; auto.
Qed.

(** C7.  In the report of a resolved assessment the action plan starts with
    the earthquake block; when the final earthquake severity is not low,
    this block contains the tsunami-risk warning line if and only if the
    final tsunami severity is moderate or high. *)
Theorem earthquake_block_tsunami_warning
    (w : world) (s : string) (log : list request) (lat lon : num) :
  resolved_coordinate w s log = Some (lat, lon) ->
  exists (d fs : list (string * value)) (log' : list request)
         (ho sh eq_sev ts_sev : value) (rest : list string),
    collect_signals_for_location w s log = (Ok (VDict d), log') /\
    assoc "final_severities" d = Some (VDict fs) /\
    assoc "hospitals" d = Some ho /\
    assoc "shelters" d = Some sh /\
    assoc "earthquake" fs = Some eq_sev /\
    assoc "tsunami" fs = Some ts_sev /\
    assoc "action_plan" d
    = Some (VList (map VStr
                     (hazard_block w ho sh fs "earthquake" eq_sev ++ rest))) /\
    (eq_sev <> VStr "low" ->
     (In tsunami_warning (hazard_block w ho sh fs "earthquake" eq_sev)
      <-> (ts_sev = VStr "moderate" \/ ts_sev = VStr "high"))).
Proof.
  intros Hres.
  destruct (collect_resolved w s log lat lon Hres)
    as (qk & we & sh & ho & sn & hu & ts & wf & issued & H).
  cbv zeta in H.
  destruct H as (Hrun & _ & _ & _ & _ & Psh & Pho & Psn & Phu & Pts & Pwf).
  pose proof (final_severities_labels w qk sn hu ts wf Psn Phu Pts Pwf) as Hlab.
  pose proof (final_severities_items w qk sn hu ts wf) as Hitems.
  set (fs := final_severities_of w qk sn hu ts wf) in *.
  set (eq_sev := VStr (quake_severity_label w
                         (get_if_dict qk "magnitude_estimate"))) in *.
  set (ts_sev := py_or (get_if_dict ts "severity") (VStr "low")) in *.
  assert (Heq : assoc "earthquake" fs = Some eq_sev)
    by (rewrite Hitems; reflexivity).
  assert (Hts : assoc "tsunami" fs = Some ts_sev)
    by (rewrite Hitems; reflexivity).
  assert (Leq : is_severity eq_sev).
  { rewrite Forall_forall in Hlab.
    apply (Hlab ("earthquake", eq_sev)). rewrite Hitems. left. reflexivity. }
  assert (Lts : is_severity ts_sev).
  { rewrite Forall_forall in Hlab.
    apply (Hlab ("tsunami", ts_sev)). rewrite Hitems.
    right. right. right. left. reflexivity. }
  eexists. exists fs. eexists. exists ho, sh, eq_sev, ts_sev.
  exists (flat_map (fun kv => hazard_block w ho sh fs (fst kv) (snd kv))
            (tl fs)).
  split; [exact Hrun|]. split; [reflexivity|]. split; [reflexivity|].
  split; [reflexivity|]. split; [exact Heq|]. split; [exact Hts|]. split.
  - reflexivity.
  - intros Hne. clearbody eq_sev ts_sev.
    destruct (hazard_block_lines w ho sh fs "earthquake" eq_sev Leq Pho Psh)
      as (hl & sl & _ & _ & _ & _ & Hother).
    destruct Leq as [E | [E | E]]; subst eq_sev; [contradiction | |];
      (rewrite (Hother _ eq_refl); [|discriminate]);
      apply earthquake_block_warning; assumption.
Qed.

Lemma earthquake_block_tsunami_warning_witness :
  resolved_coordinate resourced_quake_world "1,2" [] = Some (Fin 1, Fin 2) /\
  exists (d fs : list (string * value)) (log' : list request)
         (ho sh eq_sev ts_sev : value) (rest : list string),
    collect_signals_for_location resourced_quake_world "1,2" []
    = (Ok (VDict d), log') /\
    assoc "final_severities" d = Some (VDict fs) /\
    assoc "hospitals" d = Some ho /\
    assoc "shelters" d = Some sh /\
    assoc "earthquake" fs = Some eq_sev /\
    assoc "tsunami" fs = Some ts_sev /\
    assoc "action_plan" d
    = Some (VList (map VStr
                     (hazard_block resourced_quake_world ho sh fs
                        "earthquake" eq_sev ++ rest))) /\
    (eq_sev <> VStr "low" ->
     (In tsunami_warning
        (hazard_block resourced_quake_world ho sh fs "earthquake" eq_sev)
      <-> (ts_sev = VStr "moderate" \/ ts_sev = VStr "high"))).
Proof.
  split; [reflexivity|].
  apply (earthquake_block_tsunami_warning resourced_quake_world "1,2" []
           (Fin 1) (Fin 2)).
  reflexivity.
Defined.

(** ** Resolving the location *)

Lemma split_on_no_sep (sep : ascii) (s : string) :
  contains_char sep s = false -> split_on sep s = [s].
Proof.
  induction s as [|c s IH]; simpl; [reflexivity|].
  destruct (Ascii.eqb c sep); simpl; [discriminate|].
  intros H. rewrite (IH H). reflexivity.
Qed.

Lemma split_on_sep (sep : ascii) (s : string) :
  contains_char sep s = true ->
  exists p0 p1 rest, split_on sep s = p0 :: p1 :: rest.
Proof.
  induction s as [|c s IH]; simpl; [discriminate|].
  destruct (Ascii.eqb c sep); simpl.
  - intros _. destruct s as [|c' s']; simpl.
    + eexists. eexists. eexists. reflexivity.
    + destruct (Ascii.eqb c' sep).
      * eexists. eexists. eexists. reflexivity.
      * destruct (split_on sep s'); eexists; eexists; eexists; reflexivity.
  - intros H. destruct (IH H) as (p0 & p1 & rest & ->).
    eexists. eexists. eexists. reflexivity.
Qed.

Lemma split_on_app (sep : ascii) (a b : string) :
  contains_char sep a = false ->
  split_on sep (a ++ String sep b) = a :: split_on sep b.
Proof.
  induction a as [|c a IH]; simpl.
  - intros _. rewrite Ascii.eqb_refl. reflexivity.
  - destruct (Ascii.eqb c sep); simpl; [discriminate|].
    intros H. rewrite (IH H). reflexivity.
Qed.

(** The literal-coordinate path is taken exactly when the input has a comma
    and [float] accepts its first two comma-separated fields, stripped. *)
Lemma parse_latlon_spec (w : world) (s : string) (lat lon : num) :
  parse_latlon w s = Some (lat, lon) <->
  exists p0 p1 rest,
    split_on "," s = p0 :: p1 :: rest /\
    w_float w (strip p0) = Ok lat /\ w_float w (strip p1) = Ok lon.
Proof.
  unfold parse_latlon. split.
  - destruct (contains_char "," s) eqn:Hc; [|discriminate].
    destruct (split_on_sep _ _ Hc) as (p0 & p1 & rest & Hs). rewrite Hs.
    cbn [firstn]. intros H.
    destruct (w_float w (strip p0)) as [la|] eqn:H0; cbn [obind] in H;
      [|discriminate].
    destruct (w_float w (strip p1)) as [lo|] eqn:H1; cbn [obind] in H;
      [|discriminate].
    injection H as <- <-. exists p0, p1, rest. auto.
  - intros (p0 & p1 & rest & Hs & H0 & H1).
    destruct (contains_char "," s) eqn:Hc.
    + rewrite Hs. cbn [firstn]. rewrite H0, H1. reflexivity.
    + rewrite (split_on_no_sep _ _ Hc) in Hs. discriminate.
Qed.

(** C8 (as amended).  When the input has a comma and [float] accepts its
    first two comma-separated fields (stripped; further fields are ignored
    and the values need not be finite), the assessment runs on that pair and
    issues no geocoding request; in particular an input ["<float>,<float>"]
    resolves to exactly its pair.  Any other input is sent, whole, to the
    geocoder first; when the geocoder raises or finds nothing the assessment
    returns the geocode-failure error and issues no other request, and when
    it finds a location the assessment runs on it. *)
Theorem location_resolution (w : world) (s : string) (log : list request) :
  (forall lat lon,
      (exists p0 p1 rest,
          split_on "," s = p0 :: p1 :: rest /\
          w_float w (strip p0) = Ok lat /\ w_float w (strip p1) = Ok lon) ->
      collect_signals_for_location w s log = assess w lat lon log /\
      exists d issued,
        collect_signals_for_location w s log = (Ok (VDict d), log ++ issued) /\
        Forall not_geocode issued /\
        assoc "lat" d = Some (VNum lat) /\ assoc "lon" d = Some (VNum lon)) /\
  (forall a b x y,
      s = (a ++ "," ++ b)%string ->
      contains_char "," a = false -> contains_char "," b = false ->
      w_float w (strip a) = Ok (Fin x) -> w_float w (strip b) = Ok (Fin y) ->
      collect_signals_for_location w s log = assess w (Fin x) (Fin y) log) /\
  ((forall p0 p1 rest lat lon,
       split_on "," s = p0 :: p1 :: rest ->
       w_float w (strip p0) = Ok lat -> w_float w (strip p1) = Ok lon ->
       False) ->
   exists issued,
     snd (collect_signals_for_location w s log)
     = log ++ ReqGeocode s :: issued /\
     Forall not_geocode issued /\
     match w_geocode w log s with
     | Ok (Some (lat, lon)) =>
         collect_signals_for_location w s log
         = assess w lat lon (log ++ [ReqGeocode s])
     | failure =>
         collect_signals_for_location w s log
         = (Ok (VDict [("error",
                        VStr ("geocode failure: "
                              ++ geocode_error_text failure))]),
            log ++ [ReqGeocode s])
     end).
Proof.
  assert (Literal : forall lat lon,
    parse_latlon w s = Some (lat, lon) ->
    collect_signals_for_location w s log = assess w lat lon log).
  { intros lat lon Hp. unfold collect_signals_for_location. rewrite Hp.
    reflexivity. }
  split; [|split].
  - intros lat lon Hfields. apply parse_latlon_spec in Hfields.
    split; [exact (Literal _ _ Hfields)|].
    rewrite (Literal _ _ Hfields).
    destruct (assess_run w lat lon log)
      as (qk & we & sh & ho & sn & hu & ts & wf & issued & H).
    cbv zeta in H. destruct H as (Hrun & Hiss & _).
    eexists. exists issued. split; [exact Hrun|]. split; [exact Hiss|].
    split; reflexivity.
  - intros a b x y -> Ha Hb Hx Hy. apply Literal. apply parse_latlon_spec.
    exists a, b, []. split; [|split; assumption].
    change ("," ++ b)%string with (String "," b).
    rewrite (split_on_app _ _ _ Ha), (split_on_no_sep _ _ Hb). reflexivity.
  - intros Hnone.
    assert (Hp : parse_latlon w s = None).
    { destruct (parse_latlon w s) as [[lat lon]|] eqn:Hp; [|reflexivity].
      apply parse_latlon_spec in Hp.
      destruct Hp as (p0 & p1 & rest & Hs & H0 & H1).
      destruct (Hnone _ _ _ _ _ Hs H0 H1). }
    rewrite collect_run. unfold resolved_coordinate, log_after_resolution.
    rewrite Hp.
    destruct (w_geocode w log s) as [[[lat lon]|]|e].
    + destruct (assess_run w lat lon (log ++ [ReqGeocode s]))
        as (qk & we & sh & ho & sn & hu & ts & wf & issued & H).
      cbv zeta in H. destruct H as (Hrun & Hiss & _).
      exists issued. rewrite Hrun. cbn [snd]. rewrite <- app_assoc.
      split; [reflexivity|]. split; [exact Hiss | reflexivity].
    + exists []. split; [reflexivity|]. split; [constructor | reflexivity].
    + exists []. split; [reflexivity|]. split; [constructor | reflexivity].
Qed.

(** The theorem at the input ["1,2,3"], with every feed down. *)
Lemma location_resolution_witness :
  (exists p0 p1 rest,
      split_on "," "1,2,3" = p0 :: p1 :: rest /\
      w_float offline_world (strip p0) = Ok (Fin 1) /\
      w_float offline_world (strip p1) = Ok (Fin 2)) /\
  collect_signals_for_location offline_world "1,2,3" []
  = assess offline_world (Fin 1) (Fin 2) [] /\
  exists d issued,
    collect_signals_for_location offline_world "1,2,3" []
    = (Ok (VDict d), [] ++ issued) /\
    Forall not_geocode issued /\
    assoc "lat" d = Some (VNum (Fin 1)) /\ assoc "lon" d = Some (VNum (Fin 2)).
Proof.
  assert (Hfields : exists p0 p1 rest,
      split_on "," "1,2,3" = p0 :: p1 :: rest /\
      w_float offline_world (strip p0) = Ok (Fin 1) /\
      w_float offline_world (strip p1) = Ok (Fin 2)).
  { exists "1", "2", ["3"]. repeat split; reflexivity. }
  split; [exact Hfields|].
  exact (proj1 (location_resolution offline_world "1,2,3" []) (Fin 1) (Fin 2)
           Hfields).
Defined.

(** C8 (as stated) fails: the input ["1,2,3"] is not of the form
    ["<float>,<float>"], yet the assessment runs on the pair (1, 2) and
    never consults the geocoder. *)
Lemma extra_fields_are_not_geocoded :
  split_on "," "1,2,3" = ["1"; "2"; "3"] /\
  snd (collect_signals_for_location offline_world "1,2,3" [])
  = [ReqQuakeFeed (Fin 1) (Fin 2) 100; ReqCurrentWeather (Fin 1) (Fin 2);
     ReqSchools (Fin 1) (Fin 2); ReqHospitals (Fin 1) (Fin 2);
     ReqSnowForecast (Fin 1) (Fin 2); ReqWindForecast (Fin 1) (Fin 2);
     ReqQuakeFeed (Fin 1) (Fin 2) 300; ReqArchiveWeek (Fin 1) (Fin 2)] /\
  obind (fst (collect_signals_for_location offline_world "1,2,3" []))
    (fun r => py_item r "lat") = Ok (vnum 1) /\
  obind (fst (collect_signals_for_location offline_world "1,2,3" []))
    (fun r => py_item r "lon") = Ok (vnum 2).
Proof. repeat split; reflexivity. Qed.

Example decimal_pair_is_a_coordinate :
  resolved_coordinate offline_world "13.0827,80.2707" []
  = Some (Fin 13.0827, Fin 80.2707) /\
  log_after_resolution offline_world "13.0827,80.2707" [] = [].
Proof. split; reflexivity. Qed.

Example nan_is_a_coordinate :
  resolved_coordinate offline_world "nan, 1" [] = Some (NaN, Fin 1) /\
  log_after_resolution offline_world "nan, 1" [] = [].
Proof. split; reflexivity. Qed.

Example place_name_is_geocoded :
  collect_signals_for_location offline_world "Chennai, India" []
  = (Ok (VDict [("error", VStr "geocode failure: offline")]),
     [ReqGeocode "Chennai, India"]).
Proof. reflexivity. Qed.

(** ** [haversine_km] *)

Lemma sin_half_difference_sqr (x y : R) :
  (sin ((x - y) / 2) ^ 2 = sin ((y - x) / 2) ^ 2)%R.
Proof.
  replace ((x - y) / 2)%R with (- ((y - x) / 2))%R by lra.
  rewrite sin_neg. ring.
Qed.

(** C9.  The haversine distance is symmetric in its two points and is zero
    between a point and itself. *)
Theorem haversine_km_symmetric_and_zero (lat1 lon1 lat2 lon2 : R) :
  haversine_km lat1 lon1 lat2 lon2 = haversine_km lat2 lon2 lat1 lon1 /\
  haversine_km lat1 lon1 lat1 lon1 = 0%R.
Proof.
  unfold haversine_km. cbv zeta. split.
  - rewrite (sin_half_difference_sqr (radians lat2) (radians lat1)).
    rewrite (sin_half_difference_sqr (radians lon2) (radians lon1)).
    rewrite (Rmult_comm (cos (radians lat1)) (cos (radians lat2))).
    reflexivity.
  - replace ((radians lat1 - radians lat1) / 2)%R with 0%R by lra.
    replace ((radians lon1 - radians lon1) / 2)%R with 0%R by lra.
    rewrite sin_0.
    replace (0 ^ 2 + cos (radians lat1) * cos (radians lat1) * 0 ^ 2)%R
      with 0%R by ring.
    rewrite sqrt_0, asin_0. ring.
Qed.

(** [math.asin] rejects an argument outside [-1, 1].  In exact arithmetic
    the argument [sqrt a] never leaves that range for latitudes between
    -90 and 90 degrees. *)
Lemma haversine_km_unfold (lat1 lon1 lat2 lon2 : R) :
  haversine_km lat1 lon1 lat2 lon2
  = (6371 * (2 * asin (sqrt (haversine_a lat1 lon1 lat2 lon2))))%R.
Proof. reflexivity. Qed.

Lemma cos_radians_nonneg (lat : R) :
  (-90 <= lat <= 90)%R -> (0 <= cos (radians lat))%R.
Proof.
  intros [Hl Hu]. unfold radians. pose proof PI_RGT_0 as Hpi.
  apply cos_ge_0; nra.
Qed.

Lemma haversine_a_bounds (lat1 lon1 lat2 lon2 : R) :
  (-90 <= lat1 <= 90)%R -> (-90 <= lat2 <= 90)%R ->
  (0 <= haversine_a lat1 lon1 lat2 lon2 <= 1)%R.
Proof.
  intros H1 H2. unfold haversine_a.
  pose proof (cos_radians_nonneg _ H1) as C1.
  pose proof (cos_radians_nonneg _ H2) as C2.
  set (p := radians lat1) in *. set (q := radians lat2) in *.
  set (x := ((q - p) / 2)%R).
  set (y := ((radians lon2 - radians lon1) / 2)%R).
  pose proof (cos_2a_sin x) as Hx.
  replace (2 * x)%R with (q - p)%R in Hx by (unfold x; lra).
  rewrite cos_minus in Hx.
  pose proof (COS_bound (p + q)) as [_ Hc]. rewrite cos_plus in Hc.
  pose proof (SIN_bound y) as [Hy1 Hy2].
  assert (Hy : (0 <= sin y ^ 2 <= 1)%R) by nra.
  assert (Hs : (0 <= sin x ^ 2)%R) by nra.
  assert (Hcc : (0 <= cos p * cos q)%R) by nra.
  split; nra.
Qed.

Lemma haversine_asin_argument (lat1 lon1 lat2 lon2 : R) :
  (-90 <= lat1 <= 90)%R -> (-90 <= lat2 <= 90)%R ->
  (-1 <= sqrt (haversine_a lat1 lon1 lat2 lon2) <= 1)%R.
Proof.
  intros H1 H2.
  destruct (haversine_a_bounds lat1 lon1 lat2 lon2 H1 H2) as [Hlo Hhi].
  pose proof (sqrt_pos (haversine_a lat1 lon1 lat2 lon2)) as Hpos.
  pose proof (sqrt_le_1_alt _ _ Hhi) as Hle. rewrite sqrt_1 in Hle.
  split; lra.
Qed.

(* ------------------------------------------------------------------ *)
(** * Further properties of the code *)

(** ** Numbers, continued *)

Lemma num_compare_antisym (a b : num) :
  num_compare b a
  = match num_compare a b with
    | Some c => Some (CompOpp c)
    | None => None
    end.
Proof.
  destruct a as [p| | |], b as [q| | |]; try reflexivity.
  simpl. rewrite (Qcompare_antisym p q). reflexivity.
Qed.

Lemma num_ge_le (a b : num) : num_cmp OpGe b a = num_cmp OpLe a b.
Proof.
  unfold num_cmp. rewrite (num_compare_antisym a b).
  destruct (num_compare a b) as [[ | | ]|]; reflexivity.
Qed.

Lemma num_gt_lt (a b : num) : num_cmp OpGt b a = num_cmp OpLt a b.
Proof.
  unfold num_cmp. rewrite (num_compare_antisym a b).
  destruct (num_compare a b) as [[ | | ]|]; reflexivity.
Qed.

(** Two numbers, neither NaN, are comparable. *)
Lemma num_not_gt_le (a b : num) :
  a <> NaN -> b <> NaN -> num_cmp OpGt a b = false -> num_cmp OpLe a b = true.
Proof.
  intros Ha Hb. unfold num_cmp.
  destruct a as [p| | |], b as [q| | |]; try congruence; try reflexivity;
    simpl; try discriminate.
  destruct (p ?= q)%Q; simpl; congruence.
Qed.

Lemma num_ge_weaken (m : num) (a b : Q) :
  (b <= a)%Q -> num_cmp OpGe m (Fin a) = true -> num_cmp OpGe m (Fin b) = true.
Proof.
  intros Hba. destruct m as [p| | |]; try (cbn; congruence).
  intros H. apply num_ge_fin in H.
  pose proof (Qle_trans _ _ _ Hba H) as Hbp.
  unfold num_cmp; simpl.
  destruct (Qcompare_spec p b) as [E | L | G]; simpl; try reflexivity.
  exfalso. exact (Qlt_irrefl _ (Qle_lt_trans _ _ _ Hbp L)).
Qed.

(** ** [check_earthquake], continued *)

Lemma quake_loop_app (a b : list value) :
  forall (max_mag : value) (recent : list value),
    quake_loop (a ++ b) max_mag recent
    = obind (quake_loop a max_mag recent)
        (fun st => quake_loop b (fst st) (snd st)).
Proof.
  induction a as [|ev a IH]; intros max_mag recent; [reflexivity|].
  cbn [app quake_loop].
  destruct (py_get ev "properties" (VDict [])) as [props|]; [|reflexivity].
  cbn [obind].
  destruct (py_get props "mag" VNone) as [m|]; [|reflexivity]. cbn [obind].
  destruct (py_get props "time" VNone) as [t|]; [|reflexivity]. cbn [obind].
  destruct (py_get props "place" VNone) as [pl|]; [|reflexivity]. cbn [obind].
  destruct (py_cmp OpGt (py_or m (vnum 0)) max_mag) as [gt|]; [|reflexivity].
  cbn [obind]. apply IH.
Qed.

Lemma quake_loop_recent (evs : list value) :
  forall (max_mag : value) (recent : list value) (est : value)
         (recent' : list value),
    quake_loop evs max_mag recent = Ok (est, recent') ->
    exists entries,
      recent' = recent ++ entries /\
      Forall2 (fun ev entry => quake_entry ev = Ok entry) evs entries.
Proof.
  induction evs as [|ev rest IH]; intros max_mag recent est recent' H.
  - simpl in H. injection H as _ <-. exists []. rewrite app_nil_r.
    split; [reflexivity | constructor].
  - simpl in H.
    destruct (py_get ev "properties" (VDict [])) as [props|] eqn:Hp;
      simpl in H; [|discriminate].
    destruct (py_get props "mag" VNone) as [mg|] eqn:Hmg;
      simpl in H; [|discriminate].
    destruct (py_get props "time" VNone) as [tm|] eqn:Ht;
      simpl in H; [|discriminate].
    destruct (py_get props "place" VNone) as [pl|] eqn:Hpl;
      simpl in H; [|discriminate].
    destruct (py_cmp OpGt (py_or mg (vnum 0)) max_mag) as [gt|];
      simpl in H; [|discriminate].
    destruct (IH _ _ _ _ H) as (entries & -> & HF).
    eexists. rewrite <- app_assoc. split; [reflexivity|].
    constructor; [|exact HF].
    unfold quake_entry. rewrite Hp. cbn [obind]. rewrite Hmg. cbn [obind].
    rewrite Ht. cbn [obind]. rewrite Hpl. reflexivity.
Qed.

Lemma quake_loop_not_nan (evs : list value) :
  forall (max_mag : value) (recent : list value) (m0 : num) (est : value)
         (recent' : list value) (m : num),
    as_num max_mag = Some m0 -> m0 <> NaN ->
    quake_loop evs max_mag recent = Ok (est, recent') ->
    as_num est = Some m -> m <> NaN.
Proof.
  induction evs as [|ev rest IH];
    intros max_mag recent m0 est recent' m Hm0 Hnan H Hest.
  - simpl in H. injection H as <- _. congruence.
  - simpl in H.
    destruct (py_get ev "properties" (VDict [])) as [props|];
      simpl in H; [|discriminate].
    destruct (py_get props "mag" VNone) as [mg|]; simpl in H; [|discriminate].
    destruct (py_get props "time" VNone) as [tm|]; simpl in H; [|discriminate].
    destruct (py_get props "place" VNone) as [pl|]; simpl in H; [|discriminate].
    destruct (py_cmp OpGt (py_or mg (vnum 0)) max_mag) as [gt|] eqn:Hgt;
      simpl in H; [|discriminate].
    destruct (py_cmp_num_r _ _ _ _ _ Hm0 Hgt) as (x & Hx & ->).
    destruct (num_cmp OpGt x m0) eqn:Hcmp.
    + exact (IH _ _ x _ _ _ Hx (num_gt_not_nan _ _ Hcmp) H Hest).
    + exact (IH _ _ m0 _ _ _ Hm0 Hnan H Hest).
Qed.

Lemma quake_loop_total (evs : list value) :
  Forall numeric_event evs ->
  forall (max_mag : value) (recent : list value) (m0 : num),
    as_num max_mag = Some m0 ->
    exists est recent' m,
      quake_loop evs max_mag recent = Ok (est, recent') /\ as_num est = Some m.
Proof.
  induction 1 as [|ev rest (c & x & Hc & Hx) _ IH];
    intros max_mag recent m0 Hm0.
  - exists max_mag, recent, m0. split; [reflexivity | exact Hm0].
  - unfold coerced_mag in Hc. cbn [quake_loop].
    destruct (py_get ev "properties" (VDict [])) as [props|];
      cbn [obind] in *; [|discriminate].
    destruct props; try discriminate. cbn [py_get obind] in *.
    injection Hc as <-.
    rewrite (py_cmp_num OpGt _ max_mag x m0 Hx Hm0). cbn [obind].
    destruct (num_cmp OpGt x m0); [exact (IH _ _ x Hx) | exact (IH _ _ m0 Hm0)].
Qed.

(** What a successful [check_earthquake_body] computed, step by step. *)
Lemma check_earthquake_body_inv (data res : value) :
  check_earthquake_body data = Ok res ->
  exists (evs : list value) (est : value) (recent : list value) (m : num),
    feed_events data = Ok evs /\
    quake_loop evs (vnum 0) [] = Ok (est, recent) /\
    as_num est = Some m /\ m <> NaN /\
    res = VDict [("possible", VBool (num_cmp OpGe m (Fin 4.5)));
                 ("magnitude_estimate", est);
                 ("count", VNum (nat_num (List.length evs)));
                 ("recent", VList recent);
                 ("raw", data)].
Proof.
  unfold check_earthquake_body, feed_events. intros H.
  destruct (py_get data "features" (VList [])) as [events|]; [|discriminate].
  cbn [obind] in *. destruct (py_iter events) as [evs|]; [|discriminate].
  cbn [obind] in H.
  destruct (quake_loop evs (vnum 0) []) as [[est recent]|] eqn:Hloop;
    [|discriminate].
  cbn [obind] in H.
  assert (H0 : Fin 0 <> NaN) by discriminate.
  destruct (quake_loop_spec evs (vnum 0) [] (Fin 0) est recent eq_refl H0 Hloop)
    as (mags & m & _ & Hest & _).
  rewrite (py_cmp_num OpGe est (vnum 4.5) m (Fin 4.5) Hest eq_refl) in H.
  cbn [obind] in H. injection H as <-.
  exists evs, est, recent, m. split; [reflexivity|]. split; [exact Hloop|].
  split; [exact Hest|]. split; [|reflexivity].
  exact (quake_loop_not_nan evs (vnum 0) [] (Fin 0) est recent m eq_refl H0
           Hloop Hest).
Qed.

(** X1.  Whenever [check_earthquake] succeeds, [raw] is the decoded feed
    itself, [count] is the number of its events and [recent] holds exactly
    one entry per event, in the order of the feed: the coerced magnitude,
    the place and the time of that event. *)
Theorem check_earthquake_bookkeeping
    (w : world) (lat lon : num) (radius_km : Z) (log log' : list request)
    (res : value) :
  check_earthquake w lat lon radius_km log = (Ok res, log') ->
  py_in "error" res = false ->
  exists (data : value) (evs entries : list value),
    w_json w log (ReqQuakeFeed lat lon radius_km) = Ok data /\
    feed_events data = Ok evs /\
    py_item res "raw" = Ok data /\
    py_item res "count" = Ok (VNum (nat_num (List.length evs))) /\
    py_item res "recent" = Ok (VList entries) /\
    List.length entries = List.length evs /\
    Forall2 (fun ev entry => quake_entry ev = Ok entry) evs entries.
Proof.
  intros Hrun Herr. rewrite check_earthquake_run in Hrun.
  injection Hrun as Hres _.
  destruct (w_json w log (ReqQuakeFeed lat lon radius_km)) as [data|e];
    [|subst res; discriminate].
  cbn [obind] in Hres.
  destruct (check_earthquake_body data) as [r|e] eqn:Hb;
    [|subst res; discriminate].
  cbn [catch] in Hres. subst r.
  destruct (check_earthquake_body_inv _ _ Hb)
    as (evs & est & recent & m & Hfe & Hloop & _ & _ & ->).
  destruct (quake_loop_recent _ _ _ _ _ Hloop) as (entries & -> & HF).
  exists data, evs, entries. split; [reflexivity|]. split; [exact Hfe|].
  split; [reflexivity|]. split; [reflexivity|]. split; [reflexivity|].
  split; [|exact HF]. symmetry. exact (Forall2_length HF).
Qed.

Lemma check_earthquake_bookkeeping_witness :
  check_earthquake three_quakes_world (Fin 1) (Fin 2) 100 []
    = (Ok three_quakes_result, [ReqQuakeFeed (Fin 1) (Fin 2) 100]) /\
  py_in "error" three_quakes_result = false /\
  exists (data : value) (evs entries : list value),
    w_json three_quakes_world [] (ReqQuakeFeed (Fin 1) (Fin 2) 100) = Ok data /\
    feed_events data = Ok evs /\
    py_item three_quakes_result "raw" = Ok data /\
    py_item three_quakes_result "count"
    = Ok (VNum (nat_num (List.length evs))) /\
    py_item three_quakes_result "recent" = Ok (VList entries) /\
    List.length entries = List.length evs /\
    Forall2 (fun ev entry => quake_entry ev = Ok entry) evs entries.
Proof.
  split; [reflexivity|]. split; [reflexivity|].
  apply (check_earthquake_bookkeeping three_quakes_world (Fin 1) (Fin 2) 100 []
           [ReqQuakeFeed (Fin 1) (Fin 2) 100] three_quakes_result);
    reflexivity.
Defined.

(** X2.  [check_earthquake] always returns a dictionary, and that
    dictionary is free of ["error"] exactly when the request was answered
    with a document whose events can be listed and whose every event has a
    numeric magnitude once coerced: one event with, say, a string for
    magnitude turns the whole check into an error. *)
Theorem check_earthquake_succeeds_iff
    (w : world) (lat lon : num) (radius_km : Z) (log : list request) :
  exists res,
    fst (check_earthquake w lat lon radius_km log) = Ok res /\
    (py_in "error" res = false <->
     exists data evs,
       w_json w log (ReqQuakeFeed lat lon radius_km) = Ok data /\
       feed_events data = Ok evs /\
       Forall numeric_event evs).
Proof.
  rewrite check_earthquake_run. cbn [fst]. eexists. split; [reflexivity|].
  destruct (w_json w log (ReqQuakeFeed lat lon radius_km)) as [data|e];
    cbn [obind].
  2:{ split; [discriminate|]. intros (data & evs & Hd & _). discriminate. }
  destruct (check_earthquake_body data) as [r|e] eqn:Hb; cbn [catch].
  - destruct (check_earthquake_body_inv _ _ Hb)
      as (evs & est & recent & m & Hfe & Hloop & Hest & _ & ->).
    split; [intros _ | reflexivity].
    exists data, evs. split; [reflexivity|]. split; [exact Hfe|].
    assert (H0 : Fin 0 <> NaN) by discriminate.
    destruct (quake_loop_spec evs (vnum 0) [] (Fin 0) est recent eq_refl H0
                Hloop) as (mags & m' & HF & _).
    clear - HF. induction HF as [|ev x evs mags (c & Hc & Hx) _ IH];
      constructor; [exists c, x; auto | exact IH].
  - split; [discriminate|].
    intros (data' & evs & Hd & Hfe & Hall). injection Hd as <-.
    exfalso.
    destruct (quake_loop_total evs Hall (vnum 0) [] (Fin 0) eq_refl)
      as (est & recent & m & Hloop & Hest).
    revert Hb. unfold check_earthquake_body. unfold feed_events in Hfe.
    destruct (py_get data "features" (VList [])) as [events|];
      [|discriminate].
    cbn [obind] in *. rewrite Hfe. cbn [obind]. rewrite Hloop. cbn [obind].
    rewrite (py_cmp_num OpGe est (vnum 4.5) m (Fin 4.5) Hest eq_refl).
    discriminate.
Qed.

(** X3.  A feed that lists further events after those of another feed
    never has a lower magnitude estimate, and is flagged possible whenever
    the shorter feed is. *)
Theorem magnitude_estimate_grows_with_the_feed
    (data1 data2 res1 res2 : value) (evs more : list value) :
  feed_events data1 = Ok evs ->
  feed_events data2 = Ok (evs ++ more) ->
  check_earthquake_body data1 = Ok res1 ->
  check_earthquake_body data2 = Ok res2 ->
  exists (est1 est2 : value) (m1 m2 : num),
    py_item res1 "magnitude_estimate" = Ok est1 /\ as_num est1 = Some m1 /\
    py_item res2 "magnitude_estimate" = Ok est2 /\ as_num est2 = Some m2 /\
    num_cmp OpGe m2 m1 = true /\
    (py_item res1 "possible" = Ok (VBool true) ->
     py_item res2 "possible" = Ok (VBool true)).
Proof.
  intros Hf1 Hf2 Hb1 Hb2.
  destruct (check_earthquake_body_inv _ _ Hb1)
    as (evs1 & est1 & r1 & m1 & Hfe1 & Hl1 & He1 & Hn1 & ->).
  destruct (check_earthquake_body_inv _ _ Hb2)
    as (evs2 & est2 & r2 & m2 & Hfe2 & Hl2 & He2 & Hn2 & ->).
  rewrite Hf1 in Hfe1. injection Hfe1 as <-.
  rewrite Hf2 in Hfe2. injection Hfe2 as <-.
  rewrite quake_loop_app, Hl1 in Hl2. cbn [obind fst snd] in Hl2.
  destruct (quake_loop_spec more est1 r1 m1 est2 r2 He1 Hn1 Hl2)
    as (mags & m & _ & Hest & Hnot & _).
  rewrite He2 in Hest. injection Hest as <-.
  assert (Hge : num_cmp OpGe m2 m1 = true).
  { rewrite num_ge_le. exact (num_not_gt_le m1 m2 Hn1 Hn2 Hnot). }
  exists est1, est2, m1, m2.
  split; [reflexivity|]. split; [exact He1|]. split; [reflexivity|].
  split; [exact He2|]. split; [exact Hge|].
  cbn. intros H. injection H as H. do 2 f_equal.
  rewrite num_ge_le in Hge. exact (num_le_ge_trans m1 m2 _ Hge H).
Qed.

Lemma magnitude_estimate_grows_with_the_feed_witness :
  feed_events (quake_feed [VNone; vnum (-1)])
  = Ok (map quake_event [VNone; vnum (-1)]) /\
  feed_events (quake_feed [VNone; vnum (-1); vnum 5])
  = Ok (map quake_event [VNone; vnum (-1)] ++ [quake_event (vnum 5)]) /\
  exists (est1 est2 : value) (m1 m2 : num),
    py_item (catch (check_earthquake_body (quake_feed [VNone; vnum (-1)])))
      "magnitude_estimate" = Ok est1 /\ as_num est1 = Some m1 /\
    py_item (catch (check_earthquake_body
                      (quake_feed [VNone; vnum (-1); vnum 5])))
      "magnitude_estimate" = Ok est2 /\ as_num est2 = Some m2 /\
    num_cmp OpGe m2 m1 = true /\
    (py_item (catch (check_earthquake_body (quake_feed [VNone; vnum (-1)])))
       "possible" = Ok (VBool true) ->
     py_item (catch (check_earthquake_body
                       (quake_feed [VNone; vnum (-1); vnum 5])))
       "possible" = Ok (VBool true)).
Proof.
  split; [reflexivity|]. split; [reflexivity|].
  apply (magnitude_estimate_grows_with_the_feed
           (quake_feed [VNone; vnum (-1)])
           (quake_feed [VNone; vnum (-1); vnum 5])
           _ _ (map quake_event [VNone; vnum (-1)]) [quake_event (vnum 5)]);
    reflexivity.
Defined.

(** ** [check_tsunami], continued *)

Lemma check_tsunami_cases (w : world) (lat lon : num) (radius_km : Z)
    (thr : num) (log : list request) :
  let quake_req := ReqQuakeFeed lat lon radius_km in
  exists quake_info,
    fst (check_earthquake w lat lon radius_km log) = Ok quake_info /\
    ((exists msg,
        quake_info = VDict [("error", VStr msg)] /\
        check_tsunami w lat lon radius_km thr log
        = (Ok (VDict [("error", VStr ("quake feed error: " ++ msg))]),
           log ++ [quake_req]))
     \/
     (exists (est : value) (m count : num) (recent : list value)
             (data : value),
        as_num est = Some m /\
        quake_info
        = VDict [("possible", VBool (num_cmp OpGe m (Fin 4.5)));
                 ("magnitude_estimate", est);
                 ("count", VNum count);
                 ("recent", VList recent);
                 ("raw", data)] /\
        let dist := coast_distance w lat lon (log ++ [quake_req]) in
        let over := num_cmp OpGe m thr in
        check_tsunami w lat lon radius_km thr log
        = (Ok (VDict [("possible", VBool over);
                      ("max_quake_magnitude", est);
                      ("quake_count", VNum count);
                      ("min_coast_distance_km", opt_num_value dist);
                      ("severity",
                       VStr (if over
                             then if coast_near dist && num_cmp OpGe m (Fin 7.0)
                                  then "high" else "moderate"
                             else "low"));
                      ("recent_quakes", VList recent);
                      ("quake_raw", quake_info)]),
           log ++ [quake_req; ReqCoastline lat lon]))).
Proof.
  intros quake_req. rewrite check_earthquake_run. cbn [fst].
  eexists. split; [reflexivity|].
  unfold check_tsunami, try_except, bind. rewrite check_earthquake_run.
  fold quake_req.
  destruct (w_json w log quake_req) as [data|e]; cbn [obind].
  2:{ left. eexists. split; reflexivity. }
  destruct (check_earthquake_body data) as [qi|e] eqn:Hb; cbn [catch].
  2:{ left. eexists. split; reflexivity. }
  right.
  destruct (check_earthquake_body_shape _ _ Hb)
    as (est & m & count & recent & Hest & ->).
  exists est, m, count, recent, data.
  split; [exact Hest|]. split; [reflexivity|]. cbv zeta.
  cbn [py_in assoc String.eqb Ascii.eqb Bool.eqb].
  unfold lift, get_coast, ret. cbn [py_get assoc String.eqb Ascii.eqb Bool.eqb].
  rewrite (tsunami_decision_num est m thr _ Hest).
  rewrite <- app_assoc. cbn [app].
  destruct (num_cmp OpGe m thr); reflexivity.
Qed.

(** X4.  [check_tsunami] asks the seismic feed first.  When that check
    comes back as an error the tsunami check returns the error
    ["quake feed error: <cause>"] and the coastline is never queried;
    otherwise the coastline query is the second and last request, and the
    result carries no error. *)
Theorem check_tsunami_requests
    (w : world) (lat lon : num) (radius_km : Z) (thr : num)
    (log : list request) :
  exists (res quake_info : value),
    fst (check_earthquake w lat lon radius_km log) = Ok quake_info /\
    fst (check_tsunami w lat lon radius_km thr log) = Ok res /\
    (py_in "error" quake_info = true ->
     exists cause,
       py_item quake_info "error" = Ok (VStr cause) /\
       res = VDict [("error", VStr ("quake feed error: " ++ cause))] /\
       snd (check_tsunami w lat lon radius_km thr log)
       = log ++ [ReqQuakeFeed lat lon radius_km]) /\
    (py_in "error" quake_info = false ->
     py_in "error" res = false /\
     snd (check_tsunami w lat lon radius_km thr log)
     = log ++ [ReqQuakeFeed lat lon radius_km; ReqCoastline lat lon]).
Proof.
  destruct (check_tsunami_cases w lat lon radius_km thr log)
    as (quake_info & Hq & [(msg & -> & Hrun)
                          | (est & m & count & recent & data & Hest & -> & Hrun)]).
  - eexists. exists (VDict [("error", VStr msg)]).
    split; [exact Hq|]. rewrite Hrun. split; [reflexivity|].
    split; [|discriminate].
    intros _. exists msg. repeat split; reflexivity.
  - cbv zeta in Hrun. eexists. eexists. split; [exact Hq|].
    rewrite Hrun. split; [reflexivity|]. split; [discriminate|].
    intros _. split; reflexivity.
Qed.

(** X5.  A tsunami result that is not an error is consistent with the
    earthquake result it was derived from: [quake_raw] is that result, and
    [max_quake_magnitude], [quake_count] and [recent_quakes] are its
    estimate, count and recent list.  [possible] is true exactly when the
    severity is not low, and a high severity is only given to an estimate of
    at least 7.0. *)
Theorem check_tsunami_consistency
    (w : world) (lat lon : num) (radius_km : Z) (thr : num)
    (log log' : list request) (res : value) :
  check_tsunami w lat lon radius_km thr log = (Ok res, log') ->
  py_in "error" res = false ->
  exists (quake_info est : value) (m : num) (possible : bool) (sev : string),
    fst (check_earthquake w lat lon radius_km log) = Ok quake_info /\
    py_item res "quake_raw" = Ok quake_info /\
    py_item res "max_quake_magnitude" = py_item quake_info "magnitude_estimate" /\
    py_item res "quake_count" = py_item quake_info "count" /\
    py_item res "recent_quakes" = py_item quake_info "recent" /\
    py_item res "max_quake_magnitude" = Ok est /\ as_num est = Some m /\
    py_item res "possible" = Ok (VBool possible) /\
    py_item res "severity" = Ok (VStr sev) /\
    (possible = true <-> sev <> "low") /\
    (sev = "high" -> num_cmp OpGe m (Fin 7.0) = true).
Proof.
  intros Hrun Herr.
  destruct (check_tsunami_cases w lat lon radius_km thr log)
    as (quake_info & Hq & [(msg & _ & Hrun')
                          | (est & m & count & recent & data & Hest & -> & Hrun')]).
  - rewrite Hrun in Hrun'. injection Hrun' as -> _. discriminate.
  - cbv zeta in Hrun'. rewrite Hrun in Hrun'. injection Hrun' as -> _.
    eexists. exists est, m, (num_cmp OpGe m thr).
    exists (if num_cmp OpGe m thr
            then if coast_near
                      (coast_distance w lat lon
                         (log ++ [ReqQuakeFeed lat lon radius_km]))
                    && num_cmp OpGe m (Fin 7.0)
                 then "high" else "moderate"
            else "low").
    split; [exact Hq|]. split; [reflexivity|]. split; [reflexivity|].
    split; [reflexivity|]. split; [reflexivity|]. split; [reflexivity|].
    split; [exact Hest|]. split; [reflexivity|]. split; [reflexivity|].
    destruct (num_cmp OpGe m thr); destruct (coast_near _);
      destruct (num_cmp OpGe m (Fin 7.0)); cbn;
      (split;
       [split;
        [intros H; first [discriminate H | discriminate]
        | intros H; first [reflexivity | exfalso; apply H; reflexivity]]
       | intros H; first [reflexivity | discriminate H]]).
Qed.

Lemma check_tsunami_consistency_witness :
  check_tsunami near_coast_world (Fin 1) (Fin 2) 300 (Fin 6.5) []
  = (Ok (catch (fst (check_tsunami near_coast_world (Fin 1) (Fin 2) 300
                       (Fin 6.5) []))),
     [ReqQuakeFeed (Fin 1) (Fin 2) 300; ReqCoastline (Fin 1) (Fin 2)]) /\
  py_in "error"
    (catch (fst (check_tsunami near_coast_world (Fin 1) (Fin 2) 300
                   (Fin 6.5) []))) = false /\
  exists (quake_info est : value) (m : num) (possible : bool) (sev : string),
    fst (check_earthquake near_coast_world (Fin 1) (Fin 2) 300 [])
    = Ok quake_info /\
    py_item (catch (fst (check_tsunami near_coast_world (Fin 1) (Fin 2) 300
                           (Fin 6.5) []))) "quake_raw" = Ok quake_info /\
    py_item (catch (fst (check_tsunami near_coast_world (Fin 1) (Fin 2) 300
                           (Fin 6.5) []))) "max_quake_magnitude"
    = py_item quake_info "magnitude_estimate" /\
    py_item (catch (fst (check_tsunami near_coast_world (Fin 1) (Fin 2) 300
                           (Fin 6.5) []))) "quake_count"
    = py_item quake_info "count" /\
    py_item (catch (fst (check_tsunami near_coast_world (Fin 1) (Fin 2) 300
                           (Fin 6.5) []))) "recent_quakes"
    = py_item quake_info "recent" /\
    py_item (catch (fst (check_tsunami near_coast_world (Fin 1) (Fin 2) 300
                           (Fin 6.5) []))) "max_quake_magnitude" = Ok est /\
    as_num est = Some m /\
    py_item (catch (fst (check_tsunami near_coast_world (Fin 1) (Fin 2) 300
                           (Fin 6.5) []))) "possible" = Ok (VBool possible) /\
    py_item (catch (fst (check_tsunami near_coast_world (Fin 1) (Fin 2) 300
                           (Fin 6.5) []))) "severity" = Ok (VStr sev) /\
    (possible = true <-> sev <> "low") /\
    (sev = "high" -> num_cmp OpGe m (Fin 7.0) = true).
Proof.
  split; [reflexivity|]. split; [reflexivity|].
  apply (check_tsunami_consistency near_coast_world (Fin 1) (Fin 2) 300
           (Fin 6.5) []
           [ReqQuakeFeed (Fin 1) (Fin 2) 300; ReqCoastline (Fin 1) (Fin 2)]);
    reflexivity.
Defined.

(** ** [max] over a series *)

Lemma py_cmp_num_l (op : cmpop) (a b : value) (x : num) (r : bool) :
  as_num a = Some x -> py_cmp op a b = Ok r ->
  exists y, as_num b = Some y /\ r = num_cmp op x y.
Proof.
  intros Ha H. unfold py_cmp in H.
  destruct a, b; simpl in *; try discriminate;
    injection Ha as <-; injection H as <-; eexists; split; reflexivity.
Qed.

(** A maximum that is a number was taken over numbers only. *)
Lemma max_from_numeric (l : list value) :
  forall (cur est : value) (m : num),
    max_from cur l = Ok est -> as_num est = Some m ->
    (exists m0, as_num cur = Some m0) /\
    Forall (fun x => exists y, as_num x = Some y) l.
Proof.
  induction l as [|x l IH]; intros cur est m H Hest.
  - simpl in H. injection H as <-. split; [eauto | constructor].
  - simpl in H.
    destruct (py_cmp OpGt x cur) as [gt|] eqn:Hgt; cbn [obind] in H;
      [|discriminate].
    destruct (IH _ _ _ H Hest) as ((m' & Hm') & Hall).
    destruct gt.
    + destruct (py_cmp_num_l _ _ _ _ _ Hm' Hgt) as (y & Hy & _).
      split; [eauto|]. constructor; [eauto | exact Hall].
    + destruct (py_cmp_num_r _ _ _ _ _ Hm' Hgt) as (y & Hy & _).
      split; [eauto|]. constructor; [eauto | exact Hall].
Qed.

Lemma max_from_bound (l : list value) :
  forall (cur est : value) (m0 m : num),
    as_num cur = Some m0 ->
    max_from cur l = Ok est -> as_num est = Some m ->
    (est = cur \/ In est l) /\
    num_cmp OpGt m0 m = false /\
    (m0 = NaN -> m = NaN) /\ (m0 <> NaN -> m <> NaN) /\
    (forall x y, In x l -> as_num x = Some y -> num_cmp OpGt y m = false).
Proof.
  induction l as [|x l IH]; intros cur est m0 m Hm0 H Hest.
  - simpl in H. injection H as <-. rewrite Hm0 in Hest. injection Hest as <-.
    split; [left; reflexivity|]. split; [apply num_gt_irrefl|].
    split; [auto|]. split; [auto|]. intros x y [].
  - simpl in H.
    destruct (py_cmp OpGt x cur) as [gt|] eqn:Hgt; cbn [obind] in H;
      [|discriminate].
    destruct (py_cmp_num_r _ _ _ _ _ Hm0 Hgt) as (y0 & Hy0 & ->).
    destruct (num_cmp OpGt y0 m0) eqn:Hcmp.
    + destruct (IH _ _ y0 m Hy0 H Hest) as (Hmem & Hgt' & _ & Hnn & Hub).
      pose proof (num_gt_not_nan _ _ Hcmp) as Hy0n.
      split; [right; destruct Hmem as [-> | Hin]; [left; reflexivity
                                                  | right; exact Hin]|].
      split.
      { destruct (num_cmp OpGt m0 m) eqn:E; [|reflexivity].
        rewrite (num_gt_trans _ _ _ Hcmp E) in Hgt'. discriminate. }
      split.
      { intros ->. destruct y0; discriminate Hcmp. }
      split; [intros _; exact (Hnn Hy0n)|].
      intros x' y' [<- | Hin] Hy'.
      * rewrite Hy0 in Hy'. injection Hy' as <-. exact Hgt'.
      * exact (Hub _ _ Hin Hy').
    + destruct (IH _ _ m0 m Hm0 H Hest) as (Hmem & Hgt' & Hn & Hnn & Hub).
      split; [destruct Hmem as [-> | Hin]; [left; reflexivity
                                           | right; right; exact Hin]|].
      split; [exact Hgt'|]. split; [exact Hn|]. split; [exact Hnn|].
      intros x' y' [<- | Hin] Hy'.
      * rewrite Hy0 in Hy'. injection Hy' as <-.
        destruct m0 as [q| | |] eqn:Em0.
        -- apply (num_not_gt_trans y0 (Fin q) m); [discriminate | | ]; assumption.
        -- apply (num_not_gt_trans y0 PInf m); [discriminate | | ]; assumption.
        -- apply (num_not_gt_trans y0 NInf m); [discriminate | | ]; assumption.
        -- rewrite (Hn eq_refl). destruct y0; reflexivity.
      * exact (Hub _ _ Hin Hy').
Qed.

(** [max] over a sequence, when it comes out as a number: every item is a
    number, the maximum is one of them and none exceeds it. *)
Lemma py_max_spec (l : list value) (est : value) (m : num) :
  py_max l = Ok est -> as_num est = Some m ->
  Forall (fun x => exists y, as_num x = Some y) l /\
  In est l /\
  (forall x y, In x l -> as_num x = Some y -> num_cmp OpGt y m = false).
Proof.
  destruct l as [|x l]; [discriminate|]. cbn [py_max]. intros H Hest.
  destruct (max_from_numeric l x est m H Hest) as ((m0 & Hm0) & Hall).
  destruct (max_from_bound l x est m0 m Hm0 H Hest)
    as (Hmem & Hgt & _ & _ & Hub).
  split; [constructor; [eauto | exact Hall]|].
  split; [destruct Hmem as [-> | Hin]; [left; reflexivity | right; exact Hin]|].
  intros x' y' [<- | Hin] Hy'.
  - rewrite Hm0 in Hy'. injection Hy' as <-. exact Hgt.
  - exact (Hub _ _ Hin Hy').
Qed.

Lemma num_le_weaken (m : num) (a b : Q) :
  (a <= b)%Q -> num_cmp OpLe m (Fin a) = true -> num_cmp OpLe m (Fin b) = true.
Proof.
  intros Hab. destruct m as [p| | |]; try (cbn; congruence).
  unfold num_cmp; simpl.
  destruct (Qcompare_spec p a) as [E | L | G]; simpl; try discriminate;
    intros _;
    destruct (Qcompare_spec p b) as [E' | L' | G']; simpl; try reflexivity;
    exfalso.
  - rewrite E in G'. exact (Qlt_irrefl _ (Qle_lt_trans _ _ _ Hab G')).
  - exact (Qlt_irrefl _ (Qlt_trans _ _ _ (Qle_lt_trans _ _ _ Hab G') L)).
Qed.

(** ** [check_snowfall], continued *)

(** X6.  When the forecast document has a non-empty snowfall series and
    [check_snowfall] succeeds: every entry of the series is a number or
    null, [max_snowfall] is the greatest entry with null read as 0, the
    severity is high from 10, moderate from 2 and low below, and [possible]
    is the truth value of [max_snowfall > 0]; so a severity above low is
    always flagged possible. *)
Theorem check_snowfall_series_rule (d snowfall res : value) :
  snowfall_series d = Ok snowfall ->
  py_truthy snowfall = true ->
  check_snowfall_body d = Ok res ->
  exists (items : list value) (est : value) (m : num) (sev : string),
    py_iter snowfall = Ok items /\
    Forall (fun v => exists y, as_num (py_or v (vnum 0)) = Some y) items /\
    py_in "error" res = false /\
    py_item res "max_snowfall" = Ok est /\
    as_num est = Some m /\
    (exists v, In v items /\ est = py_or v (vnum 0)) /\
    (forall v y, In v items -> as_num (py_or v (vnum 0)) = Some y ->
                 num_cmp OpGt y m = false) /\
    py_item res "severity" = Ok (VStr sev) /\
    sev = (if num_cmp OpGe m (Fin 10) then "high"
           else if num_cmp OpGe m (Fin 2) then "moderate" else "low") /\
    py_item res "possible" = Ok (VBool (num_cmp OpGt m (Fin 0))) /\
    (sev <> "low" -> num_cmp OpGt m (Fin 0) = true).
Proof.
  unfold snowfall_series, check_snowfall_body. intros Hs Ht H.
  destruct (py_get d "daily" (VDict [])) as [daily|]; [|discriminate].
  cbn [obind] in *. rewrite Hs in H. cbn [obind] in H. rewrite Ht in H.
  destruct (py_iter snowfall) as [items|]; [|discriminate]. cbn [obind] in H.
  destruct (py_max (map (fun v => py_or v (vnum 0)) items)) as [est|] eqn:Hmax;
    [|discriminate].
  cbn [obind] in H.
  destruct (py_cmp OpGe est (vnum 10)) as [ge10|] eqn:H10; [|discriminate].
  destruct (py_cmp_num_r _ _ _ _ _ (eq_refl : as_num (vnum 10) = Some (Fin 10))
              H10) as (m & Hest & ->).
  rewrite (py_cmp_num OpGe est (vnum 2) m (Fin 2) Hest eq_refl) in H.
  rewrite (py_cmp_num OpGt est (vnum 0) m (Fin 0) Hest eq_refl) in H.
  destruct (py_max_spec _ _ _ Hmax Hest) as (Hall & Hin & Hub).
  assert (Hres : res = VDict
            [("possible", VBool (num_cmp OpGt m (Fin 0)));
             ("max_snowfall", est);
             ("severity",
              VStr (if num_cmp OpGe m (Fin 10) then "high"
                    else if num_cmp OpGe m (Fin 2) then "moderate"
                    else "low"));
             ("raw", d)]).
  { destruct (num_cmp OpGe m (Fin 10)); cbn [obind] in H;
      injection H as <-; reflexivity. }
  subst res. exists items, est, m. eexists.
  split; [reflexivity|]. split.
  { rewrite Forall_map in Hall. exact Hall. }
  split; [reflexivity|]. split; [reflexivity|]. split; [exact Hest|]. split.
  { apply in_map_iff in Hin. destruct Hin as (v & Hv & Hin).
    exists v. split; [exact Hin | symmetry; exact Hv]. }
  split.
  { intros v y Hv Hy. apply (Hub (py_or v (vnum 0)) y); [|exact Hy].
    apply in_map_iff. exists v. split; [reflexivity | exact Hv]. }
  split; [reflexivity|]. split; [reflexivity|]. split; [reflexivity|].
  intros Hne.
  assert (Hge2 : num_cmp OpGe m (Fin 2) = true).
  { destruct (num_cmp OpGe m (Fin 10)) eqn:E10.
    - apply (num_ge_weaken m 10 2); [|exact E10]. unfold Qle; simpl; lia.
    - destruct (num_cmp OpGe m (Fin 2)); [reflexivity|].
      exfalso. apply Hne. reflexivity. }
  clear - Hge2. destruct m as [q| | |]; try discriminate; try reflexivity.
  apply num_ge_fin in Hge2. apply num_gt_fin.
  apply (Qlt_le_trans _ 2); [|exact Hge2]. unfold Qlt; simpl; lia.
Qed.

Lemma check_snowfall_series_rule_witness :
  snowfall_series
    (VDict [("daily", VDict [("snowfall_sum", VList [vnum 1; VNone; vnum 3])])])
  = Ok (VList [vnum 1; VNone; vnum 3]) /\
  py_truthy (VList [vnum 1; VNone; vnum 3]) = true /\
  exists (items : list value) (est : value) (m : num) (sev : string),
    py_iter (VList [vnum 1; VNone; vnum 3]) = Ok items /\
    Forall (fun v => exists y, as_num (py_or v (vnum 0)) = Some y) items /\
    py_in "error"
      (catch (check_snowfall_body
                (VDict [("daily",
                         VDict [("snowfall_sum",
                                 VList [vnum 1; VNone; vnum 3])])]))) = false /\
    py_item
      (catch (check_snowfall_body
                (VDict [("daily",
                         VDict [("snowfall_sum",
                                 VList [vnum 1; VNone; vnum 3])])])))
      "max_snowfall" = Ok est /\
    as_num est = Some m /\
    (exists v, In v items /\ est = py_or v (vnum 0)) /\
    (forall v y, In v items -> as_num (py_or v (vnum 0)) = Some y ->
                 num_cmp OpGt y m = false) /\
    py_item
      (catch (check_snowfall_body
                (VDict [("daily",
                         VDict [("snowfall_sum",
                                 VList [vnum 1; VNone; vnum 3])])])))
      "severity" = Ok (VStr sev) /\
    sev = (if num_cmp OpGe m (Fin 10) then "high"
           else if num_cmp OpGe m (Fin 2) then "moderate" else "low") /\
    py_item
      (catch (check_snowfall_body
                (VDict [("daily",
                         VDict [("snowfall_sum",
                                 VList [vnum 1; VNone; vnum 3])])])))
      "possible" = Ok (VBool (num_cmp OpGt m (Fin 0))) /\
    (sev <> "low" -> num_cmp OpGt m (Fin 0) = true).
Proof.
  split; [reflexivity|]. split; [reflexivity|].
  apply (check_snowfall_series_rule
           (VDict [("daily",
                    VDict [("snowfall_sum", VList [vnum 1; VNone; vnum 3])])])
           (VList [vnum 1; VNone; vnum 3]));
    reflexivity.
Defined.

(** X7.  When the forecast document has no snowfall series (missing, null
    or empty), [check_snowfall] falls back on the current temperature: with
    none it answers the error ["no snowfall or current_weather data"] and
    hands the document back as ["raw"]; with a temperature [t] it reports a
    [max_snowfall] of 0, a severity that is moderate when [t <= -5] and low
    otherwise (never high), and [possible] as the truth value of [t <= 0]. *)
Theorem check_snowfall_fallback (d snowfall temp res : value) :
  snowfall_series d = Ok snowfall ->
  py_truthy snowfall = false ->
  current_temperature d = Ok temp ->
  check_snowfall_body d = Ok res ->
  (temp = VNone /\
   res = VDict [("error", VStr "no snowfall or current_weather data");
                ("raw", d)]) \/
  (exists t,
      as_num temp = Some t /\
      res = VDict [("possible", VBool (num_cmp OpLe t (Fin 0)));
                   ("max_snowfall", vnum 0);
                   ("severity",
                    VStr (if num_cmp OpLe t (Fin (-5)) then "moderate"
                          else "low"));
                   ("raw", d)] /\
      (num_cmp OpLe t (Fin (-5)) = true -> num_cmp OpLe t (Fin 0) = true)).
Proof.
  unfold snowfall_series, current_temperature, check_snowfall_body.
  intros Hs Ht Hc H.
  destruct (py_get d "daily" (VDict [])) as [daily|]; [|discriminate].
  cbn [obind] in Hs, H. rewrite Hs in H. cbn [obind] in H. rewrite Ht in H.
  destruct (py_get d "current_weather" (VDict [])) as [cur|]; [|discriminate].
  cbn [obind] in Hc, H. rewrite Hc in H. cbn [obind] in H.
  destruct (as_num temp) as [t|] eqn:Hnum.
  - right. exists t. split; [reflexivity|].
    assert (Hle : num_cmp OpLe t (Fin (-5)) = true ->
                  num_cmp OpLe t (Fin 0) = true).
    { apply num_le_weaken. unfold Qle; simpl; lia. }
    destruct temp; try discriminate Hnum;
      rewrite (py_cmp_num OpLe _ (vnum (-5)) t (Fin (-5)) Hnum eq_refl) in H;
      rewrite (py_cmp_num OpLe _ (vnum 0) t (Fin 0) Hnum eq_refl) in H;
      destruct (num_cmp OpLe t (Fin (-5))), (num_cmp OpLe t (Fin 0));
      cbn [obind] in H; injection H as <-;
      (split; [reflexivity | exact Hle]).
  - left. destruct temp; try discriminate Hnum;
      try (unfold py_cmp in H; cbn in H; discriminate H).
    injection H as <-. split; reflexivity.
Qed.

Lemma check_snowfall_fallback_witness :
  snowfall_series freezing_forecast = Ok VNone /\
  py_truthy VNone = false /\
  current_temperature freezing_forecast = Ok (vnum (-6)) /\
  check_snowfall_body freezing_forecast
  = Ok (catch (check_snowfall_body freezing_forecast)) /\
  ((vnum (-6) = VNone /\
    catch (check_snowfall_body freezing_forecast)
    = VDict [("error", VStr "no snowfall or current_weather data");
             ("raw", freezing_forecast)]) \/
   (exists t,
       as_num (vnum (-6)) = Some t /\
       catch (check_snowfall_body freezing_forecast)
       = VDict [("possible", VBool (num_cmp OpLe t (Fin 0)));
                ("max_snowfall", vnum 0);
                ("severity",
                 VStr (if num_cmp OpLe t (Fin (-5)) then "moderate"
                       else "low"));
                ("raw", freezing_forecast)] /\
       (num_cmp OpLe t (Fin (-5)) = true -> num_cmp OpLe t (Fin 0) = true))).
Proof.
  split; [reflexivity|]. split; [reflexivity|]. split; [reflexivity|].
  split; [reflexivity|].
  apply (check_snowfall_fallback freezing_forecast VNone (vnum (-6)));
    reflexivity.
Defined.

(** ** [check_hurricane], continued *)

(** X8.  Whenever [check_hurricane] succeeds on a forecast document:
    [max_wind_kph] is 0 when the wind series is missing, null or empty, and
    otherwise the greatest entry of the series, all of whose entries are
    numbers (a null entry is not coerced); the severity is high from 100,
    moderate from 75 and low below; [possible] is the truth value of
    [max_wind_kph >= 50], so every severity above low is flagged possible. *)
Theorem check_hurricane_rule (d winds res : value) :
  wind_series d = Ok winds ->
  check_hurricane_body d = Ok res ->
  exists (est : value) (m : num) (sev : string),
    py_in "error" res = false /\
    py_item res "max_wind_kph" = Ok est /\
    as_num est = Some m /\
    (py_truthy winds = false -> est = vnum 0) /\
    (py_truthy winds = true ->
     exists items,
       py_iter winds = Ok items /\
       Forall (fun x => exists y, as_num x = Some y) items /\
       In est items /\
       (forall x y, In x items -> as_num x = Some y ->
                    num_cmp OpGt y m = false)) /\
    py_item res "severity" = Ok (VStr sev) /\
    sev = (if num_cmp OpGe m (Fin 100) then "high"
           else if num_cmp OpGe m (Fin 75) then "moderate" else "low") /\
    py_item res "possible" = Ok (VBool (num_cmp OpGe m (Fin 50))) /\
    (sev <> "low" -> num_cmp OpGe m (Fin 50) = true).
Proof.
  unfold wind_series, check_hurricane_body. intros Hw H.
  destruct (py_get d "hourly" (VDict [])) as [hourly|]; [|discriminate].
  cbn [obind] in Hw, H.
  destruct (py_get hourly "windspeed_10m" (VList [])) as [w0|]; [|discriminate].
  cbn [obind] in Hw, H. injection Hw as Hw. rewrite Hw in H.
  destruct (if py_truthy winds
            then (items <- py_iter winds ;; py_max items)%outcome
            else Ok (vnum 0)) as [est|] eqn:Hmax; [|discriminate].
  cbn [obind] in H.
  destruct (py_cmp OpGe est (vnum 100)) as [ge100|] eqn:H100; [|discriminate].
  destruct (py_cmp_num_r _ _ _ _ _
              (eq_refl : as_num (vnum 100) = Some (Fin 100)) H100)
    as (m & Hest & ->).
  rewrite (py_cmp_num OpGe est (vnum 75) m (Fin 75) Hest eq_refl) in H.
  rewrite (py_cmp_num OpGe est (vnum 50) m (Fin 50) Hest eq_refl) in H.
  assert (Hres : res = VDict
            [("possible", VBool (num_cmp OpGe m (Fin 50)));
             ("max_wind_kph", est);
             ("severity",
              VStr (if num_cmp OpGe m (Fin 100) then "high"
                    else if num_cmp OpGe m (Fin 75) then "moderate"
                    else "low"));
             ("raw", d)]).
  { destruct (num_cmp OpGe m (Fin 100)); cbn [obind] in H;
      injection H as <-; reflexivity. }
  subst res. exists est, m. eexists.
  split; [reflexivity|]. split; [reflexivity|]. split; [exact Hest|].
  split.
  { intros Hf. rewrite Hf in Hmax. injection Hmax as <-. reflexivity. }
  split.
  { intros Ht. rewrite Ht in Hmax.
    destruct (py_iter winds) as [items|]; [|discriminate].
    cbn [obind] in Hmax. exists items. split; [reflexivity|].
    exact (py_max_spec _ _ _ Hmax Hest). }
  split; [reflexivity|]. split; [reflexivity|]. split; [reflexivity|].
  intros Hne.
  destruct (num_cmp OpGe m (Fin 100)) eqn:E100.
  - apply (num_ge_weaken m 100 50); [|exact E100]. unfold Qle; simpl; lia.
  - destruct (num_cmp OpGe m (Fin 75)) eqn:E75.
    + apply (num_ge_weaken m 75 50); [|exact E75]. unfold Qle; simpl; lia.
    + exfalso. apply Hne. reflexivity.
Qed.

Lemma check_hurricane_rule_witness :
  wind_series
    (VDict [("hourly", VDict [("windspeed_10m", VList [vnum 40; vnum 80])])])
  = Ok (VList [vnum 40; vnum 80]) /\
  exists (est : value) (m : num) (sev : string),
    py_in "error"
      (catch (check_hurricane_body
                (VDict [("hourly",
                         VDict [("windspeed_10m",
                                 VList [vnum 40; vnum 80])])]))) = false /\
    py_item
      (catch (check_hurricane_body
                (VDict [("hourly",
                         VDict [("windspeed_10m",
                                 VList [vnum 40; vnum 80])])])))
      "max_wind_kph" = Ok est /\
    as_num est = Some m /\
    (py_truthy (VList [vnum 40; vnum 80]) = false -> est = vnum 0) /\
    (py_truthy (VList [vnum 40; vnum 80]) = true ->
     exists items,
       py_iter (VList [vnum 40; vnum 80]) = Ok items /\
       Forall (fun x => exists y, as_num x = Some y) items /\
       In est items /\
       (forall x y, In x items -> as_num x = Some y ->
                    num_cmp OpGt y m = false)) /\
    py_item
      (catch (check_hurricane_body
                (VDict [("hourly",
                         VDict [("windspeed_10m",
                                 VList [vnum 40; vnum 80])])])))
      "severity" = Ok (VStr sev) /\
    sev = (if num_cmp OpGe m (Fin 100) then "high"
           else if num_cmp OpGe m (Fin 75) then "moderate" else "low") /\
    py_item
      (catch (check_hurricane_body
                (VDict [("hourly",
                         VDict [("windspeed_10m",
                                 VList [vnum 40; vnum 80])])])))
      "possible" = Ok (VBool (num_cmp OpGe m (Fin 50))) /\
    (sev <> "low" -> num_cmp OpGe m (Fin 50) = true).
Proof.
  split; [reflexivity|].
  apply (check_hurricane_rule
           (VDict [("hourly",
                    VDict [("windspeed_10m", VList [vnum 40; vnum 80])])])
           (VList [vnum 40; vnum 80]));
    reflexivity.
Defined.

(** ** [check_wildfire], continued *)

(** X9.  The wildfire classification, whenever it succeeds on the figures
    of the week, which the result hands back unchanged: the wind is the
    [wind_kph] of the weather result, 0 when that is missing or null;
    severity is high exactly when precipitation is below 5, a maximum
    temperature is known and at least 30, and the wind is at least 30;
    moderate exactly when it is not high, precipitation is below 10 and the
    wind is at least 20; low otherwise.  The result has neither an
    ["error"] nor a ["possible"] key. *)
Theorem wildfire_classification (d p t curw res : value) :
  wildfire_classify d p t curw = Ok res ->
  exists (wk wind : value) (sev : string),
    py_get curw "wind_kph" VNone = Ok wk /\
    wind = py_or wk (vnum 0) /\
    py_item res "precip_last7_mm" = Ok p /\
    py_item res "max_temp_last7_c" = Ok t /\
    py_item res "wind_kph_now" = Ok wind /\
    py_item res "temp_now_c" = py_get curw "temperature_c" VNone /\
    py_item res "severity" = Ok (VStr sev) /\
    py_in "error" res = false /\
    py_in "possible" res = false /\
    (sev = "high" <->
     holds (py_cmp OpLt p (vnum 5)) /\ t <> VNone /\
     holds (py_cmp OpGe t (vnum 30)) /\ holds (py_cmp OpGe wind (vnum 30))) /\
    (sev = "moderate" <->
     sev <> "high" /\ holds (py_cmp OpLt p (vnum 10)) /\
     holds (py_cmp OpGe wind (vnum 20))) /\
    (sev = "high" \/ sev = "moderate" \/ sev = "low").
Proof.
  unfold wildfire_classify, holds. intros H.
  destruct (py_get curw "wind_kph" VNone) as [wk|] eqn:Hwk; [|discriminate].
  cbn [obind] in H.
  destruct (py_get curw "temperature_c" VNone) as [tn|] eqn:Htn;
    [|discriminate].
  cbn [obind] in H. remember (py_or wk (vnum 0)) as wind eqn:Hwind.
  exists wk, wind.
  outcome_cases H;
    repeat match type of H with
           | context [if ?b then _ else _] => destruct b
           end;
    injection H as <-; eexists;
    (split; [reflexivity|]); (split; [exact Hwind|]);
    (split; [reflexivity|]); (split; [reflexivity|]);
    (split; [reflexivity|]); (split; [reflexivity|]);
    (split; [reflexivity|]); (split; [reflexivity|]);
    (split; [reflexivity|]);
    (split; [split; [intros; first [discriminate | repeat split; congruence]
                    | intros (? & ? & ? & ?); congruence]|]);
    (split; [split; [intros; first [discriminate | repeat split; congruence]
                    | intros (? & ? & ?); congruence]|]);
    auto.
Qed.

Lemma wildfire_classification_witness :
  wildfire_classify hot_dry_week (vnum 2) (vnum 35) windy_day
  = Ok hot_dry_windy_result /\
  exists (wk wind : value) (sev : string),
    py_get windy_day "wind_kph" VNone = Ok wk /\
    wind = py_or wk (vnum 0) /\
    py_item hot_dry_windy_result "precip_last7_mm" = Ok (vnum 2) /\
    py_item hot_dry_windy_result "max_temp_last7_c" = Ok (vnum 35) /\
    py_item hot_dry_windy_result "wind_kph_now" = Ok wind /\
    py_item hot_dry_windy_result "temp_now_c"
    = py_get windy_day "temperature_c" VNone /\
    py_item hot_dry_windy_result "severity" = Ok (VStr sev) /\
    py_in "error" hot_dry_windy_result = false /\
    py_in "possible" hot_dry_windy_result = false /\
    (sev = "high" <->
     holds (py_cmp OpLt (vnum 2) (vnum 5)) /\ vnum 35 <> VNone /\
     holds (py_cmp OpGe (vnum 35) (vnum 30)) /\
     holds (py_cmp OpGe wind (vnum 30))) /\
    (sev = "moderate" <->
     sev <> "high" /\ holds (py_cmp OpLt (vnum 2) (vnum 10)) /\
     holds (py_cmp OpGe wind (vnum 20))) /\
    (sev = "high" \/ sev = "moderate" \/ sev = "low").
Proof.
  split; [reflexivity|].
  apply (wildfire_classification hot_dry_week (vnum 2) (vnum 35) windy_day).
  reflexivity.
Defined.

Lemma max_from_mem (l : list value) :
  forall cur est, max_from cur l = Ok est -> est = cur \/ In est l.
Proof.
  induction l as [|x l IH]; intros cur est H; simpl in H.
  - injection H as <-. left. reflexivity.
  - destruct (py_cmp OpGt x cur) as [[|]|]; cbn [obind] in H;
      [| |discriminate];
      destruct (IH _ _ H) as [-> | Hin]; simpl; auto.
Qed.

Lemma py_max_mem (l : list value) (est : value) :
  py_max l = Ok est -> In est l.
Proof.
  destruct l as [|x l]; [discriminate|]. cbn [py_max]. intros H.
  destruct (max_from_mem _ _ _ H) as [-> | Hin]; simpl; auto.
Qed.

Lemma max_from_const (c : value) (l : list value) :
  py_cmp OpGt c c = Ok false ->
  Forall (fun x => x = c) l -> max_from c l = Ok c.
Proof.
  intros Hc Hall. induction Hall as [|x l -> _ IH]; [reflexivity|].
  simpl. rewrite Hc. exact IH.
Qed.

(** X10.  The two figures [check_wildfire] draws from the archive, whenever
    they can be computed: the precipitation of the week is a number;
    [max_temp_last7_c] is [None] exactly when the temperature series is
    missing, null or empty, and otherwise it is one of the entries, where an
    entry that is null or 0 counts as -999: no entry, so read, exceeds it,
    and a series of nulls and zeros gives -999. *)
Theorem wildfire_history_figures (d temps p t : value) :
  temperature_series d = Ok temps ->
  wildfire_history d = Ok (p, t) ->
  (exists x, p = VNum x) /\
  (t = VNone <-> py_truthy temps = false) /\
  (py_truthy temps = true ->
   exists items,
     py_iter temps = Ok items /\
     (exists v, In v items /\ t = py_or v (vnum (-999))) /\
     (forall m v y, as_num t = Some m -> In v items ->
                    as_num (py_or v (vnum (-999))) = Some y ->
                    num_cmp OpGt y m = false) /\
     (Forall (fun v => py_truthy v = false) items -> t = vnum (-999))).
Proof.
  intros Hs H. split; [exact (wildfire_history_precip _ _ _ H)|].
  unfold temperature_series in Hs. unfold wildfire_history, py_sum in H.
  destruct (py_get d "daily" (VDict [])) as [daily|]; [|discriminate].
  cbn [obind] in Hs, H.
  destruct (py_get daily "precipitation_sum" (VList [])) as [p0|];
    [|discriminate].
  cbn [obind] in H.
  destruct (py_get daily "temperature_2m_max" (VList [])) as [t0|];
    [|discriminate].
  cbn [obind] in Hs, H. injection Hs as Hs. rewrite Hs in H.
  destruct (py_iter (py_or p0 (VList []))) as [pitems|]; [|discriminate].
  cbn [obind] in H.
  destruct (sum_from (Fin 0) _) as [total|]; [|discriminate].
  cbn [obind] in H.
  destruct (py_truthy temps) eqn:Htruthy.
  - destruct (py_iter temps) as [items|]; [|discriminate]. cbn [obind] in H.
    destruct (py_max (map (fun v => py_or v (vnum (-999))) items))
      as [est|] eqn:Hmax; [|discriminate].
    cbn [obind] in H. injection H as _ <-.
    assert (Hmem : exists v, In v items /\ est = py_or v (vnum (-999))).
    { apply py_max_mem in Hmax. apply in_map_iff in Hmax.
      destruct Hmax as (v & Hv & Hin). exists v. split; [exact Hin|].
      symmetry. exact Hv. }
    split.
    + split; [|discriminate]. intros ->. exfalso.
      destruct Hmem as (v & _ & Hv). unfold py_or in Hv.
      destruct (py_truthy v) eqn:Ev; [|discriminate Hv].
      subst v. discriminate Ev.
    + intros _. exists items. split; [reflexivity|]. split; [exact Hmem|].
      split.
      * intros m v y Hm Hin Hy.
        destruct (py_max_spec _ _ _ Hmax Hm) as (_ & _ & Hub).
        apply (Hub (py_or v (vnum (-999))) y); [|exact Hy].
        apply in_map_iff. exists v. split; [reflexivity | exact Hin].
      * intros Hall. destruct items as [|v items]; [discriminate Hmax|].
        cbn [map py_max] in Hmax. inversion Hall as [|? ? Hv Hrest]; subst.
        unfold py_or at 1 in Hmax. rewrite Hv in Hmax.
        rewrite max_from_const in Hmax; [congruence | reflexivity |].
        apply Forall_map. revert Hrest. apply Forall_impl.
        intros a Ha. unfold py_or. rewrite Ha. reflexivity.
  - cbn [obind] in H. injection H as _ <-. split; [|discriminate].
    split; reflexivity.
Qed.

Lemma wildfire_history_figures_witness :
  temperature_series hot_dry_week = Ok (VList [vnum 31; vnum 35]) /\
  wildfire_history hot_dry_week = Ok (vnum 2, vnum 35) /\
  (exists x, vnum 2 = VNum x) /\
  (vnum 35 = VNone <-> py_truthy (VList [vnum 31; vnum 35]) = false) /\
  (py_truthy (VList [vnum 31; vnum 35]) = true ->
   exists items,
     py_iter (VList [vnum 31; vnum 35]) = Ok items /\
     (exists v, In v items /\ vnum 35 = py_or v (vnum (-999))) /\
     (forall m v y, as_num (vnum 35) = Some m -> In v items ->
                    as_num (py_or v (vnum (-999))) = Some y ->
                    num_cmp OpGt y m = false) /\
     (Forall (fun v => py_truthy v = false) items ->
      vnum 35 = vnum (-999))).
Proof.
  split; [reflexivity|]. split; [reflexivity|].
  apply (wildfire_history_figures hot_dry_week (VList [vnum 31; vnum 35]));
    reflexivity.
Defined.

(** ** [check_flood], continued *)

Lemma sum_from_numeric (l : list value) :
  forall acc total, sum_from acc l = Ok total -> Forall numeric l.
Proof.
  induction l as [|x l IH]; intros acc total H; [constructor|].
  simpl in H. destruct (as_num x) as [n|] eqn:Hx; [|discriminate].
  constructor; [exists n; exact Hx | exact (IH _ _ H)].
Qed.

Lemma sum_from_raises (l : list value) :
  Exists (fun x => as_num x = None) l ->
  forall acc, sum_from acc l = Raise TypeError.
Proof.
  induction 1 as [x l Hx | x l _ IH]; intros acc; simpl.
  - rewrite Hx. reflexivity.
  - destruct (as_num x); [apply IH | reflexivity].
Qed.

(** X11.  The two 24-hour figures of [check_flood] are sums over one and
    the same hourly forecast series, which is a list whenever the forecast
    figure can be computed: its first 24 entries are numbers; when the
    series has at most 24 entries the "recent" figure equals the forecast
    figure (both 0 for an empty series); and when one of the last 24
    entries is not a number the "recent" figure is 0, the failed sum being
    swallowed. *)
Theorem flood_series_figures (rfore series : value) (f : num) :
  flood_forecast rfore = Ok (series, f) ->
  exists l,
    series = VList l /\
    sum_from (Fin 0) (firstn 24 l) = Ok f /\
    Forall numeric (firstn 24 l) /\
    ((List.length l <= 24)%nat -> flood_recent series = f) /\
    (Exists (fun x => as_num x = None) (skipn (List.length l - 24) l) ->
     flood_recent series = Fin 0).
Proof.
  unfold flood_forecast. intros H.
  destruct (py_get rfore "hourly" (VDict [])) as [hourly|]; [|discriminate].
  cbn [obind] in H.
  destruct (py_get hourly "precipitation" (VList [])) as [p0|]; [|discriminate].
  cbn [obind] in H.
  destruct (py_truthy (py_or p0 (VList []))) eqn:Htruthy.
  - destruct (py_slice_first 24 (py_or p0 (VList []))) as [items|] eqn:Hslice;
      [|discriminate].
    cbn [obind] in H.
    destruct (sum_from (Fin 0) items) as [total|] eqn:Hsum; [|discriminate].
    cbn [obind] in H. injection H as <- <-.
    destruct (py_or p0 (VList [])) as [| | |str|l|]; try discriminate Hslice.
    + exfalso. cbn [py_slice_first] in Hslice. injection Hslice as <-.
      destruct str as [|c str]; [discriminate Htruthy | discriminate Hsum].
    + assert (Hitems : items = firstn 24 l)
        by (unfold py_slice_first in Hslice; congruence).
      subst items. clear Hslice.
      exists l. split; [reflexivity|]. split; [exact Hsum|].
      split; [exact (sum_from_numeric _ _ _ Hsum)|].
      unfold flood_recent. rewrite Htruthy. cbn [py_slice_last obind].
      split.
      * intros Hlen.
        replace (List.length l - 24)%nat with 0%nat by lia.
        rewrite firstn_all2 in Hsum by exact Hlen.
        cbn [skipn]. rewrite Hsum. reflexivity.
      * intros Hex. rewrite (sum_from_raises _ Hex). reflexivity.
  - cbn [obind] in H. injection H as <- <-.
    assert (Hs : py_or p0 (VList []) = VList []).
    { unfold py_or in *. destruct (py_truthy p0) eqn:E; [|reflexivity].
      rewrite E in Htruthy. discriminate. }
    rewrite Hs. exists []. split; [reflexivity|]. split; [reflexivity|].
    split; [constructor|]. split; [reflexivity|]. reflexivity.
Qed.

Lemma flood_series_figures_witness :
  flood_forecast
    (VDict [("hourly", VDict [("precipitation", VList [vnum 3; vnum 4])])])
  = Ok (VList [vnum 3; vnum 4], Fin 7) /\
  exists l,
    VList [vnum 3; vnum 4] = VList l /\
    sum_from (Fin 0) (firstn 24 l) = Ok (Fin 7) /\
    Forall numeric (firstn 24 l) /\
    ((List.length l <= 24)%nat ->
     flood_recent (VList [vnum 3; vnum 4]) = Fin 7) /\
    (Exists (fun x => as_num x = None) (skipn (List.length l - 24) l) ->
     flood_recent (VList [vnum 3; vnum 4]) = Fin 0).
Proof.
  split; [reflexivity|].
  apply (flood_series_figures
           (VDict [("hourly",
                    VDict [("precipitation", VList [vnum 3; vnum 4])])])).
  reflexivity.
Defined.

(** ** The requests of the checks *)

Lemma check_wildfire_log (w : world) (lat lon : num) (log : list request) :
  exists (wf : value) (weather : list request),
    check_wildfire w lat lon log
    = (Ok wf, log ++ [ReqArchiveWeek lat lon] ++ weather) /\
    hazard_result wf /\
    ((weather = [] /\ py_in "error" wf = true /\
      exists e,
        obind (w_json w log (ReqArchiveWeek lat lon)) wildfire_history
        = Raise e) \/
     (weather = [ReqCurrentWeather lat lon] /\
      exists figures,
        obind (w_json w log (ReqArchiveWeek lat lon)) wildfire_history
        = Ok figures)).
Proof.
  rewrite check_wildfire_run.
  destruct (w_json w log (ReqArchiveWeek lat lon)) as [d|e]; cbn [obind].
  - destruct (wildfire_history d) as [[p0 t0]|e]; cbn [obind].
    + cbv zeta. rewrite <- app_assoc.
      eexists. exists [ReqCurrentWeather lat lon].
      split; [reflexivity|]. split.
      * destruct (wildfire_classify d p0 t0 _) as [res|e] eqn:E; simpl.
        -- exact (wildfire_classify_result _ _ _ _ _ E).
        -- apply hazard_result_error.
      * right. split; [reflexivity|]. eexists. reflexivity.
    + eexists. exists []. split; [reflexivity|].
      split; [apply hazard_result_error|].
      left. split; [reflexivity|]. split; [reflexivity|]. eexists. reflexivity.
  - eexists. exists []. split; [reflexivity|].
    split; [apply hazard_result_error|].
    left. split; [reflexivity|]. split; [reflexivity|]. eexists. reflexivity.
Qed.

Lemma check_tsunami_log (w : world) (lat lon : num) (radius_km : Z)
    (thr : num) (log : list request) :
  exists ts,
    check_tsunami w lat lon radius_km thr log
    = (Ok ts,
       log ++ [ReqQuakeFeed lat lon radius_km]
           ++ (if py_in "error" ts then [] else [ReqCoastline lat lon])) /\
    hazard_result ts /\
    py_in "error" ts
    = py_in "error" (catch (fst (check_earthquake w lat lon radius_km log))).
Proof.
  destruct (check_tsunami_ok w lat lon radius_km thr log)
    as (ts & its & Hts & Pts & _).
  destruct (check_tsunami_cases w lat lon radius_km thr log)
    as (qi & Hqi & [(msg & -> & Hrun) | Hok]).
  - rewrite Hqi. rewrite Hrun in Hts. injection Hts as <- _.
    exists (VDict [("error", VStr ("quake feed error: " ++ msg)%string)]).
    split; [exact Hrun|]. split; [exact Pts | reflexivity].
  - destruct Hok as (est & m & count & recent & data & _ & -> & Hrun).
    cbv zeta in Hrun. rewrite Hqi. rewrite Hrun in Hts.
    injection Hts as <- _. eexists. split; [exact Hrun|].
    split; [exact Pts | reflexivity].
Qed.

(** X12.  The requests of one assessment, once the coordinate is known.
    The aggregator always returns, and it asks, in this order: the seismic
    feed within 100 km, the current weather, the schools, the hospitals,
    the snow forecast, the wind forecast, the seismic feed again within
    300 km, the coastline unless the tsunami entry is an error, the weekly
    archive, and the current weather a second time unless the archive
    figures failed (the wildfire entry is then an error).  Nothing else is
    requested: no geocoding, and none of the two requests of
    [check_flood]. *)
Theorem assess_requests (w : world) (lat lon : num) (log : list request) :
  exists (res ts wf : value) (coast weather : list request),
    assess w lat lon log
    = (Ok res,
       log ++ [ReqQuakeFeed lat lon 100; ReqCurrentWeather lat lon;
               ReqSchools lat lon; ReqHospitals lat lon;
               ReqSnowForecast lat lon; ReqWindForecast lat lon;
               ReqQuakeFeed lat lon 300]
           ++ coast ++ [ReqArchiveWeek lat lon] ++ weather) /\
    py_item res "tsunami" = Ok ts /\
    py_item res "wildfire" = Ok wf /\
    coast = (if py_in "error" ts then [] else [ReqCoastline lat lon]) /\
    (weather = [] \/ weather = [ReqCurrentWeather lat lon]) /\
    (weather = [] -> py_in "error" wf = true) /\
    ~ In (ReqPrecipForecast lat lon) (coast ++ weather) /\
    ~ In (ReqArchivePrecip lat lon) (coast ++ weather).
Proof.
  destruct (check_earthquake_ok w lat lon 100 log) as (qk & Heq & Peq).
  set (log1 := log ++ [ReqQuakeFeed lat lon 100]) in *.
  destruct (get_weather_ok w lat lon log1) as (we & Hwe & Pwe).
  set (log2 := log1 ++ [ReqCurrentWeather lat lon]) in *.
  destruct (find_schools_ok w lat lon log2) as (sh & Hsh & Psh).
  set (log3 := log2 ++ [ReqSchools lat lon]) in *.
  destruct (find_hospitals_ok w lat lon log3) as (ho & Hho & Pho).
  set (log4 := log3 ++ [ReqHospitals lat lon]) in *.
  destruct (check_snowfall_ok w lat lon log4) as (sn & Hsn & Psn).
  set (log5 := log4 ++ [ReqSnowForecast lat lon]) in *.
  destruct (check_hurricane_ok w lat lon log5) as (hu & Hhu & Phu).
  set (log6 := log5 ++ [ReqWindForecast lat lon]) in *.
  destruct (check_tsunami_log w lat lon 300 (Fin 6.5) log6)
    as (ts & Hts & Pts & _).
  set (coast := if py_in "error" ts then [] else [ReqCoastline lat lon]) in *.
  destruct (check_wildfire_log w lat lon
              (log6 ++ [ReqQuakeFeed lat lon 300] ++ coast))
    as (wf & weather & Hwf & Pwf & Hweather).
  eexists. exists ts, wf, coast, weather.
  split.
  { unfold assess, bind.
    rewrite Heq. fold log1. rewrite Hwe. fold log2. rewrite Hsh. fold log3.
    rewrite Hho. fold log4. rewrite Hsn. fold log5. rewrite Hhu. fold log6.
    rewrite Hts, Hwf. unfold lift.
    rewrite (plan_loop_ok w ho sh _ Pho Psh _ []
               (final_severities_labels w qk sn hu ts wf Psn Phu Pts Pwf)).
    unfold ret. f_equal.
    unfold log6, log5, log4, log3, log2, log1.
    repeat rewrite <- app_assoc. reflexivity. }
  split; [reflexivity|]. split; [reflexivity|]. split; [reflexivity|].
  split; [destruct Hweather as [(-> & _) | (-> & _)]; auto|].
  split; [intros ->; destruct Hweather as [(_ & H & _) | (H & _)];
          [exact H | discriminate H]|].
  unfold coast.
  split; intros Hin; apply in_app_or in Hin;
    destruct (py_in "error" ts), Hweather as [(-> & _) | (-> & _)];
    simpl in Hin; intuition discriminate.
Qed.

(** ** The report, continued *)

Lemma hazard_result_severity (v : value) :
  hazard_result v -> py_in "error" v = false ->
  exists s,
    py_item v "severity" = Ok (VStr s) /\
    py_or (get_if_dict v "severity") (VStr "low") = VStr s /\
    is_severity (VStr s).
Proof.
  intros (d & -> & [[Herr _] | [_ (s & Hsev & Hs)]]) Hin; simpl in *.
  - destruct (assoc "error" d); [discriminate Hin | congruence].
  - exists s. rewrite Hsev. split; [reflexivity|].
    destruct Hs as [-> | [-> | ->]]; unfold is_severity; cbn; auto.
Qed.

(** X13.  In the report of an assessment the final severity of snowfall,
    hurricane, tsunami and wildfire is the ["severity"] of that hazard's own
    entry whenever the entry is not an error, and that is one of the three
    labels; together with the rule for errors, the four labels are a
    function of the four entries alone. *)
Theorem final_severity_is_the_entry_severity
    (w : world) (lat lon : num) (log : list request) :
  exists (d fs : list (string * value)) (log' : list request),
    assess w lat lon log = (Ok (VDict d), log') /\
    assoc "final_severities" d = Some (VDict fs) /\
    forall h v,
      In h ["snowfall"; "hurricane"; "tsunami"; "wildfire"] ->
      assoc h d = Some v ->
      py_in "error" v = false ->
      exists s,
        py_item v "severity" = Ok (VStr s) /\
        assoc h fs = Some (VStr s) /\
        is_severity (VStr s).
Proof.
  destruct (assess_run w lat lon log)
    as (qk & we & sh & ho & sn & hu & ts & wf & issued & H).
  cbv zeta in H.
  destruct H as (Hrun & _ & _ & _ & _ & _ & _ & _ & _ & _ & _
                 & Psn & Phu & Pts & Pwf).
  eexists. eexists. eexists. split; [exact Hrun|]. split; [reflexivity|].
  intros h v Hh Hv Herr.
  destruct Hh as [<- | [<- | [<- | [<- | []]]]];
    cbn [assoc String.eqb Ascii.eqb Bool.eqb] in Hv; injection Hv as <-.
  - destruct (hazard_result_severity _ Psn Herr) as (s0 & H1 & H2 & H3).
    exists s0. split; [exact H1|]. split; [|exact H3].
    unfold final_severities_of. cbn [assoc String.eqb Ascii.eqb Bool.eqb].
    rewrite H2. reflexivity.
  - destruct (hazard_result_severity _ Phu Herr) as (s0 & H1 & H2 & H3).
    exists s0. split; [exact H1|]. split; [|exact H3].
    unfold final_severities_of. cbn [assoc String.eqb Ascii.eqb Bool.eqb].
    rewrite H2. reflexivity.
  - destruct (hazard_result_severity _ Pts Herr) as (s0 & H1 & H2 & H3).
    exists s0. split; [exact H1|]. split; [|exact H3].
    unfold final_severities_of. cbn [assoc String.eqb Ascii.eqb Bool.eqb].
    rewrite H2. reflexivity.
  - destruct (hazard_result_severity _ Pwf Herr) as (s0 & H1 & H2 & H3).
    exists s0. split; [exact H1|]. split; [|exact H3].
    unfold final_severities_of. cbn [assoc String.eqb Ascii.eqb Bool.eqb].
    rewrite H2. reflexivity.
Qed.

Lemma flat_map_nil {A B : Type} (f : A -> list B) (l : list A) :
  flat_map f l = [] <-> Forall (fun x => f x = []) l.
Proof.
  induction l as [|x l IH]; simpl.
  - split; [constructor | reflexivity].
  - split.
    + intros H. apply app_eq_nil in H. destruct H as (Hx & Hl).
      constructor; [exact Hx | apply IH; exact Hl].
    + intros H. inversion H as [|? ? Hx Hl]; subst.
      rewrite Hx. apply IH. exact Hl.
Qed.

Lemma flat_map_length_bound {A B : Type} (f : A -> list B) (g : A -> nat)
    (l : list A) :
  (forall x, In x l -> (List.length (f x) <= g x)%nat) ->
  (List.length (flat_map f l) <= list_sum (map g l))%nat.
Proof.
  induction l as [|x l IH]; intros H; simpl; [lia|].
  rewrite length_app.
  pose proof (H x (or_introl eq_refl)).
  pose proof (IH (fun y Hy => H y (or_intror Hy))). lia.
Qed.

Lemma resources_line_length (label : string) (refs : list string) :
  (List.length (resources_line label refs) <= 1)%nat.
Proof. destruct refs; simpl; lia. Qed.

Lemma directives_length (fs : list (string * value)) (d : string)
    (hl sl : list string) :
  (List.length (directives fs d hl sl)
   <= if String.eqb d "earthquake" then 5
      else if String.eqb d "tsunami" then 3 else 4)%nat.
Proof.
  unfold directives.
  pose proof (resources_line_length "- Nearby hospitals (top): " hl).
  pose proof (resources_line_length "- Nearby relief shelters (top): " sl).
  pose proof (resources_line_length "- Hospitals to consider: " hl).
  pose proof (resources_line_length "- Shelters: " sl).
  pose proof (resources_line_length "- Hospitals: " hl).
  pose proof (resources_line_length "- Hospitals (in case of emergencies): " hl).
  pose proof (resources_line_length "- Hospitals (for smoke/trauma): " hl).
  destruct (String.eqb d "earthquake").
  - repeat rewrite length_app.
    destruct (py_eq _ (VStr "high") || py_eq _ (VStr "moderate"));
      cbn [List.length]; lia.
  - destruct (String.eqb d "tsunami"), (String.eqb d "hurricane"),
      (String.eqb d "snowfall"), (String.eqb d "wildfire");
      repeat rewrite length_app; cbn [List.length]; lia.
Qed.

Lemma hazard_block_size (w : world) (ho sh : value)
    (fs : list (string * value)) (d : string) (sev : value) :
  is_severity sev ->
  places_result "hospitals" hospital_item ho ->
  places_result "shelters" school_item sh ->
  (hazard_block w ho sh fs d sev = [] <-> sev = VStr "low") /\
  (List.length (hazard_block w ho sh fs d sev)
   <= if String.eqb d "earthquake" then 6
      else if String.eqb d "tsunami" then 4 else 5)%nat.
Proof.
  intros Hsev Hho Hsh.
  destruct (hazard_block_lines w ho sh fs d sev Hsev Hho Hsh)
    as (hl & sl & _ & _ & _ & Hlow & Hother).
  pose proof (directives_length fs d hl sl) as Hlen.
  destruct Hsev as [-> | [-> | ->]].
  - rewrite (Hlow eq_refl). split; [split; reflexivity|].
    destruct (String.eqb d "earthquake"), (String.eqb d "tsunami");
      simpl; lia.
  - rewrite (Hother "moderate" eq_refl) by discriminate.
    split; [split; discriminate|].
    cbn [List.length].
    destruct (String.eqb d "earthquake"), (String.eqb d "tsunami"); lia.
  - rewrite (Hother "high" eq_refl) by discriminate.
    split; [split; discriminate|].
    cbn [List.length].
    destruct (String.eqb d "earthquake"), (String.eqb d "tsunami"); lia.
Qed.

(** X14.  The action plan of an assessment has no line exactly when all
    five final severities are low, and never more than 25 lines: at most
    six for the earthquake (header, two directives, one line of hospitals,
    one of shelters, the tsunami warning), four for the tsunami and five
    for each other hazard. *)
Theorem action_plan_size (w : world) (lat lon : num) (log : list request) :
  exists (d fs : list (string * value)) (plan : list value)
         (log' : list request),
    assess w lat lon log = (Ok (VDict d), log') /\
    assoc "final_severities" d = Some (VDict fs) /\
    assoc "action_plan" d = Some (VList plan) /\
    (plan = [] <-> Forall (fun kv => snd kv = VStr "low") fs) /\
    (List.length plan <= 25)%nat.
Proof.
  destruct (assess_run w lat lon log)
    as (qk & we & sh & ho & sn & hu & ts & wf & issued & H).
  cbv zeta in H.
  destruct H as (Hrun & _ & _ & _ & _ & _ & _ & _ & _ & Psh & Pho
                 & Psn & Phu & Pts & Pwf).
  pose proof (final_severities_labels w qk sn hu ts wf Psn Phu Pts Pwf)
    as Hlabels.
  eexists. eexists. eexists. eexists. split; [exact Hrun|].
  split; [reflexivity|]. split; [reflexivity|].
  set (fs := final_severities_of w qk sn hu ts wf) in *.
  assert (Hsize : forall kv, In kv fs ->
            (hazard_block w ho sh fs (fst kv) (snd kv) = []
             <-> snd kv = VStr "low") /\
            (List.length (hazard_block w ho sh fs (fst kv) (snd kv))
             <= if String.eqb (fst kv) "earthquake" then 6
                else if String.eqb (fst kv) "tsunami" then 4 else 5)%nat).
  { intros kv Hin. apply hazard_block_size; [|exact Pho | exact Psh].
    rewrite Forall_forall in Hlabels. exact (Hlabels kv Hin). }
  split.
  - split.
    + intros Hnil. apply map_eq_nil in Hnil.
      apply flat_map_nil in Hnil. rename Hnil into Hflat. rewrite Forall_forall in *.
      intros kv Hin. apply (Hsize kv Hin). exact (Hflat kv Hin).
    + intros Hlow.
      assert (Hflat : flat_map
                (fun kv => hazard_block w ho sh fs (fst kv) (snd kv)) fs = []).
      { apply flat_map_nil. rewrite Forall_forall in *.
        intros kv Hin. apply (Hsize kv Hin). exact (Hlow kv Hin). }
      rewrite Hflat. reflexivity.
  - rewrite length_map.
    apply (Nat.le_trans _ _ _
             (flat_map_length_bound _
                (fun kv => if String.eqb (fst kv) "earthquake" then 6
                           else if String.eqb (fst kv) "tsunami" then 4
                           else 5)%nat
                fs (fun kv Hin => proj2 (Hsize kv Hin)))).
    apply Nat.eq_le_incl. reflexivity.
Qed.

(** ** [make_directions_url] *)

Lemma all_chars_app (p : ascii -> bool) (s t : string) :
  all_chars p (s ++ t)%string = all_chars p s && all_chars p t.
Proof.
  induction s as [|c s IH]; simpl; [reflexivity|].
  rewrite IH. apply andb_assoc.
Qed.

Lemma count_char_app (c : ascii) (s t : string) :
  count_char c (s ++ t)%string = (count_char c s + count_char c t)%nat.
Proof.
  induction s as [|c' s IH]; simpl; [reflexivity|]. rewrite IH. lia.
Qed.

Lemma string_app_assoc (s t u : string) :
  ((s ++ t) ++ u = s ++ (t ++ u))%string.
Proof. induction s as [|c s IH]; simpl; [reflexivity|]. rewrite IH. reflexivity. Qed.

Lemma hex_digit_safe (n : nat) : (n < 16)%nat -> always_safe (hex_digit n) = true.
Proof.
  intros H.
  do 16 (destruct n as [|n]; [reflexivity|]). lia.
Qed.

Lemma percent_escape_quoted (c : ascii) :
  all_chars quoted_char (percent_escape c) = true.
Proof.
  unfold percent_escape. cbn [all_chars].
  assert (Hn : (nat_of_ascii c < 256)%nat) by apply nat_ascii_bounded.
  unfold quoted_char at 2 3.
  rewrite hex_digit_safe by (apply Nat.Div0.div_lt_upper_bound; lia).
  rewrite hex_digit_safe by (apply Nat.mod_upper_bound; lia).
  reflexivity.
Qed.

Lemma all_chars_count (p : ascii -> bool) (c : ascii) (s : string) :
  p c = false -> all_chars p s = true -> count_char c s = 0%nat.
Proof.
  intros Hc. induction s as [|c' s IH]; simpl; [reflexivity|].
  intros H. apply andb_prop in H. destruct H as (Hc' & Hs).
  destruct (Ascii.eqb_spec c' c) as [-> | _]; [congruence|].
  rewrite (IH Hs). reflexivity.
Qed.

Lemma quote_plus_quoted (s : string) :
  all_chars quoted_char (quote_plus s) = true.
Proof.
  induction s as [|c s IH]; [reflexivity|]. cbn [quote_plus].
  rewrite all_chars_app, IH, andb_true_r.
  destruct (always_safe c) eqn:Hc.
  - cbn [all_chars]. unfold quoted_char. rewrite Hc. reflexivity.
  - destruct (Ascii.eqb c " "); [reflexivity | apply percent_escape_quoted].
Qed.

Lemma quote_plus_app (s t : string) :
  quote_plus (s ++ t) = (quote_plus s ++ quote_plus t)%string.
Proof.
  induction s as [|c s IH]; [reflexivity|]. cbn [quote_plus append].
  change (String c s ++ t)%string with (String c (s ++ t)%string).
  cbn [quote_plus]. rewrite IH. symmetry. apply string_app_assoc.
Qed.

Example quote_plus_coordinates :
  quote_plus "13.08,-80.27 a&b=c" = "13.08%2C-80.27+a%26b%3Dc".
Proof. reflexivity. Qed.

Lemma quote_plus_count (c : ascii) (s : string) :
  quoted_char c = false -> count_char c (quote_plus s) = 0%nat.
Proof.
  intros Hc. apply (all_chars_count quoted_char); [exact Hc|].
  apply quote_plus_quoted.
Qed.

Lemma coordinate_text_quoted (w : world) (a b : value) (text : string) :
  coordinate_text w a b = Ok text ->
  exists x y,
    py_float w a = Ok x /\ py_float w b = Ok y /\
    quote_plus text
    = (quote_plus (py_str w (VNum x)) ++ "%2C"
       ++ quote_plus (py_str w (VNum y)))%string.
Proof.
  unfold coordinate_text. intros H.
  destruct (py_float w a) as [x|]; [|discriminate]. cbn [obind] in H.
  destruct (py_float w b) as [y|]; [|discriminate]. cbn [obind] in H.
  injection H as <-. exists x, y. split; [reflexivity|]. split; [reflexivity|].
  rewrite quote_plus_app. reflexivity.
Qed.

(** X15.  [make_directions_url] returns [None] or a text, and it returns a
    text exactly when [float] accepts the four coordinates (so none of them
    is [None]).  The text is then the fixed prefix followed by the three
    parameters, each coordinate pair quoted with its comma as [%2C]; as a
    quoted text has no [&], [=] or [?], the link has exactly three [&],
    four [=] and one [?], whatever the coordinates and the travel mode
    are. *)
Theorem make_directions_url_result
    (w : world) (a b c d : value) (travelmode : string) :
  (make_directions_url w a b c d travelmode = VNone \/
   exists url, make_directions_url w a b c d travelmode = VStr url) /\
  forall url,
    make_directions_url w a b c d travelmode = VStr url <->
    exists x y z t,
      py_float w a = Ok x /\ py_float w b = Ok y /\
      py_float w c = Ok z /\ py_float w d = Ok t /\
      url = ("https://www.google.com/maps/dir/?api=1&origin="
             ++ quote_plus (py_str w (VNum x)) ++ "%2C"
             ++ quote_plus (py_str w (VNum y))
             ++ "&destination="
             ++ quote_plus (py_str w (VNum z)) ++ "%2C"
             ++ quote_plus (py_str w (VNum t))
             ++ "&travelmode=" ++ quote_plus travelmode)%string /\
      count_char "&" url = 3%nat /\ count_char "=" url = 4%nat /\
      count_char "?" url = 1%nat.
Proof.
  assert (Hnone : forall v, is_none v = true -> exists e, py_float w v = Raise e).
  { intros v Hv. destruct v; try discriminate. eexists. reflexivity. }
  unfold make_directions_url.
  destruct (is_none a || is_none b || is_none c || is_none d) eqn:Hn.
  { split; [left; reflexivity|]. intros url. split; [discriminate|].
    intros (x & y & z & t & Ha & Hb & Hc & Hd & _). exfalso.
    repeat (apply orb_prop in Hn; destruct Hn as [Hn | Hn]);
      destruct (Hnone _ Hn) as (e & He); congruence. }
  destruct (coordinate_text w a b) as [origin|] eqn:Ho; cbn [obind].
  2:{ split; [left; reflexivity|]. intros url. split; [discriminate|].
      intros (x & y & z & t & Ha & Hb & _). exfalso.
      unfold coordinate_text in Ho. rewrite Ha, Hb in Ho. discriminate Ho. }
  destruct (coordinate_text w c d) as [dest|] eqn:Hd; cbn [obind].
  2:{ split; [left; reflexivity|]. intros url. split; [discriminate|].
      intros (x & y & z & t & _ & _ & Hc & Hd' & _). exfalso.
      unfold coordinate_text in Hd. rewrite Hc, Hd' in Hd. discriminate Hd. }
  split; [right; eexists; reflexivity|].
  destruct (coordinate_text_quoted _ _ _ _ Ho) as (x & y & Hx & Hy & Hqo).
  destruct (coordinate_text_quoted _ _ _ _ Hd) as (z & t & Hz & Ht & Hqd).
  assert (Hurl :
    ("https://www.google.com/maps/dir/?api=1" ++ "&origin="
     ++ quote_plus origin ++ "&destination=" ++ quote_plus dest
     ++ "&travelmode=" ++ quote_plus travelmode)%string
    = ("https://www.google.com/maps/dir/?api=1&origin="
       ++ quote_plus (py_str w (VNum x)) ++ "%2C"
       ++ quote_plus (py_str w (VNum y))
       ++ "&destination="
       ++ quote_plus (py_str w (VNum z)) ++ "%2C"
       ++ quote_plus (py_str w (VNum t))
       ++ "&travelmode=" ++ quote_plus travelmode)%string).
  { rewrite Hqo, Hqd. repeat rewrite string_app_assoc. reflexivity. }
  rewrite Hurl. clear Hurl.
  intros url. split.
  - intros H. injection H as <-. exists x, y, z, t.
    split; [exact Hx|]. split; [exact Hy|]. split; [exact Hz|].
    split; [exact Ht|]. split; [reflexivity|].
    split; [|split];
      repeat (progress cbn [count_char append Ascii.eqb Bool.eqb]
              || rewrite count_char_app
              || rewrite quote_plus_count by reflexivity);
      reflexivity.
  - intros (x' & y' & z' & t' & Hx' & Hy' & Hz' & Ht' & -> & _).
    congruence.
Qed.

(** ** [severity_badge] *)

(** X16.  The badges of the overview.  For each of the five hazards the
    report of an assessment carries one of the three labels, and the badge
    drawn for it has the class [sev-<label>] and shows the label in upper
    case, the same text the header of the hazard's block in the action plan
    uses; a key missing from the final severities would be drawn as LOW. *)
Theorem overview_badges (w : world) (lat lon : num) (log : list request) :
  exists (d fs : list (string * value)) (log' : list request),
    assess w lat lon log = (Ok (VDict d), log') /\
    assoc "final_severities" d = Some (VDict fs) /\
    (forall k, In k plan_hazards ->
       exists s,
         assoc k fs = Some (VStr s) /\
         (s = "low" \/ s = "moderate" \/ s = "high") /\
         overview_badge w fs k
         = ("<span class='severity-badge sev-" ++ s ++ "'>"
            ++ upper s ++ "</span>")%string) /\
    (forall k, assoc k fs = None ->
       overview_badge w fs k = "<span class='severity-badge sev-low'>LOW</span>").
Proof.
  destruct (assess_run w lat lon log)
    as (qk & we & sh & ho & sn & hu & ts & wf & issued & H).
  cbv zeta in H.
  destruct H as (Hrun & _ & _ & _ & _ & _ & _ & _ & _ & _ & _
                 & Psn & Phu & Pts & Pwf).
  pose proof (final_severities_labels w qk sn hu ts wf Psn Phu Pts Pwf)
    as Hlabels.
  eexists. eexists. eexists. split; [exact Hrun|]. split; [reflexivity|].
  split.
  - rewrite Forall_forall in Hlabels. intros k Hk.
    assert (Hkv : exists v, In (k, v) (final_severities_of w qk sn hu ts wf)
                            /\ assoc k (final_severities_of w qk sn hu ts wf)
                               = Some v).
    { unfold final_severities_of.
      destruct Hk as [<- | [<- | [<- | [<- | [<- | []]]]]];
        eexists; (split; [|reflexivity]); simpl; auto 10. }
    destruct Hkv as (v & Hin & Hassoc).
    unfold overview_badge. rewrite Hassoc.
    destruct (Hlabels _ Hin) as [E | [E | E]]; cbn [snd] in E; subst v;
      eexists; (split; [reflexivity|]); (split; [|reflexivity]); auto.
  - intros k Hk. unfold overview_badge. rewrite Hk. reflexivity.
Qed.

Example badge_is_high_for_anything_else (w : world) :
  severity_badge w (VStr "Moderate")
  = "<span class='severity-badge sev-moderate'>MODERATE</span>" /\
  severity_badge w (VStr "severe")
  = "<span class='severity-badge sev-high'>HIGH</span>" /\
  severity_badge w (VStr "")
  = "<span class='severity-badge sev-high'>HIGH</span>".
Proof. repeat split; reflexivity. Qed.

(** ** [find_schools], [find_hospitals]: the ranking *)

Lemma num_le_trans (a b c : num) :
  num_cmp OpLe a b = true -> num_cmp OpLe b c = true ->
  num_cmp OpLe a c = true.
Proof.
  destruct a as [p| | |], b as [q| | |], c as [r| | |];
    try reflexivity; try discriminate.
  unfold num_cmp; simpl.
  destruct (Qcompare_spec p q) as [E1 | L1 | G1]; simpl; try discriminate;
    intros _;
    destruct (Qcompare_spec q r) as [E2 | L2 | G2]; simpl; try discriminate;
    intros _;
    destruct (Qcompare_spec p r) as [E3 | L3 | G3]; simpl; try reflexivity;
    exfalso.
  - rewrite E1, E2 in G3. exact (Qlt_irrefl _ G3).
  - rewrite E1 in G3. exact (Qlt_irrefl _ (Qlt_trans _ _ _ L2 G3)).
  - rewrite <- E2 in G3. exact (Qlt_irrefl _ (Qlt_trans _ _ _ L1 G3)).
  - exact (Qlt_irrefl _ (Qlt_trans _ _ _ (Qlt_trans _ _ _ L1 L2) G3)).
Qed.

Lemma num_lt_le (a b : num) :
  num_cmp OpLt a b = true -> num_cmp OpLe a b = true.
Proof.
  unfold num_cmp. destruct (num_compare a b) as [[ | | ]|]; simpl; congruence.
Qed.

Lemma num_not_lt_le (a b : num) :
  a <> NaN -> b <> NaN ->
  num_cmp OpLt a b = false -> num_cmp OpLe b a = true.
Proof.
  intros Ha Hb H. rewrite <- num_gt_lt in H.
  apply num_not_gt_le; assumption.
Qed.

(** A key equal to [d] is not the key of anything strictly farther. *)
Lemma num_eqb_lt_le (a b c d : num) :
  num_eqb a d = true -> num_cmp OpLt a b = true -> num_cmp OpLe b c = true ->
  num_eqb c d = false.
Proof.
  destruct a as [p| | |], b as [q| | |], c as [r| | |], d as [t| | |];
    try reflexivity; try discriminate.
  unfold num_eqb, num_cmp; simpl.
  destruct (Qcompare_spec p t) as [E1 | L1 | G1]; try discriminate; intros _.
  destruct (Qcompare_spec p q) as [E2 | L2 | G2]; simpl; try discriminate;
    intros _.
  destruct (Qcompare_spec q r) as [E3 | L3 | G3]; simpl; try discriminate;
    intros _;
    destruct (Qcompare_spec r t) as [E4 | L4 | G4]; try reflexivity; exfalso.
  - rewrite E1, <- E4, <- E3 in L2. exact (Qlt_irrefl _ L2).
  - rewrite E1, <- E4 in L2. exact (Qlt_irrefl _ (Qlt_trans _ _ _ L2 L3)).
Qed.

Lemma insert_by_distance_perm (p : place) (l : list place) :
  Permutation (p :: l) (insert_by_distance p l).
Proof.
  induction l as [|q l IH]; cbn [insert_by_distance]; [reflexivity|].
  destruct (num_cmp OpLt (place_distance_km p) (place_distance_km q));
    [reflexivity|].
  rewrite perm_swap. constructor. exact IH.
Qed.

Lemma insert_by_distance_sorted (p : place) (l : list place) :
  place_distance_km p <> NaN -> ordered_distances l ->
  StronglySorted not_farther l ->
  StronglySorted not_farther (insert_by_distance p l).
Proof.
  intros Hp Hl Hs. induction Hs as [|q l Hs IH Hq]; cbn [insert_by_distance].
  - constructor; constructor.
  - inversion Hl as [|? ? Hqn Hln]; subst.
    destruct (num_cmp OpLt (place_distance_km p) (place_distance_km q))
      eqn:Hlt.
    + constructor; [constructor; assumption|].
      constructor; [exact (num_lt_le _ _ Hlt)|].
      rewrite Forall_forall in *. intros x Hx.
      exact (num_le_trans _ _ _ (num_lt_le _ _ Hlt) (Hq x Hx)).
    + constructor; [exact (IH Hln)|].
      rewrite Forall_forall in *. intros x Hx.
      apply (Permutation_in _ (Permutation_sym (insert_by_distance_perm p l)))
        in Hx.
      destruct Hx as [<- | Hx]; [|exact (Hq x Hx)].
      exact (num_not_lt_le _ _ Hp Hqn Hlt).
Qed.

Lemma num_lt_le_refl (a b : num) :
  num_cmp OpLt a b = true -> num_cmp OpLe b b = true.
Proof.
  destruct a as [p| | |], b as [q| | |]; try reflexivity; try discriminate.
  all: intros _; unfold num_cmp; cbn [num_compare];
    rewrite (proj1 (Qeq_alt q q) (Qeq_refl q)); reflexivity.
Qed.

(** Insertion puts the new item behind the items of equal distance. *)
Lemma insert_by_distance_stable (d : num) (p : place) (l : list place) :
  StronglySorted not_farther l ->
  filter (fun x => num_eqb (place_distance_km x) d) (insert_by_distance p l)
  = filter (fun x => num_eqb (place_distance_km x) d) l
    ++ (if num_eqb (place_distance_km p) d then [p] else []).
Proof.
  intros Hs. induction Hs as [|q l Hs IH Hq].
  - cbn [insert_by_distance filter app].
    destruct (num_eqb (place_distance_km p) d); reflexivity.
  - cbn [insert_by_distance].
    destruct (num_cmp OpLt (place_distance_km p) (place_distance_km q))
      eqn:Hlt.
    + destruct (num_eqb (place_distance_km p) d) eqn:Hp.
      * assert (Hnone : filter (fun x => num_eqb (place_distance_km x) d)
                          (q :: l) = []).
        { assert (Hall : forall x, In x (q :: l) ->
                    num_eqb (place_distance_km x) d = false).
          { intros x [<- | Hx].
            - exact (num_eqb_lt_le _ _ _ _ Hp Hlt (num_lt_le_refl _ _ Hlt)).
            - rewrite Forall_forall in Hq.
              exact (num_eqb_lt_le _ _ _ _ Hp Hlt (Hq x Hx)). }
          clear - Hall. induction (q :: l) as [|x l' IH']; [reflexivity|].
          simpl. rewrite (Hall x (or_introl eq_refl)).
          apply IH'. intros y Hy. apply Hall. right. exact Hy. }
        transitivity
          (p :: filter (fun x => num_eqb (place_distance_km x) d) (q :: l)).
        { cbn [filter]. rewrite Hp. reflexivity. }
        rewrite Hnone. reflexivity.
      * cbn [filter]. rewrite Hp. rewrite app_nil_r. reflexivity.
    + cbn [filter]. rewrite IH.
      destruct (num_eqb (place_distance_km q) d); reflexivity.
Qed.

Lemma sort_from_perm (items : list place) :
  forall sorted,
    Permutation (sorted ++ items)
      (fold_left (fun acc p => insert_by_distance p acc) items sorted).
Proof.
  induction items as [|p items IH]; intros sorted; simpl.
  - rewrite app_nil_r. reflexivity.
  - rewrite <- IH. rewrite <- Permutation_middle.
    apply (Permutation_app_tail items (insert_by_distance_perm p sorted)).
Qed.

Lemma ordered_distances_perm (l l' : list place) :
  Permutation l l' -> ordered_distances l -> ordered_distances l'.
Proof. intros Hp. apply Permutation_Forall. exact Hp. Qed.

Lemma sort_from_sorted (items : list place) :
  forall sorted,
    ordered_distances sorted -> ordered_distances items ->
    StronglySorted not_farther sorted ->
    StronglySorted not_farther
      (fold_left (fun acc p => insert_by_distance p acc) items sorted).
Proof.
  induction items as [|p items IH]; intros sorted Hs Hi Hsorted; simpl;
    [exact Hsorted|].
  inversion Hi as [|? ? Hp Hi']; subst.
  apply IH; [|exact Hi'|].
  - apply (ordered_distances_perm (p :: sorted));
      [apply insert_by_distance_perm | constructor; assumption].
  - apply insert_by_distance_sorted; assumption.
Qed.

Lemma sort_from_stable (d : num) (items : list place) :
  forall sorted,
    ordered_distances sorted -> ordered_distances items ->
    StronglySorted not_farther sorted ->
    filter (fun x => num_eqb (place_distance_km x) d)
      (fold_left (fun acc p => insert_by_distance p acc) items sorted)
    = filter (fun x => num_eqb (place_distance_km x) d) sorted
      ++ filter (fun x => num_eqb (place_distance_km x) d) items.
Proof.
  induction items as [|p items IH]; intros sorted Hs Hi Hsorted; simpl.
  - rewrite app_nil_r. reflexivity.
  - inversion Hi as [|? ? Hp Hi']; subst.
    rewrite IH; [| |exact Hi'|].
    + rewrite (insert_by_distance_stable d p sorted Hsorted).
      rewrite <- app_assoc.
      destruct (num_eqb (place_distance_km p) d); reflexivity.
    + apply (ordered_distances_perm (p :: sorted));
        [apply insert_by_distance_perm | constructor; assumption].
    + apply insert_by_distance_sorted; assumption.
Qed.

Lemma strongly_sorted_app {A : Type} (R : A -> A -> Prop) (l1 l2 : list A) :
  StronglySorted R (l1 ++ l2) ->
  StronglySorted R l1 /\ (forall x y, In x l1 -> In y l2 -> R x y).
Proof.
  induction l1 as [|a l1 IH]; simpl; intros H.
  - split; [constructor | intros x y []].
  - inversion H as [|? ? Hs Ha]; subst. destruct (IH Hs) as (Hs1 & Hcross).
    rewrite Forall_forall in Ha. split.
    + constructor; [exact Hs1|]. rewrite Forall_forall. intros x Hx.
      apply Ha. apply in_or_app. left. exact Hx.
    + intros x y [<- | Hx] Hy.
      * apply Ha. apply in_or_app. right. exact Hy.
      * exact (Hcross x y Hx Hy).
Qed.

(** X17.  The ranking of [find_schools] and [find_hospitals], when no
    distance is NaN: the items returned are the first [max_results] of the
    candidates (all of them when there are fewer), in ascending order of
    distance; no candidate left out is nearer than an item returned; and
    candidates at equal distance stay in the order in which they were
    built. *)
Theorem nearest_is_a_ranking (max_results : nat) (items : list place) :
  ordered_distances items ->
  exists rest,
    Permutation items (nearest max_results items ++ rest) /\
    List.length (nearest max_results items)
    = Nat.min max_results (List.length items) /\
    StronglySorted not_farther (nearest max_results items) /\
    (forall p q, In p (nearest max_results items) -> In q rest ->
                 not_farther p q) /\
    (forall d,
        filter (fun x => num_eqb (place_distance_km x) d)
          (nearest max_results items ++ rest)
        = filter (fun x => num_eqb (place_distance_km x) d) items).
Proof.
  intros Hitems. unfold nearest.
  exists (skipn max_results (sort_by_distance items)).
  pose proof (sort_from_perm items []) as Hperm. cbn [app] in Hperm.
  pose proof (sort_from_sorted items [] (Forall_nil _) Hitems
                (SSorted_nil _)) as Hsorted.
  fold (sort_by_distance items) in Hperm, Hsorted.
  rewrite firstn_skipn. split; [exact Hperm|]. split.
  { rewrite length_firstn, (Permutation_length Hperm). reflexivity. }
  rewrite <- (firstn_skipn max_results (sort_by_distance items)) in Hsorted.
  destruct (strongly_sorted_app _ _ _ Hsorted) as (Hfirst & Hcross).
  split; [exact Hfirst|]. split; [exact Hcross|].
  intros d. unfold sort_by_distance.
  rewrite (sort_from_stable d items [] (Forall_nil _) Hitems (SSorted_nil _)).
  reflexivity.
Qed.

Lemma nearest_is_a_ranking_witness :
  ordered_distances three_places /\
  exists rest,
    Permutation three_places (nearest 2 three_places ++ rest) /\
    List.length (nearest 2 three_places)
    = Nat.min 2 (List.length three_places) /\
    StronglySorted not_farther (nearest 2 three_places) /\
    (forall p q, In p (nearest 2 three_places) -> In q rest ->
                 not_farther p q) /\
    (forall d,
        filter (fun x => num_eqb (place_distance_km x) d)
          (nearest 2 three_places ++ rest)
        = filter (fun x => num_eqb (place_distance_km x) d) three_places).
Proof.
  assert (H : ordered_distances three_places)
    by (repeat constructor; discriminate).
  split; [exact H|]. exact (nearest_is_a_ranking 2 three_places H).
Defined.

Example nearest_two_of_three :
  map place_name (nearest 2 three_places) = ["Near"; "Far"] /\
  map place_name (sort_by_distance three_places) = ["Near"; "Far"; "Also far"].
Proof. split; reflexivity. Qed.

(** ** [find_schools], [find_hospitals]: the items *)

Lemma for_each_inv {A B : Type} (f : A -> outcome B) (l : list A) :
  forall ys, for_each f l = Ok ys -> Forall2 (fun x y => f x = Ok y) l ys.
Proof.
  induction l as [|x l IH]; intros ys H; simpl in H.
  - injection H as <-. constructor.
  - destruct (f x) as [y|] eqn:Hx; [|discriminate]. cbn [obind] in H.
    destruct (for_each f l) as [ys'|]; [|discriminate]. cbn [obind] in H.
    injection H as <-. constructor; [exact Hx | apply IH; reflexivity].
Qed.

Lemma forall2_in_r {A B : Type} (R : A -> B -> Prop) (l : list A)
    (l' : list B) :
  Forall2 R l l' -> forall y, In y l' -> exists x, In x l /\ R x y.
Proof.
  induction 1 as [|x y l l' Hxy _ IH]; intros z Hz; [destruct Hz|].
  destruct Hz as [<- | Hz].
  - exists x. split; [left; reflexivity | exact Hxy].
  - destruct (IH z Hz) as (x' & Hin & Hr). exists x'. split; [right|]; assumption.
Qed.

Lemma forall2_left {A B : Type} (R : A -> B -> Prop) (P : A -> Prop)
    (l : list A) (l' : list B) :
  (forall x y, R x y -> P x) -> Forall2 R l l' -> Forall P l.
Proof.
  intros HP. induction 1 as [|x y l l' Hxy _ IH]; constructor; eauto.
Qed.

Lemma nearest_in (max_results : nat) (items : list place) (p : place) :
  In p (nearest max_results items) -> In p items.
Proof.
  unfold nearest. intros H.
  apply (Permutation_in _ (Permutation_sym (sort_from_perm items []))).
  cbn [app]. fold (sort_by_distance items).
  rewrite <- (firstn_skipn max_results (sort_by_distance items)).
  apply in_or_app. left. exact H.
Qed.

Lemma nearest_length (max_results : nat) (items : list place) :
  List.length (nearest max_results items)
  = Nat.min max_results (List.length items).
Proof.
  unfold nearest. rewrite length_firstn. f_equal.
  symmetry. exact (Permutation_length (sort_from_perm items [])).
Qed.

Section LookupFacts.

Variable w : world.
Variable item_at :
  num -> num -> num -> num -> list (string * string) -> outcome place.

(** What a successful look-up went through. *)
Lemma lookup_items_inv (lat lon : num) (max_results : nat)
    (answer : outcome overpass_result) (out : list place) :
  lookup_items w item_at lat lon max_results answer = Ok out ->
  exists r,
    answer = Ok r /\
    List.length out
    = Nat.min max_results
        (List.length (res_nodes r) + List.length (res_ways r)) /\
    Forall (fun n => exists x y,
                py_float w (node_lat n) = Ok x /\
                py_float w (node_lon n) = Ok y) (res_nodes r) /\
    Forall (fun wy => exists x y, way_center wy = Ok (Some x, Some y))
      (res_ways r) /\
    Forall (fun p => exists nlat nlon tags,
                In tags (map node_tags (res_nodes r)
                         ++ map way_tags (res_ways r)) /\
                item_at lat lon nlat nlon tags = Ok p) out.
Proof.
  unfold lookup_items. intros H.
  destruct answer as [r|]; [|discriminate]. cbn [obind] in H.
  destruct (for_each (node_item w item_at lat lon) (res_nodes r))
    as [from_nodes|] eqn:Hn; [|discriminate].
  cbn [obind] in H.
  destruct (for_each (way_item item_at lat lon) (res_ways r))
    as [from_ways|] eqn:Hw; [|discriminate].
  cbn [obind] in H. injection H as <-.
  apply for_each_inv in Hn. apply for_each_inv in Hw.
  exists r. split; [reflexivity|]. split.
  { rewrite nearest_length, length_app.
    rewrite (Forall2_length Hn), (Forall2_length Hw). reflexivity. }
  split.
  { revert Hn. apply forall2_left. intros n p Hp. unfold node_item in Hp.
    destruct (py_float w (node_lat n)) as [x|]; [|discriminate].
    destruct (py_float w (node_lon n)) as [y|]; [|discriminate].
    exists x, y. split; reflexivity. }
  split.
  { revert Hw. apply forall2_left. intros wy p Hp. unfold way_item in Hp.
    destruct (way_center wy) as [[[x|] [y|]]|]; try discriminate.
    exists x, y. reflexivity. }
  rewrite Forall_forall. intros p Hp. apply nearest_in in Hp.
  apply in_app_or in Hp. destruct Hp as [Hp | Hp].
  - destruct (forall2_in_r _ _ _ Hn p Hp) as (n & Hin & Hitem).
    unfold node_item in Hitem.
    destruct (py_float w (node_lat n)) as [x|]; [|discriminate].
    destruct (py_float w (node_lon n)) as [y|]; [|discriminate].
    cbn [obind] in Hitem. exists x, y, (node_tags n).
    split; [|exact Hitem]. apply in_or_app. left. apply in_map. exact Hin.
  - destruct (forall2_in_r _ _ _ Hw p Hp) as (wy & Hin & Hitem).
    unfold way_item in Hitem.
    destruct (way_center wy) as [[[x|] [y|]]|]; try discriminate.
    cbn [obind center_coordinate fst snd] in Hitem.
    exists x, y, (way_tags wy).
    split; [|exact Hitem]. apply in_or_app. right. apply in_map. exact Hin.
Qed.

End LookupFacts.

(** X18.  [find_hospitals], with the Overpass answer spelled out.  The
    look-up is an error as soon as the query, the coordinates of one node,
    the centre of one way or one distance fails.  Otherwise all nodes have
    coordinates and all ways a centre, and the result lists
    [min 8 (nodes + ways)] items; each has the distance of its own
    coordinate, the name and the type of the tags of a node or a way of the
    answer ([amenity], else [healthcare], else ["healthcare"]; the name
    ["Unknown"] when there is none), and a directions link, never [None],
    from the queried point to the item. *)
Theorem find_hospitals_items
    (w : world) (rounded_distance : num -> num -> num -> num -> outcome num)
    (lat lon : num) (log : list request) (answer : outcome overpass_result) :
  w_places w log (ReqHospitals lat lon)
  = hospitals_lookup w rounded_distance lat lon answer ->
  exists res,
    find_hospitals w lat lon log = (Ok res, log ++ [ReqHospitals lat lon]) /\
    ((exists e,
        hospitals_lookup w rounded_distance lat lon answer = Raise e /\
        res = error_dict e) \/
     (exists r out,
        answer = Ok r /\
        res = VDict [("hospitals", VList (map hospital_item out))] /\
        List.length out
        = Nat.min 8 (List.length (res_nodes r) + List.length (res_ways r)) /\
        Forall (fun n => exists x y,
                    py_float w (node_lat n) = Ok x /\
                    py_float w (node_lon n) = Ok y) (res_nodes r) /\
        Forall (fun wy => exists x y, way_center wy = Ok (Some x, Some y))
          (res_ways r) /\
        Forall (fun p =>
                  rounded_distance lat lon (place_lat p) (place_lon p)
                  = Ok (place_distance_km p) /\
                  (exists tags,
                      In tags (map node_tags (res_nodes r)
                               ++ map way_tags (res_ways r)) /\
                      place_name p = tag_or "name" tags "Unknown" /\
                      place_type p = hospital_type tags) /\
                  exists url,
                    place_directions_url p = Some url /\
                    make_directions_url w (VNum lat) (VNum lon)
                      (VNum (place_lat p)) (VNum (place_lon p)) "driving"
                    = VStr url) out)).
Proof.
  intros Hworld.
  unfold find_hospitals, try_except, bind, get_places, ret. rewrite Hworld.
  destruct (hospitals_lookup w rounded_distance lat lon answer)
    as [out|e] eqn:Hlookup.
  2:{ eexists. split; [reflexivity|]. left. exists e. split; reflexivity. }
  eexists. split; [reflexivity|]. right.
  destruct (lookup_items_inv w _ lat lon 8 answer out Hlookup)
    as (r & Hr & Hlen & Hnodes & Hways & Hitems).
  exists r, out. split; [exact Hr|]. split; [reflexivity|].
  split; [exact Hlen|]. split; [exact Hnodes|]. split; [exact Hways|].
  revert Hitems. apply Forall_impl.
  intros p (nlat & nlon & tags & Hin & Hp). unfold hospital_at in Hp.
  destruct (rounded_distance lat lon nlat nlon) as [dist|] eqn:Hdist;
    [|discriminate].
  cbn [obind] in Hp. injection Hp as <-.
  cbn [place_lat place_lon place_distance_km place_name place_type
       place_directions_url].
  split; [exact Hdist|]. split.
  - exists tags. split; [exact Hin|]. split; reflexivity.
  - eexists. split; reflexivity.
Qed.

Lemma find_hospitals_items_witness :
  w_places clinic_world [] (ReqHospitals (Fin 0) (Fin 0))
  = hospitals_lookup clinic_world latitude_gap (Fin 0) (Fin 0) clinic_answer /\
  exists res,
    find_hospitals clinic_world (Fin 0) (Fin 0) []
    = (Ok res, [] ++ [ReqHospitals (Fin 0) (Fin 0)]) /\
    ((exists e,
        hospitals_lookup clinic_world latitude_gap (Fin 0) (Fin 0) clinic_answer
        = Raise e /\
        res = error_dict e) \/
     (exists r out,
        clinic_answer = Ok r /\
        res = VDict [("hospitals", VList (map hospital_item out))] /\
        List.length out
        = Nat.min 8 (List.length (res_nodes r) + List.length (res_ways r)) /\
        Forall (fun n => exists x y,
                    py_float clinic_world (node_lat n) = Ok x /\
                    py_float clinic_world (node_lon n) = Ok y) (res_nodes r) /\
        Forall (fun wy => exists x y, way_center wy = Ok (Some x, Some y))
          (res_ways r) /\
        Forall (fun p =>
                  latitude_gap (Fin 0) (Fin 0) (place_lat p) (place_lon p)
                  = Ok (place_distance_km p) /\
                  (exists tags,
                      In tags (map node_tags (res_nodes r)
                               ++ map way_tags (res_ways r)) /\
                      place_name p = tag_or "name" tags "Unknown" /\
                      place_type p = hospital_type tags) /\
                  exists url,
                    place_directions_url p = Some url /\
                    make_directions_url clinic_world (VNum (Fin 0))
                      (VNum (Fin 0)) (VNum (place_lat p))
                      (VNum (place_lon p)) "driving"
                    = VStr url) out)).
Proof.
  split; [reflexivity|].
  apply (find_hospitals_items clinic_world latitude_gap (Fin 0) (Fin 0) []
           clinic_answer).
  reflexivity.
Defined.

(** X19.  [find_schools], with the Overpass answer spelled out: an error
    as soon as the query, the coordinates of one node, the centre of one
    way or one distance fails; otherwise [min 5 (nodes + ways)] items, each
    with the distance of its own coordinate, the name of its tags
    (["Unknown"] when there is none) and their [amenity] as type
    (["school"] when there is none), and no directions link. *)
Theorem find_schools_items
    (w : world) (rounded_distance : num -> num -> num -> num -> outcome num)
    (lat lon : num) (log : list request) (answer : outcome overpass_result) :
  w_places w log (ReqSchools lat lon)
  = schools_lookup w rounded_distance lat lon answer ->
  exists res,
    find_schools w lat lon log = (Ok res, log ++ [ReqSchools lat lon]) /\
    ((exists e,
        schools_lookup w rounded_distance lat lon answer = Raise e /\
        res = error_dict e) \/
     (exists r out,
        answer = Ok r /\
        res = VDict [("shelters", VList (map school_item out))] /\
        List.length out
        = Nat.min 5 (List.length (res_nodes r) + List.length (res_ways r)) /\
        Forall (fun n => exists x y,
                    py_float w (node_lat n) = Ok x /\
                    py_float w (node_lon n) = Ok y) (res_nodes r) /\
        Forall (fun wy => exists x y, way_center wy = Ok (Some x, Some y))
          (res_ways r) /\
        Forall (fun p =>
                  rounded_distance lat lon (place_lat p) (place_lon p)
                  = Ok (place_distance_km p) /\
                  (exists tags,
                      In tags (map node_tags (res_nodes r)
                               ++ map way_tags (res_ways r)) /\
                      place_name p = tag_or "name" tags "Unknown" /\
                      place_type p = tag_or "amenity" tags "school") /\
                  py_in "directions_url" (school_item p) = false) out)).
Proof.
  intros Hworld.
  unfold find_schools, try_except, bind, get_places, ret. rewrite Hworld.
  destruct (schools_lookup w rounded_distance lat lon answer)
    as [out|e] eqn:Hlookup.
  2:{ eexists. split; [reflexivity|]. left. exists e. split; reflexivity. }
  eexists. split; [reflexivity|]. right.
  destruct (lookup_items_inv w _ lat lon 5 answer out Hlookup)
    as (r & Hr & Hlen & Hnodes & Hways & Hitems).
  exists r, out. split; [exact Hr|]. split; [reflexivity|].
  split; [exact Hlen|]. split; [exact Hnodes|]. split; [exact Hways|].
  revert Hitems. apply Forall_impl.
  intros p (nlat & nlon & tags & Hin & Hp). unfold school_at in Hp.
  destruct (rounded_distance lat lon nlat nlon) as [dist|] eqn:Hdist;
    [|discriminate].
  cbn [obind] in Hp. injection Hp as <-.
  cbn [place_lat place_lon place_distance_km place_name place_type].
  split; [exact Hdist|]. split; [|reflexivity].
  exists tags. split; [exact Hin|]. split; reflexivity.
Qed.

Lemma find_schools_items_witness :
  w_places clinic_world [] (ReqSchools (Fin 0) (Fin 0))
  = schools_lookup clinic_world latitude_gap (Fin 0) (Fin 0) clinic_answer /\
  exists res,
    find_schools clinic_world (Fin 0) (Fin 0) []
    = (Ok res, [] ++ [ReqSchools (Fin 0) (Fin 0)]) /\
    ((exists e,
        schools_lookup clinic_world latitude_gap (Fin 0) (Fin 0) clinic_answer
        = Raise e /\
        res = error_dict e) \/
     (exists r out,
        clinic_answer = Ok r /\
        res = VDict [("shelters", VList (map school_item out))] /\
        List.length out
        = Nat.min 5 (List.length (res_nodes r) + List.length (res_ways r)) /\
        Forall (fun n => exists x y,
                    py_float clinic_world (node_lat n) = Ok x /\
                    py_float clinic_world (node_lon n) = Ok y) (res_nodes r) /\
        Forall (fun wy => exists x y, way_center wy = Ok (Some x, Some y))
          (res_ways r) /\
        Forall (fun p =>
                  latitude_gap (Fin 0) (Fin 0) (place_lat p) (place_lon p)
                  = Ok (place_distance_km p) /\
                  (exists tags,
                      In tags (map node_tags (res_nodes r)
                               ++ map way_tags (res_ways r)) /\
                      place_name p = tag_or "name" tags "Unknown" /\
                      place_type p = tag_or "amenity" tags "school") /\
                  py_in "directions_url" (school_item p) = false) out)).
Proof.
  split; [reflexivity|].
  apply (find_schools_items clinic_world latitude_gap (Fin 0) (Fin 0) []
           clinic_answer).
  reflexivity.
Defined.

Example clinic_world_hospitals :
  fst (find_hospitals clinic_world (Fin 0) (Fin 0) [])
  = Ok (VDict
          [("hospitals",
            VList
              [VDict [("name", VStr "Mercy"); ("lat", vnum 1); ("lon", vnum 2);
                      ("distance_km", VNum (Fin (1 - 0)));
                      ("type", VStr "clinic");
                      ("directions_url",
                       VStr "https://www.google.com/maps/dir/?api=1&origin=%3F%2C%3F&destination=%3F%2C%3F&travelmode=driving")];
               VDict [("name", VStr "Unknown"); ("lat", vnum 3); ("lon", vnum 4);
                      ("distance_km", VNum (Fin (3 - 0)));
                      ("type", VStr "hospital");
                      ("directions_url",
                       VStr "https://www.google.com/maps/dir/?api=1&origin=%3F%2C%3F&destination=%3F%2C%3F&travelmode=driving")]])]).
Proof. reflexivity. Qed.

Example hospitals_with_a_way :
  hospitals_lookup clinic_world latitude_gap (Fin 0) (Fin 0)
    (Ok {| res_nodes := [clinic_node]; res_ways := [ward_way] |})
  = Raise AttributeError.
Proof. reflexivity. Qed.

(** ** [get_recent_earthquakes] *)

Lemma insert_by_magnitude_perm (k e : value) (l : list (value * value)) :
  forall l', insert_by_magnitude k e l = Ok l' ->
             Permutation ((k, e) :: l) l'.
Proof.
  induction l as [|[k' e'] l IH]; intros l' H; cbn [insert_by_magnitude] in H.
  - injection H as <-. reflexivity.
  - destruct (py_cmp OpLt k' k) as [[|]|]; cbn [obind] in H; [| |discriminate].
    + injection H as <-. reflexivity.
    + destruct (insert_by_magnitude k e l) as [rest|]; [|discriminate].
      cbn [obind] in H. injection H as <-.
      rewrite perm_swap. constructor. apply IH. reflexivity.
Qed.

Lemma sort_keyed_perm (items : list (value * value)) :
  forall sorted out,
    sort_keyed items sorted = Ok out -> Permutation (sorted ++ items) out.
Proof.
  induction items as [|[k e] items IH]; intros sorted out H;
    cbn [sort_keyed] in H.
  - injection H as <-. rewrite app_nil_r. reflexivity.
  - destruct (insert_by_magnitude k e sorted) as [sorted'|] eqn:Hins;
      [|discriminate].
    cbn [obind] in H. rewrite <- (IH _ _ H).
    rewrite <- Permutation_middle.
    apply (Permutation_app_tail items (insert_by_magnitude_perm _ _ _ _ Hins)).
Qed.

Lemma decorate_inv (events : list value) :
  forall keyed,
    for_each (fun e => k <- magnitude_key e ;; Ok (k, e))%outcome events
    = Ok keyed ->
    map snd keyed = events /\ Forall decorated keyed.
Proof.
  induction events as [|e events IH]; intros keyed H; cbn [for_each] in H.
  - injection H as <-. split; constructor.
  - destruct (magnitude_key e) as [k|] eqn:Hk; [|discriminate].
    cbn [obind] in H.
    destruct (for_each _ events) as [keyed'|]; [|discriminate].
    cbn [obind] in H. injection H as <-.
    destruct (IH _ eq_refl) as (Hmap & Hdec).
    split; [cbn [map snd]; rewrite Hmap; reflexivity|].
    constructor; [exact Hk | exact Hdec].
Qed.

Lemma sort_by_magnitude_perm (events sorted : list value) :
  sort_by_magnitude events = Ok sorted -> Permutation events sorted.
Proof.
  unfold sort_by_magnitude. intros H.
  destruct (for_each _ events) as [keyed|] eqn:Hkeyed; [|discriminate].
  cbn [obind] in H.
  destruct (sort_keyed keyed []) as [out|] eqn:Hsort; [|discriminate].
  cbn [obind] in H. injection H as <-.
  destruct (decorate_inv _ _ Hkeyed) as (<- & _).
  apply Permutation_map. exact (sort_keyed_perm _ _ _ Hsort).
Qed.

Lemma recent_event_shape (iso_time : value -> outcome string)
    (f e : value) :
  recent_event iso_time f = Ok e ->
  exists place mag time ev_lat ev_lon url,
    e = VDict [("place", place); ("mag", mag); ("time", time);
               ("lat", ev_lat); ("lon", ev_lon); ("url", url)].
Proof.
  unfold recent_event. intros H. outcome_cases H; injection H as <-;
    repeat eexists.
Qed.

Lemma html_item_texts (w : world) (e : value) (item : string) :
  html_item w e = Ok item ->
  exists place url,
    py_item e "place" = Ok (VStr place) /\
    py_get e "url" (VStr "") = Ok (VStr url).
Proof.
  unfold html_item. intros H.
  destruct (py_item e "place") as [place|]; [|discriminate].
  cbn [obind] in H.
  destruct place; try discriminate H. cbn [py_escape obind] in H.
  destruct (py_item e "mag") as [mag|]; [|discriminate]. cbn [obind] in H.
  destruct (py_item e "time") as [time|]; [|discriminate]. cbn [obind] in H.
  destruct (py_escape (py_or time (VStr ""))); [|discriminate].
  cbn [obind] in H.
  destruct (py_get e "url" (VStr "")) as [url|]; [|discriminate].
  cbn [obind] in H. destruct url; try discriminate H.
  eexists. eexists. split; reflexivity.
Qed.

Lemma for_each_ok {A B : Type} (f : A -> outcome B) (l : list A)
    (ys : list B) :
  for_each f l = Ok ys -> Forall (fun x => exists y, f x = Ok y) l.
Proof.
  intros H. apply for_each_inv in H.
  revert H. apply forall2_left. intros x y Hxy. exists y. exact Hxy.
Qed.

(** X20.  When [get_recent_earthquakes] does not report an error: the
    feed was answered and [events] holds one entry per feature of the feed,
    reordered; the map is the one drawn for these events; each of the first
    30 events has a text for place and a text for url (an event of the feed
    without a [url], or with a null [place], among them makes the whole
    call an error, the default of [e.get("url", "")] never being used); and
    an empty feed gives the list with the single item "No earthquakes in
    the selected window." *)
Theorem recent_earthquakes_listing
    (w : world) (iso_time : value -> outcome string)
    (render_map : num -> num -> Z -> list value -> outcome string)
    (lat lon : num) (radius_km : Z) (answer : outcome value) :
  py_in "error"
    (get_recent_earthquakes w iso_time render_map lat lon radius_km answer)
  = false ->
  exists (resp : value) (fs built events : list value)
         (html map_html : string),
    answer = Ok resp /\
    feed_events resp = Ok fs /\
    Forall2 (fun f e => recent_event iso_time f = Ok e) fs built /\
    Permutation built events /\
    render_map lat lon radius_km events = Ok map_html /\
    get_recent_earthquakes w iso_time render_map lat lon radius_km answer
    = VDict [("events", VList events); ("html_list", VStr html);
             ("folium_map_html", VStr map_html)] /\
    Forall (fun e => exists place url,
                py_item e "place" = Ok (VStr place) /\
                py_item e "url" = Ok (VStr url)) (firstn 30 events) /\
    (fs = [] ->
     html = "<div class='card'><h3>Recent Earthquakes</h3><ol><li class='muted'>No earthquakes in the selected window.</li></ol></div>").
Proof.
  unfold get_recent_earthquakes, recent_earthquakes_body, feed_events.
  intros H.
  destruct answer as [resp|]; [|discriminate H]. cbn [obind] in *.
  destruct (py_get resp "features" (VList [])) as [features|] eqn:Hfeat;
    [|discriminate H].
  cbn [obind] in *.
  destruct (py_iter features) as [fs|] eqn:Hiter; [|discriminate H].
  cbn [obind] in *.
  destruct (for_each (recent_event iso_time) fs) as [built|] eqn:Hbuilt;
    [|discriminate H].
  cbn [obind] in *.
  destruct (sort_by_magnitude built) as [events|] eqn:Hsort;
    [|discriminate H].
  cbn [obind] in *.
  destruct (render_map lat lon radius_km events) as [map_html|] eqn:Hmap;
    [|discriminate H].
  cbn [obind] in *.
  destruct (for_each (html_item w) (firstn 30 events)) as [items|] eqn:Hitems;
    [|discriminate H].
  cbn [obind catch] in *. clear H.
  pose proof (sort_by_magnitude_perm _ _ Hsort) as Hperm.
  pose proof (for_each_inv _ _ _ Hbuilt) as Hfs.
  exists resp, fs, built, events. eexists. exists map_html.
  split; [reflexivity|].
  split; [rewrite Hfeat; cbn [obind]; exact Hiter|]. split; [exact Hfs|].
  split; [exact Hperm|]. split; [assumption|]. split; [reflexivity|].
  split.
  - apply for_each_ok in Hitems. rewrite Forall_forall in *.
    intros e He. destruct (Hitems e He) as (item & Hitem).
    destruct (html_item_texts _ _ _ Hitem) as (place & url & Hplace & Hurl).
    exists place, url. split; [exact Hplace|].
    assert (Hin : In e built).
    { apply (Permutation_in _ (Permutation_sym Hperm)).
      rewrite <- (firstn_skipn 30 events). apply in_or_app. left. exact He. }
    destruct (forall2_in_r _ _ _ Hfs e Hin) as (f & _ & Hf).
    destruct (recent_event_shape _ _ _ Hf)
      as (pl & mg & tm & la & lo & ur & ->).
    cbn in Hurl |- *. exact Hurl.
  - intros ->. inversion Hfs; subst. cbn in Hsort. injection Hsort as <-.
    cbn in Hitems. injection Hitems as <-. reflexivity.
Qed.

Lemma recent_earthquakes_listing_witness :
  py_in "error"
    (get_recent_earthquakes offline_world fixed_time no_map (Fin 1) (Fin 2)
       500 (Ok two_features))
  = false /\
  exists (resp : value) (fs built events : list value)
         (html map_html : string),
    Ok two_features = Ok resp /\
    feed_events resp = Ok fs /\
    Forall2 (fun f e => recent_event fixed_time f = Ok e) fs built /\
    Permutation built events /\
    no_map (Fin 1) (Fin 2) 500%Z events = Ok map_html /\
    get_recent_earthquakes offline_world fixed_time no_map (Fin 1) (Fin 2)
      500 (Ok two_features)
    = VDict [("events", VList events); ("html_list", VStr html);
             ("folium_map_html", VStr map_html)] /\
    Forall (fun e => exists place url,
                py_item e "place" = Ok (VStr place) /\
                py_item e "url" = Ok (VStr url)) (firstn 30 events) /\
    (fs = [] ->
     html = "<div class='card'><h3>Recent Earthquakes</h3><ol><li class='muted'>No earthquakes in the selected window.</li></ol></div>").
Proof.
  split; [reflexivity|].
  apply (recent_earthquakes_listing offline_world fixed_time no_map
           (Fin 1) (Fin 2) 500 (Ok two_features)).
  reflexivity.
Defined.

Example two_features_listing :
  py_item
    (get_recent_earthquakes offline_world fixed_time no_map (Fin 1) (Fin 2)
       500 (Ok two_features)) "html_list"
  = Ok (VStr "<div class='card'><h3>Recent Earthquakes</h3><ol><li><b>B</b> — M? — 1970-01-01T00:00:01Z<br/><a href='https://example.org/b' target='_blank'>Details</a></li><li><b>A &lt;north&gt;</b> — M? — <br/><a href='https://example.org/a' target='_blank'>Details</a></li></ol></div>").
Proof. reflexivity. Qed.

Example missing_url_is_an_error :
  get_recent_earthquakes offline_world fixed_time no_map (Fin 1) (Fin 2) 500
    (Ok (VDict [("features",
                 VList [VDict [("properties",
                                VDict [("mag", vnum 3);
                                       ("place", VStr "A")])]])]))
  = VDict [("error", VStr "AttributeError")].
Proof. reflexivity. Qed.

Lemma decorated_key (k e : value) (x : num) :
  decorated (k, e) -> ranked_magnitude e = Some x -> as_num k = Some x.
Proof.
  unfold decorated, ranked_magnitude. cbn [fst snd]. intros -> H. exact H.
Qed.

Lemma not_weaker_of_le (a b : value) (x y : num) :
  ranked_magnitude a = Some x -> ranked_magnitude b = Some y ->
  num_cmp OpLe y x = true -> not_weaker a b.
Proof.
  intros Ha Hb Hle. exists x, y. split; [exact Ha|]. split; [exact Hb|].
  rewrite num_ge_le. exact Hle.
Qed.

Lemma insert_by_magnitude_sorted (k e : value) (l : list (value * value)) :
  decorated (k, e) -> rankable e ->
  Forall decorated l -> Forall (fun ke => rankable (snd ke)) l ->
  StronglySorted (fun a b => not_weaker (snd a) (snd b)) l ->
  exists l',
    insert_by_magnitude k e l = Ok l' /\
    StronglySorted (fun a b => not_weaker (snd a) (snd b)) l'.
Proof.
  intros Hke (x & Hx & Hxn) Hdec Hrank Hs.
  pose proof (decorated_key _ _ _ Hke Hx) as Hk.
  induction Hs as [|[k' e'] l Hs IH Hq]; cbn [insert_by_magnitude].
  - eexists. split; [reflexivity|]. constructor; constructor.
  - inversion Hdec as [|? ? Hke' Hdec']; subst.
    inversion Hrank as [|? ? (y & Hy & Hyn) Hrank']; subst.
    cbn [snd] in Hy.
    pose proof (decorated_key _ _ _ Hke' Hy) as Hk'.
    rewrite (py_cmp_num OpLt k' k y x Hk' Hk). cbn [obind].
    destruct (num_cmp OpLt y x) eqn:Hlt.
    + eexists. split; [reflexivity|].
      constructor; [constructor; assumption|].
      constructor.
      * exact (not_weaker_of_le _ _ _ _ Hx Hy (num_lt_le _ _ Hlt)).
      * rewrite Forall_forall in *. intros z Hz.
        destruct (Hq z Hz) as (y' & z' & Hy' & Hz' & Hge).
        cbn [snd] in Hy'. rewrite Hy in Hy'. injection Hy' as <-.
        rewrite num_ge_le in Hge.
        exact (not_weaker_of_le _ _ _ _ Hx Hz'
                 (num_le_trans _ _ _ Hge (num_lt_le _ _ Hlt))).
    + destruct (IH Hdec' Hrank') as (rest & Hrest & Hsorted).
      rewrite Hrest. cbn [obind]. eexists. split; [reflexivity|].
      constructor; [exact Hsorted|].
      rewrite Forall_forall in *. intros z Hz.
      apply (Permutation_in _
               (Permutation_sym (insert_by_magnitude_perm _ _ _ _ Hrest)))
        in Hz.
      destruct Hz as [<- | Hz]; [|exact (Hq z Hz)].
      exact (not_weaker_of_le _ _ _ _ Hy Hx (num_not_lt_le _ _ Hyn Hxn Hlt)).
Qed.

Lemma sort_keyed_sorted (items : list (value * value)) :
  forall sorted,
    Forall decorated items -> Forall (fun ke => rankable (snd ke)) items ->
    Forall decorated sorted -> Forall (fun ke => rankable (snd ke)) sorted ->
    StronglySorted (fun a b => not_weaker (snd a) (snd b)) sorted ->
    exists out,
      sort_keyed items sorted = Ok out /\
      StronglySorted (fun a b => not_weaker (snd a) (snd b)) out.
Proof.
  induction items as [|[k e] items IH];
    intros sorted Hdi Hri Hds Hrs Hs; cbn [sort_keyed].
  - eexists. split; [reflexivity | exact Hs].
  - inversion Hdi as [|? ? Hke Hdi']; subst.
    inversion Hri as [|? ? Hre Hri']; subst.
    destruct (insert_by_magnitude_sorted k e sorted Hke Hre Hds Hrs Hs)
      as (sorted' & Hins & Hs').
    rewrite Hins. cbn [obind].
    pose proof (insert_by_magnitude_perm _ _ _ _ Hins) as Hperm.
    apply IH; try assumption.
    + apply (Permutation_Forall Hperm). constructor; assumption.
    + apply (Permutation_Forall Hperm). constructor; assumption.
Qed.

Lemma strongly_sorted_map {A B : Type} (f : A -> B) (R : B -> B -> Prop)
    (l : list A) :
  StronglySorted (fun a b => R (f a) (f b)) l -> StronglySorted R (map f l).
Proof.
  induction 1 as [|a l _ IH Ha]; cbn [map]; constructor; [exact IH|].
  rewrite Forall_forall in *. intros b Hb.
  apply in_map_iff in Hb. destruct Hb as (x & <- & Hx). exact (Ha x Hx).
Qed.

Lemma rankable_key (e : value) :
  rankable e -> exists k, magnitude_key e = Ok k.
Proof.
  intros (x & Hx & _). unfold ranked_magnitude in Hx.
  destruct (magnitude_key e) as [k|]; [eauto | discriminate].
Qed.

Lemma decorate_total (events : list value) :
  Forall rankable events ->
  exists keyed,
    for_each (fun e => k <- magnitude_key e ;; Ok (k, e))%outcome events
    = Ok keyed.
Proof.
  induction 1 as [|e events He _ (keyed & IH)]; cbn [for_each].
  - eexists. reflexivity.
  - destruct (rankable_key _ He) as (k & Hk). rewrite Hk. cbn [obind].
    rewrite IH. cbn [obind]. eexists. reflexivity.
Qed.

(** X21.  The order of the events of [get_recent_earthquakes], when every
    magnitude, null counted as 0, is a number and none is NaN: sorting
    succeeds, keeps every event, and no event comes before one of a
    greater magnitude. *)
Theorem sort_by_magnitude_order (events : list value) :
  Forall rankable events ->
  exists sorted,
    sort_by_magnitude events = Ok sorted /\
    Permutation events sorted /\
    StronglySorted not_weaker sorted.
Proof.
  intros Hrank. unfold sort_by_magnitude.
  destruct (decorate_total _ Hrank) as (keyed & Hkeyed).
  destruct (decorate_inv _ _ Hkeyed) as (Hmap & Hdec).
  assert (Hrk : Forall (fun ke => rankable (snd ke)) keyed).
  { rewrite <- Hmap in Hrank. rewrite Forall_map in Hrank. exact Hrank. }
  destruct (sort_keyed_sorted keyed [] Hdec Hrk (Forall_nil _) (Forall_nil _)
              (SSorted_nil _)) as (out & Hout & Hsorted).
  exists (map snd out).
  assert (Hrun : (keyed <- for_each
                     (fun e => k <- magnitude_key e ;; Ok (k, e)) events ;;
                  sorted <- sort_keyed keyed [] ;;
                  Ok (map snd sorted))%outcome = Ok (map snd out)).
  { rewrite Hkeyed. cbn [obind]. rewrite Hout. reflexivity. }
  split; [exact Hrun|].
  split; [exact (sort_by_magnitude_perm _ _ Hrun)|].
  apply strongly_sorted_map. exact Hsorted.
Qed.

Lemma sort_by_magnitude_order_witness :
  Forall rankable
    [VDict [("mag", vnum 3)]; VDict [("mag", VNone)]; VDict [("mag", vnum 5)]]
  /\
  exists sorted,
    sort_by_magnitude
      [VDict [("mag", vnum 3)]; VDict [("mag", VNone)]; VDict [("mag", vnum 5)]]
    = Ok sorted /\
    Permutation
      [VDict [("mag", vnum 3)]; VDict [("mag", VNone)]; VDict [("mag", vnum 5)]]
      sorted /\
    StronglySorted not_weaker sorted.
Proof.
  assert (H : Forall rankable
                [VDict [("mag", vnum 3)]; VDict [("mag", VNone)];
                 VDict [("mag", vnum 5)]]).
  { repeat constructor; eexists; (split; [reflexivity | discriminate]). }
  split; [exact H|]. exact (sort_by_magnitude_order _ H).
Defined.

Example magnitudes_descending :
  sort_by_magnitude
    [VDict [("mag", vnum 3)]; VDict [("mag", VNone)]; VDict [("mag", vnum 5)];
     VDict [("mag", vnum 3); ("place", VStr "later")]]
  = Ok [VDict [("mag", vnum 5)]; VDict [("mag", vnum 3)];
        VDict [("mag", vnum 3); ("place", VStr "later")];
        VDict [("mag", VNone)]].
Proof. reflexivity. Qed.

(** ** [check_flood]: the requests *)

Lemma check_flood_run (w : world) (lat lon : num) (log : list request) :
  check_flood w lat lon log
  = match obind (w_json w log (ReqPrecipForecast lat lon)) flood_forecast with
    | Raise e => (Ok (error_dict e), log ++ [ReqPrecipForecast lat lon])
    | Ok (series, f) =>
        let r := flood_recent series in
        let s7 :=
          match obind (w_json w (log ++ [ReqPrecipForecast lat lon])
                         (ReqArchivePrecip lat lon)) flood_history_body with
          | Ok total => Some total
          | Raise _ => None
          end in
        (Ok (VDict [("possible",
                     VBool (negb (String.eqb (flood_severity f r s7) "low")));
                    ("severity", VStr (flood_severity f r s7));
                    ("evidence",
                     VDict [("forecast_24h_mm", VNum f);
                            ("recent_24h_mm_approx", VNum r);
                            ("precip_last7_mm", opt_num_value s7)])]),
         log ++ [ReqPrecipForecast lat lon; ReqArchivePrecip lat lon])
    end.
Proof.
  unfold check_flood, try_except, bind. unfold get_json at 1.
  destruct (w_json w log (ReqPrecipForecast lat lon)) as [rfore|e];
    [|reflexivity].
  unfold lift at 1. cbn [obind].
  destruct (flood_forecast rfore) as [[series f]|e]; [|reflexivity].
  rewrite flood_history_run. unfold ret. cbv zeta. cbn [fst snd].
  rewrite <- app_assoc. cbn [app].
  destruct (w_json w (log ++ [ReqPrecipForecast lat lon])
              (ReqArchivePrecip lat lon)) as [rh|e]; cbn [obind];
    [|reflexivity].
  destruct (flood_history_body rh); reflexivity.
Qed.

(** X23.  [check_flood] asks for the hourly forecast first.  When the
    forecast or its figures fail, the result is an error and the archive is
    never asked; otherwise the archive request is the second and last one,
    the result carries no error whatever the archive does, and
    [precip_last7_mm] is [None] exactly when the archive request or its sum
    failed. *)
Theorem check_flood_requests (w : world) (lat lon : num) (log : list request) :
  exists res,
    fst (check_flood w lat lon log) = Ok res /\
    (py_in "error" res = true ->
     snd (check_flood w lat lon log) = log ++ [ReqPrecipForecast lat lon] /\
     exists e,
       obind (w_json w log (ReqPrecipForecast lat lon)) flood_forecast
       = Raise e) /\
    (py_in "error" res = false ->
     snd (check_flood w lat lon log)
     = log ++ [ReqPrecipForecast lat lon; ReqArchivePrecip lat lon] /\
     exists evidence,
       py_item res "evidence" = Ok evidence /\
       (py_item evidence "precip_last7_mm" = Ok VNone <->
        exists e,
          obind (w_json w (log ++ [ReqPrecipForecast lat lon])
                   (ReqArchivePrecip lat lon)) flood_history_body
          = Raise e)).
Proof.
  rewrite check_flood_run.
  destruct (w_json w log (ReqPrecipForecast lat lon)) as [rfore|e];
    cbn [obind].
  2:{ eexists. split; [reflexivity|]. split; [|discriminate].
      intros _. split; [reflexivity|]. exists e. reflexivity. }
  destruct (flood_forecast rfore) as [[series f]|e] eqn:Hfc.
  2:{ eexists. split; [reflexivity|]. split; [|discriminate].
      intros _. split; [reflexivity|]. exists e. reflexivity. }
  cbv zeta. cbn [fst snd].
  eexists. split; [reflexivity|]. split; [discriminate|].
  intros _. split; [reflexivity|].
  eexists. split; [reflexivity|].
  cbn [py_item assoc String.eqb Ascii.eqb Bool.eqb].
  destruct (w_json w (log ++ [ReqPrecipForecast lat lon])
              (ReqArchivePrecip lat lon)) as [rh|e]; cbn [obind].
  - destruct (flood_history_body rh) as [s7|e]; cbn [opt_num_value].
    + split; [discriminate | intros (e & He); discriminate He].
    + split; [intros _; exists e; reflexivity | reflexivity].
  - split; [intros _; exists e; reflexivity | reflexivity].
Qed.
